(** * Customer-service registry of lpxxn/clash

    A shallow embedding of [internal/domain/customer_service] (model.go and
    service.go) and the properties of its registry operations.

    The Go code keeps four tables of pointers ([map[string]*User] and so on)
    and mutates the objects behind them in place; a staff member's
    [Sessions] map and a group's [Members] map hold further pointers to the
    same objects.  The embedding therefore has an explicit store: one
    append-only array per struct type, a pointer being an index into it.
    Every exported method takes the service mutex for its whole body, so a
    method is one atomic state transformer. *)

From Stdlib Require Import ZArith String Ascii.
From stdpp Require Import base option list strings gmap.

(** ** model.go *)

(** [time.Time]: a wall-clock reading, in nanoseconds since the Unix epoch. *)
Abbreviation Time := Z (only parsing).

(** A pointer: the index of the object in the store of its type. *)
Abbreviation loc := nat (only parsing).

(** [*websocket.Conn]: [None] is the nil connection, [Some c] a handle. *)
Abbreviation Conn := (option nat) (only parsing).

Inductive UserStatus := UserStatusOffline | UserStatusOnline | UserStatusInSession.

Inductive SessionStatus := SessionStatusWaiting | SessionStatusActive | SessionStatusClosed.

Inductive MessageType := MessageTypeText | MessageTypeImage | MessageTypeSystem.

#[global] Instance UserStatus_eq_dec : EqDecision UserStatus.
Proof. solve_decision. Defined.

#[global] Instance SessionStatus_eq_dec : EqDecision SessionStatus.
Proof. solve_decision. Defined.

Module User.
Record t := mk {
  ID : string;
  Name : string;
  Status : UserStatus;
  Conn : Conn;
  CreateAt : Time;
  SessionID : string
}.
Definition with_Status (v : UserStatus) (u : t) : t :=
  mk (ID u) (Name u) v (Conn u) (CreateAt u) (SessionID u).
Definition with_SessionID (v : string) (u : t) : t :=
  mk (ID u) (Name u) (Status u) (Conn u) (CreateAt u) v.
End User.

Module CSGroup.
Record t := mk {
  ID : string;
  Name : string;
  Members : gmap string loc      (* map[string]*CSStaff *)
}.
Definition with_Members (v : gmap string loc) (g : t) : t :=
  mk (ID g) (Name g) v.
End CSGroup.

Module CSStaff.
Record t := mk {
  ID : string;
  Name : string;
  GroupID : string;
  Status : UserStatus;
  Conn : Conn;
  Sessions : gmap string loc     (* map[string]*Session *)
}.
Definition with_Status (v : UserStatus) (s : t) : t :=
  mk (ID s) (Name s) (GroupID s) v (Conn s) (Sessions s).
Definition with_Sessions (v : gmap string loc) (s : t) : t :=
  mk (ID s) (Name s) (GroupID s) (Status s) (Conn s) v.
End CSStaff.

Module Message.
Record t := mk {
  ID : string;
  SessionID : string;
  FromID : string;
  ToID : string;
  Content : string;
  Type_ : MessageType;          (* Type *)
  CreateAt : Time
}.
Definition with_ToID (v : string) (m : t) : t :=
  mk (ID m) (SessionID m) (FromID m) v (Content m) (Type_ m) (CreateAt m).
End Message.

Module Session.
Record t := mk {
  ID : string;
  UserID : string;
  StaffID : string;
  Status : SessionStatus;
  CreateAt : Time;
  UpdateAt : Time;
  Messages : list Message.t      (* []*Message; a message is never
                                    written after it is appended *)
}.
Definition with_StaffID (v : string) (s : t) : t :=
  mk (ID s) (UserID s) v (Status s) (CreateAt s) (UpdateAt s) (Messages s).
Definition with_Status (v : SessionStatus) (s : t) : t :=
  mk (ID s) (UserID s) (StaffID s) v (CreateAt s) (UpdateAt s) (Messages s).
Definition with_UpdateAt (v : Time) (s : t) : t :=
  mk (ID s) (UserID s) (StaffID s) (Status s) (CreateAt s) v (Messages s).
Definition with_Messages (v : list Message.t) (s : t) : t :=
  mk (ID s) (UserID s) (StaffID s) (Status s) (CreateAt s) (UpdateAt s) v.
End Session.

(** ** service.go: errors and results *)

Inductive error :=
  | ErrUserNotFound
  | ErrStaffNotFound
  | ErrSessionNotFound
  | ErrGroupNotFound
  | ErrInvalidOperation.

(** A Go return pair [(value, error)] of which exactly one is nil. *)
Inductive result (A : Type) :=
  | Ok (a : A)
  | Err (e : error).
Arguments Ok {A} a.
Arguments Err {A} e.

(** ** The state

    The four tables of [CustomerService], the object stores behind the
    pointers, the connections closed so far, and the environment's clock:
    [clock n] is what the [n]-th call of [time.Now()] returns and [ticks]
    counts the calls made. *)
Record World := mkWorld {
  users : gmap string loc;
  staffs : gmap string loc;
  groups : gmap string loc;
  sessions : gmap string loc;
  h_users : list User.t;
  h_staffs : list CSStaff.t;
  h_groups : list CSGroup.t;
  h_sessions : list Session.t;
  closed : list nat;
  clock : nat -> Time;
  ticks : nat
}.

Definition set_users (f : gmap string loc -> gmap string loc) (w : World) : World :=
  mkWorld (f (users w)) (staffs w) (groups w) (sessions w)
          (h_users w) (h_staffs w) (h_groups w) (h_sessions w)
          (closed w) (clock w) (ticks w).

Definition set_staffs (f : gmap string loc -> gmap string loc) (w : World) : World :=
  mkWorld (users w) (f (staffs w)) (groups w) (sessions w)
          (h_users w) (h_staffs w) (h_groups w) (h_sessions w)
          (closed w) (clock w) (ticks w).

Definition set_groups (f : gmap string loc -> gmap string loc) (w : World) : World :=
  mkWorld (users w) (staffs w) (f (groups w)) (sessions w)
          (h_users w) (h_staffs w) (h_groups w) (h_sessions w)
          (closed w) (clock w) (ticks w).

Definition set_sessions (f : gmap string loc -> gmap string loc) (w : World) : World :=
  mkWorld (users w) (staffs w) (groups w) (f (sessions w))
          (h_users w) (h_staffs w) (h_groups w) (h_sessions w)
          (closed w) (clock w) (ticks w).

Definition set_h_users (f : list User.t -> list User.t) (w : World) : World :=
  mkWorld (users w) (staffs w) (groups w) (sessions w)
          (f (h_users w)) (h_staffs w) (h_groups w) (h_sessions w)
          (closed w) (clock w) (ticks w).

Definition set_h_staffs (f : list CSStaff.t -> list CSStaff.t) (w : World) : World :=
  mkWorld (users w) (staffs w) (groups w) (sessions w)
          (h_users w) (f (h_staffs w)) (h_groups w) (h_sessions w)
          (closed w) (clock w) (ticks w).

Definition set_h_groups (f : list CSGroup.t -> list CSGroup.t) (w : World) : World :=
  mkWorld (users w) (staffs w) (groups w) (sessions w)
          (h_users w) (h_staffs w) (f (h_groups w)) (h_sessions w)
          (closed w) (clock w) (ticks w).

Definition set_h_sessions (f : list Session.t -> list Session.t) (w : World) : World :=
  mkWorld (users w) (staffs w) (groups w) (sessions w)
          (h_users w) (h_staffs w) (h_groups w) (f (h_sessions w))
          (closed w) (clock w) (ticks w).

Definition set_closed (f : list nat -> list nat) (w : World) : World :=
  mkWorld (users w) (staffs w) (groups w) (sessions w)
          (h_users w) (h_staffs w) (h_groups w) (h_sessions w)
          (f (closed w)) (clock w) (ticks w).

Definition set_ticks (f : nat -> nat) (w : World) : World :=
  mkWorld (users w) (staffs w) (groups w) (sessions w)
          (h_users w) (h_staffs w) (h_groups w) (h_sessions w)
          (closed w) (clock w) (f (ticks w)).

(** ** The monad of registry code

    A computation takes the state and returns a value with the new state.
    [None] is a Go run-time panic: dereferencing a pointer that names no
    object.  (The tables only ever hold pointers to allocated objects; the
    panic is shown unreachable below.) *)
Definition M (A : Type) : Type := World -> option (A * World).

Definition ret {A} (a : A) : M A := fun w => Some (a, w).

Definition bind {A B} (m : M A) (k : A -> M B) : M B :=
  fun w => match m w with
           | Some (a, w') => k a w'
           | None => None
           end.

Declare Scope go_scope.
Delimit Scope go_scope with go.
Notation "x <- m ;; k" := (bind m (fun x => k))
  (at level 20, m at level 99, k at level 200, only parsing) : go_scope.
Local Open Scope go_scope.

Definition read {A} (f : World -> A) : M A := fun w => Some (f w, w).

Definition write (f : World -> World) : M unit := fun w => Some (tt, f w).

Definition panic {A} : M A := fun _ => None.

(** [time.Now()] *)
Definition now : M Time :=
  fun w => Some (clock w (ticks w), set_ticks S w).

(** [&T{...}]: allocate at the end of the store. *)
Definition new_user (u : User.t) : M loc :=
  fun w => Some (length (h_users w), set_h_users (fun h => h ++ [u]) w).

Definition new_staff (s : CSStaff.t) : M loc :=
  fun w => Some (length (h_staffs w), set_h_staffs (fun h => h ++ [s]) w).

Definition new_group (g : CSGroup.t) : M loc :=
  fun w => Some (length (h_groups w), set_h_groups (fun h => h ++ [g]) w).

Definition new_session (s : Session.t) : M loc :=
  fun w => Some (length (h_sessions w), set_h_sessions (fun h => h ++ [s]) w).

(** [*p]: read through a pointer. *)
Definition load_user (l : loc) : M User.t :=
  fun w => match h_users w !! l with Some u => Some (u, w) | None => None end.

Definition load_staff (l : loc) : M CSStaff.t :=
  fun w => match h_staffs w !! l with Some s => Some (s, w) | None => None end.

Definition load_session (l : loc) : M Session.t :=
  fun w => match h_sessions w !! l with Some s => Some (s, w) | None => None end.

(** [p.f = v]: write through a pointer. *)
Definition update_user (l : loc) (f : User.t -> User.t) : M unit :=
  fun w => match h_users w !! l with
           | Some _ => Some (tt, set_h_users (alter f l) w)
           | None => None
           end.

Definition update_staff (l : loc) (f : CSStaff.t -> CSStaff.t) : M unit :=
  fun w => match h_staffs w !! l with
           | Some _ => Some (tt, set_h_staffs (alter f l) w)
           | None => None
           end.

Definition update_group (l : loc) (f : CSGroup.t -> CSGroup.t) : M unit :=
  fun w => match h_groups w !! l with
           | Some _ => Some (tt, set_h_groups (alter f l) w)
           | None => None
           end.

Definition update_session (l : loc) (f : Session.t -> Session.t) : M unit :=
  fun w => match h_sessions w !! l with
           | Some _ => Some (tt, set_h_sessions (alter f l) w)
           | None => None
           end.

(** [for x := range xs { body }] *)
Fixpoint for_each {A} (xs : list A) (body : A -> M unit) : M unit :=
  match xs with
  | [] => ret tt
  | x :: rest => _ <- body x ;; for_each rest body
  end.

(** [conn.Close()] guarded by [conn != nil] *)
Definition close_conn (c : Conn) : M unit :=
  match c with
  | Some h => write (set_closed (fun cl => cl ++ [h]))
  | None => ret tt
  end.

(** ** [Time.Format("20060102150405")]

    Year, month, day, hour, minute and second as fourteen decimal digits.
    The calendar is the proleptic Gregorian one of Go's [time] package, read
    in UTC. *)
Section Format.
Local Open Scope Z_scope.

Definition digit (n : Z) : ascii := ascii_of_nat (48 + Z.to_nat (n mod 10)).

Fixpoint zpad (width : nat) (n : Z) : string :=
  match width with
  | O => EmptyString
  | S k => zpad k (n / 10) +:+ String (digit n) EmptyString
  end.

Definition civil (days : Z) : Z * Z * Z :=
  let z := days + 719468 in
  let era := z / 146097 in
  let doe := z - era * 146097 in
  let yoe := (doe - doe / 1460 + doe / 36524 - doe / 146096) / 365 in
  let doy := doe - (365 * yoe + yoe / 4 - yoe / 100) in
  let mp := (5 * doy + 2) / 153 in
  let d := doy - (153 * mp + 2) / 5 + 1 in
  let m := if mp <? 10 then mp + 3 else mp - 9 in
  let y := yoe + era * 400 + (if m <=? 2 then 1 else 0) in
  (y, m, d).

Definition Format (t : Time) : string :=
  let secs := t / 1000000000 in
  let '(y, m, d) := civil (secs / 86400) in
  let r := secs mod 86400 in
  zpad 4 y +:+ zpad 2 m +:+ zpad 2 d +:+
  zpad 2 (r / 3600) +:+ zpad 2 (r mod 3600 / 60) +:+ zpad 2 (r mod 60).

End Format.

(** ** service.go: the registry operations *)

(** [NewCustomerService()], in an environment whose clock is [clk]. *)
Definition NewCustomerService (clk : nat -> Time) : World :=
  mkWorld ∅ ∅ ∅ ∅ [] [] [] [] [] clk 0%nat.

Definition ConnectUser (userID name : string) (conn : Conn) : M loc :=
  t <- now ;;
  user <- new_user (User.mk userID name UserStatusOnline conn t "") ;;
  _ <- write (set_users (fun m => <[userID := user]> m)) ;;
  ret user.

Definition ConnectStaff (staffID name groupID : string) (conn : Conn)
  : M (result loc) :=
  g <- read (fun w => groups w !! groupID) ;;
  match g with
  | None => ret (Err ErrGroupNotFound)
  | Some group =>
      staff <- new_staff
        (CSStaff.mk staffID name groupID UserStatusOnline conn ∅) ;;
      _ <- write (set_staffs (fun m => <[staffID := staff]> m)) ;;
      _ <- update_group group
        (fun g => CSGroup.with_Members (<[staffID := staff]> (CSGroup.Members g)) g) ;;
      ret (Ok staff)
  end.

Definition CreateGroup (groupID name : string) : M loc :=
  group <- new_group (CSGroup.mk groupID name ∅) ;;
  _ <- write (set_groups (fun m => <[groupID := group]> m)) ;;
  ret group.

(** The id given to a session created at clock reading [t]. *)
Definition session_id (userID staffID : string) (t : Time) : string :=
  (((userID +:+ "_") +:+ staffID) +:+ "_") +:+ Format t.

Definition CreateSession (userID staffID : string) : M (result loc) :=
  u <- read (fun w => users w !! userID) ;;
  match u with
  | None => ret (Err ErrUserNotFound)
  | Some user =>
      s <- read (fun w => staffs w !! staffID) ;;
      match s with
      | None => ret (Err ErrStaffNotFound)
      | Some staff =>
          t0 <- now ;;
          t1 <- now ;;
          t2 <- now ;;
          let id := session_id userID staffID t0 in
          session <- new_session
            (Session.mk id userID staffID SessionStatusActive t1 t2 []) ;;
          _ <- write (set_sessions (fun m => <[id := session]> m)) ;;
          _ <- update_staff staff
            (fun s => CSStaff.with_Sessions (<[id := session]> (CSStaff.Sessions s)) s) ;;
          _ <- update_user user (User.with_SessionID id) ;;
          _ <- update_user user (User.with_Status UserStatusInSession) ;;
          ret (Ok session)
      end
  end.

(** The returned [error] is [None] for Go's nil. *)
Definition TransferSession (sessionID newStaffID : string) : M (option error) :=
  s <- read (fun w => sessions w !! sessionID) ;;
  match s with
  | None => ret (Some ErrSessionNotFound)
  | Some session =>
      n <- read (fun w => staffs w !! newStaffID) ;;
      match n with
      | None => ret (Some ErrStaffNotFound)
      | Some newStaff =>
          cur <- load_session session ;;
          o <- read (fun w => staffs w !! Session.StaffID cur) ;;
          match o with
          | None => ret (Some ErrStaffNotFound)
          | Some oldStaff =>
              _ <- update_staff oldStaff
                (fun s => CSStaff.with_Sessions (delete sessionID (CSStaff.Sessions s)) s) ;;
              _ <- update_session session (Session.with_StaffID newStaffID) ;;
              t <- now ;;
              _ <- update_session session (Session.with_UpdateAt t) ;;
              _ <- update_staff newStaff
                (fun s => CSStaff.with_Sessions (<[sessionID := session]> (CSStaff.Sessions s)) s) ;;
              ret None
          end
      end
  end.

Definition SendMessage (sessionID fromID content : string) (msgType : MessageType)
  : M (result Message.t) :=
  s <- read (fun w => sessions w !! sessionID) ;;
  match s with
  | None => ret (Err ErrSessionNotFound)
  | Some session =>
      t0 <- now ;;
      t1 <- now ;;
      let msg := Message.mk ((sessionID +:+ "_") +:+ Format t0) sessionID fromID ""
                            content msgType t1 in
      cur <- load_session session ;;
      let deliver (msg : Message.t) : M (result Message.t) :=
        _ <- update_session session
          (fun s => Session.with_Messages (Session.Messages s ++ [msg]) s) ;;
        t2 <- now ;;
        _ <- update_session session (Session.with_UpdateAt t2) ;;
        ret (Ok msg) in
      if decide (fromID = Session.UserID cur) then
        deliver (Message.with_ToID (Session.StaffID cur) msg)
      else if decide (fromID = Session.StaffID cur) then
        deliver (Message.with_ToID (Session.UserID cur) msg)
      else ret (Err ErrInvalidOperation)
  end.

Definition DisconnectUser (userID : string) : M unit :=
  u <- read (fun w => users w !! userID) ;;
  match u with
  | Some user =>
      _ <- update_user user (User.with_Status UserStatusOffline) ;;
      cur <- load_user user ;;
      _ <- close_conn (User.Conn cur) ;;
      write (set_users (fun m => delete userID m))
  | None => ret tt
  end.

(** The body of the loop of [DisconnectStaff].  Go ranges over the keys of
    [staff.Sessions] in an unspecified order; here it is the order of
    [map_to_list].  The order only decides which clock reading a session
    receives. *)
Definition close_session (sessionID : string) : M unit :=
  s <- read (fun w => sessions w !! sessionID) ;;
  match s with
  | Some session =>
      _ <- update_session session (Session.with_Status SessionStatusClosed) ;;
      t <- now ;;
      update_session session (Session.with_UpdateAt t)
  | None => ret tt
  end.

Definition DisconnectStaff (staffID : string) : M unit :=
  s <- read (fun w => staffs w !! staffID) ;;
  match s with
  | Some staff =>
      _ <- update_staff staff (CSStaff.with_Status UserStatusOffline) ;;
      cur <- load_staff staff ;;
      _ <- close_conn (CSStaff.Conn cur) ;;
      g <- read (fun w => groups w !! CSStaff.GroupID cur) ;;
      _ <- match g with
      | Some group =>
          update_group group
            (fun g => CSGroup.with_Members (delete staffID (CSGroup.Members g)) g)
      | None => ret tt
      end ;;
      _ <- for_each (map_to_list (CSStaff.Sessions cur)).*1 close_session ;;
      write (set_staffs (fun m => delete staffID m))
  | None => ret tt
  end.

(** [GetUser], [GetStaff], [GetSession]: the pointer, or [None] for nil. *)
Definition GetUser (userID : string) : M (option loc) :=
  read (fun w => users w !! userID).

Definition GetStaff (staffID : string) : M (option loc) :=
  read (fun w => staffs w !! staffID).

Definition GetSession (sessionID : string) : M (option loc) :=
  read (fun w => sessions w !! sessionID).

(** ** Sequences of operations *)

Inductive Op :=
  | OpConnectUser (userID name : string) (conn : Conn)
  | OpConnectStaff (staffID name groupID : string) (conn : Conn)
  | OpCreateGroup (groupID name : string)
  | OpCreateSession (userID staffID : string)
  | OpTransferSession (sessionID newStaffID : string)
  | OpSendMessage (sessionID fromID content : string) (msgType : MessageType)
  | OpDisconnectUser (userID : string)
  | OpDisconnectStaff (staffID : string).

(** One call, its return value dropped. *)
Definition exec (o : Op) : M unit :=
  match o with
  | OpConnectUser u n c => _ <- ConnectUser u n c ;; ret tt
  | OpConnectStaff s n g c => _ <- ConnectStaff s n g c ;; ret tt
  | OpCreateGroup g n => _ <- CreateGroup g n ;; ret tt
  | OpCreateSession u s => _ <- CreateSession u s ;; ret tt
  | OpTransferSession k s => _ <- TransferSession k s ;; ret tt
  | OpSendMessage k f c ty => _ <- SendMessage k f c ty ;; ret tt
  | OpDisconnectUser u => DisconnectUser u
  | OpDisconnectStaff s => DisconnectStaff s
  end.

Definition run (ops : list Op) : M unit := for_each ops exec.

(** The state after [ops]; [None] if a call panicked. *)
Definition after (ops : list Op) (w : World) : option World :=
  snd <$> run ops w.

(** The states the registry can be in. *)
Definition reachable (w : World) : Prop :=
  exists clk ops, after ops (NewCustomerService clk) = Some w.

(** ** Reading the state *)

Definition user_of (w : World) (userID : string) : option User.t :=
  match users w !! userID with
  | Some l => h_users w !! l
  | None => None
  end.

Definition staff_of (w : World) (staffID : string) : option CSStaff.t :=
  match staffs w !! staffID with
  | Some l => h_staffs w !! l
  | None => None
  end.

Definition group_of (w : World) (groupID : string) : option CSGroup.t :=
  match groups w !! groupID with
  | Some l => h_groups w !! l
  | None => None
  end.

Definition session_of (w : World) (sessionID : string) : option Session.t :=
  match sessions w !! sessionID with
  | Some l => h_sessions w !! l
  | None => None
  end.

(** The connected staff member [staffID] has [sessionID] in its session set. *)
Definition handles (w : World) (staffID sessionID : string) : bool :=
  match staff_of w staffID with
  | Some st => bool_decide (is_Some (CSStaff.Sessions st !! sessionID))
  | None => false
  end.

(** The ids of the connected staff whose session set has [sessionID]. *)
Definition holders (w : World) (sessionID : string) : list string :=
  filter (fun a => handles w a sessionID = true) (map_to_list (staffs w)).*1.


(** ** The state each successful call leaves, written out *)

Definition new_session_world (u s : string) (ul sl : loc) (w : World) : World :=
  let id := session_id u s (clock w (ticks w)) in
  let n := length (h_sessions w) in
  set_h_users (fun h => alter (User.with_Status UserStatusInSession) ul
                          (alter (User.with_SessionID id) ul h))
    (set_h_staffs
       (alter (fun st => CSStaff.with_Sessions (<[id := n]> (CSStaff.Sessions st)) st) sl)
       (set_sessions (fun m => <[id := n]> m)
          (set_h_sessions
             (fun h => h ++ [Session.mk id u s SessionStatusActive
                               (clock w (S (ticks w))) (clock w (S (S (ticks w)))) []])
             (set_ticks (fun t => S (S (S t))) w)))).

Definition transfer_world (k b : string) (l ol nl : loc) (w : World) : World :=
  set_h_staffs
    (fun h => alter (fun st => CSStaff.with_Sessions (<[k := l]> (CSStaff.Sessions st)) st) nl
                (alter (fun st => CSStaff.with_Sessions (delete k (CSStaff.Sessions st)) st) ol h))
    (set_h_sessions
       (fun h => alter (Session.with_UpdateAt (clock w (ticks w))) l
                   (alter (Session.with_StaffID b) l h))
       (set_ticks S w)).

Definition new_message (k from content : string) (ty : MessageType) (to : string)
    (w : World) : Message.t :=
  Message.mk ((k +:+ "_") +:+ Format (clock w (ticks w))) k from to content ty
             (clock w (S (ticks w))).

Definition send_world (l : loc) (msg : Message.t) (w : World) : World :=
  set_h_sessions
    (fun h => alter (Session.with_UpdateAt (clock w (S (S (ticks w))))) l
                (alter (fun s => Session.with_Messages (Session.Messages s ++ [msg]) s) l h))
    (set_ticks (fun t => S (S (S t))) w).

Definition closed_conns (c : Conn) (cl : list nat) : list nat :=
  match c with
  | Some h => cl ++ [h]
  | None => cl
  end.

Definition disconnect_user_world (u : string) (ul : loc) (c : Conn) (w : World) : World :=
  set_users (fun m => delete u m)
    (set_closed (closed_conns c)
       (set_h_users (alter (User.with_Status UserStatusOffline) ul) w)).

(** The session stamped closed by one turn of the loop of [DisconnectStaff]. *)
Definition close_stamp (t : Time) (s : Session.t) : Session.t :=
  Session.with_UpdateAt t (Session.with_Status SessionStatusClosed s).

Fixpoint close_sessions_world (ks : list string) (w : World) : World :=
  match ks with
  | [] => w
  | k :: rest =>
      close_sessions_world rest
        match sessions w !! k with
        | Some l => set_h_sessions (alter (close_stamp (clock w (ticks w))) l) (set_ticks S w)
        | None => w
        end
  end.

Definition leave_group (s : string) (gid : string) (w : World) : World :=
  match groups w !! gid with
  | Some gl =>
      set_h_groups
        (alter (fun g => CSGroup.with_Members (delete s (CSGroup.Members g)) g) gl) w
  | None => w
  end.

Definition disconnect_staff_world (s : string) (sl : loc) (st : CSStaff.t) (w : World)
  : World :=
  set_staffs (fun m => delete s m)
    (close_sessions_world (map_to_list (CSStaff.Sessions st)).*1
       (leave_group s (CSStaff.GroupID st)
          (set_closed (closed_conns (CSStaff.Conn st))
             (set_h_staffs (alter (CSStaff.with_Status UserStatusOffline) sl) w)))).

(** ** Well-formed states

    Every pointer in a table names an allocated object, a session is filed
    under its own id, a staff member's session set only has ids that are in
    the session table, its group is in the group table, a session's
    [UpdateAt] is a reading the clock has given, and no two staff ids share
    a staff object. *)
Record wf (w : World) : Prop := mk_wf {
  wf_users : forall k l, users w !! k = Some l -> (l < length (h_users w))%nat;
  wf_staffs : forall k l, staffs w !! k = Some l -> (l < length (h_staffs w))%nat;
  wf_groups : forall k l, groups w !! k = Some l -> (l < length (h_groups w))%nat;
  wf_sessions : forall k l, sessions w !! k = Some l -> (l < length (h_sessions w))%nat;
  wf_session_id : forall k l s,
    sessions w !! k = Some l -> h_sessions w !! l = Some s -> Session.ID s = k;
  wf_staff_sessions : forall la st k,
    h_staffs w !! la = Some st -> is_Some (CSStaff.Sessions st !! k) ->
    is_Some (sessions w !! k);
  wf_staff_group : forall la st,
    h_staffs w !! la = Some st -> is_Some (groups w !! CSStaff.GroupID st);
  wf_stamped : forall l s,
    h_sessions w !! l = Some s ->
    exists i, (i < ticks w)%nat /\ Session.UpdateAt s = clock w i;
  wf_staffs_inj : forall a a' l,
    staffs w !! a = Some l -> staffs w !! a' = Some l -> a = a'
}.

(** ** Concrete scenes

    A clock that starts on 2023-11-14 22:13:20 UTC and advances by one
    microsecond per reading, and the state a list of calls leaves when
    started from [NewCustomerService()]. *)
Definition clock0 : nat -> Time :=
  fun n => (Z.of_nat n * 1000 + 1700000000000000000)%Z.

Definition scene (ops : list Op) : World :=
  default (NewCustomerService clock0) (after ops (NewCustomerService clock0)).

(** Group g1, user u1, staff s1 and s2, and a session of u1 with s1. *)
Definition setup : list Op :=
  [ OpCreateGroup "g1" "support";
    OpConnectUser "u1" "alice" (Some 1%nat);
    OpConnectStaff "s1" "bob" "g1" (Some 2%nat);
    OpConnectStaff "s2" "carol" "g1" (Some 3%nat);
    OpCreateSession "u1" "s1" ].

(** The id of the session [setup] creates. *)
Definition sid0 : string := "u1_s1_20231114221320".


(** Group g1, user u1 and staff s1 connected, no session yet. *)
Definition lobby : list Op :=
  [ OpCreateGroup "g1" "support";
    OpConnectUser "u1" "alice" (Some 1%nat);
    OpConnectStaff "s1" "bob" "g1" (Some 2%nat) ].

(** The session filed under [k] in [w] is still the one filed under [k] in
    [w'], it is Active, and the connected staff member it names has [k] in
    its session set. *)
Definition prior_session_kept (w w' : World) (k : string) : Prop :=
  is_Some (sessions w !! k) /\
  sessions w' !! k = sessions w !! k /\
  exists s, session_of w' k = Some s /\
            Session.Status s = SessionStatusActive /\
            handles w' (Session.StaffID s) k = true.

(** What a call changes, case by case. *)
Definition connect_user_world (u n : string) (c : Conn) (w : World) : World :=
  set_users (fun m => <[u := length (h_users w)]> m)
    (set_h_users
       (fun h => h ++ [User.mk u n UserStatusOnline c (clock w (ticks w)) ""])
       (set_ticks S w)).

Definition create_group_world (g n : string) (w : World) : World :=
  set_groups (fun m => <[g := length (h_groups w)]> m)
    (set_h_groups (fun h => h ++ [CSGroup.mk g n ∅]) w).

Definition connect_staff_world (s n g : string) (c : Conn) (gl : loc) (w : World)
  : World :=
  set_h_groups
    (alter (fun gr => CSGroup.with_Members
                        (<[s := length (h_staffs w)]> (CSGroup.Members gr)) gr) gl)
    (set_staffs (fun m => <[s := length (h_staffs w)]> m)
       (set_h_staffs (fun h => h ++ [CSStaff.mk s n g UserStatusOnline c ∅]) w)).

Inductive effect (w : World) : Op -> World -> Prop :=
  | eff_connect_user u n c :
      effect w (OpConnectUser u n c) (connect_user_world u n c w)
  | eff_create_group g n :
      effect w (OpCreateGroup g n) (create_group_world g n w)
  | eff_connect_staff s n g c gl :
      groups w !! g = Some gl ->
      effect w (OpConnectStaff s n g c) (connect_staff_world s n g c gl w)
  | eff_create_session u s ul sl :
      users w !! u = Some ul -> staffs w !! s = Some sl ->
      effect w (OpCreateSession u s) (new_session_world u s ul sl w)
  | eff_transfer k b l nl s ol :
      sessions w !! k = Some l -> staffs w !! b = Some nl ->
      h_sessions w !! l = Some s -> staffs w !! Session.StaffID s = Some ol ->
      effect w (OpTransferSession k b) (transfer_world k b l ol nl w)
  | eff_send k from content ty l msg :
      sessions w !! k = Some l ->
      effect w (OpSendMessage k from content ty) (send_world l msg w)
  | eff_send_rejected k from content ty :
      effect w (OpSendMessage k from content ty) (set_ticks (fun t => S (S t)) w)
  | eff_disconnect_user u ul c :
      users w !! u = Some ul ->
      effect w (OpDisconnectUser u) (disconnect_user_world u ul c w)
  | eff_disconnect_staff s sl st :
      staffs w !! s = Some sl -> h_staffs w !! sl = Some st ->
      effect w (OpDisconnectStaff s) (disconnect_staff_world s sl st w)
  | eff_none o :
      effect w o w.

(** After [setup], s1 disconnects, which closes the session, and connects
    again under the same id. *)
Definition reconnected : list Op :=
  setup ++ [ OpDisconnectStaff "s1";
             OpConnectStaff "s1" "bob" "g1" (Some 4%nat) ].

(** ** The assignment invariant

    Every session in the table that is Active or Waiting is in the session
    set of exactly one connected staff member, the one its [StaffID]
    names. *)
Definition session_assigned (w : World) : Prop :=
  forall k s,
    session_of w k = Some s ->
    Session.Status s = SessionStatusActive \/
    Session.Status s = SessionStatusWaiting ->
    forall a, handles w a (Session.ID s) = true <-> a = Session.StaffID s.

(** A call that takes no id in use: [ConnectStaff] for an id that is not in
    the staff table, [CreateSession] at a moment when the id it makes is
    not in the session table. *)
Definition fresh_call (w : World) (o : Op) : bool :=
  match o with
  | OpConnectStaff s _ _ _ => bool_decide (staffs w !! s = None)
  | OpCreateSession u s =>
      bool_decide (sessions w !! session_id u s (clock w (ticks w)) = None)
  | _ => true
  end.

(** The state after [ops] when every call is fresh; [None] otherwise. *)
Fixpoint after_fresh (ops : list Op) (w : World) : option World :=
  match ops with
  | [] => Some w
  | o :: rest =>
      if fresh_call w o then
        match exec o w with
        | Some (_, w1) => after_fresh rest w1
        | None => None
        end
      else None
  end.

(** The invariant read by table key: a session is filed under its id. *)
Definition assigned_by_key (w : World) : Prop :=
  forall k s,
    session_of w k = Some s -> Session.Status s <> SessionStatusClosed ->
    forall a, handles w a k = true <-> a = Session.StaffID s.

(** Unfold the monad and its primitives. *)
Ltac go_unfold :=
  unfold bind, ret, read, write, now, new_user, new_staff, new_group,
    new_session, load_user, load_staff, load_session, update_user,
    update_staff, update_group, update_session, close_conn; simpl.

(** What holds of the user objects: one in the table is filed under its own
    id and is not Offline; an Online one has no session id, one InSession
    has one, and a session id that is set is in the session table. *)
Definition users_consistent (w : World) : Prop :=
  (forall u l usr, users w !! u = Some l -> h_users w !! l = Some usr ->
     User.ID usr = u /\ User.Status usr <> UserStatusOffline) /\
  (forall l usr, h_users w !! l = Some usr ->
     (User.Status usr = UserStatusOnline -> User.SessionID usr = "") /\
     (User.Status usr = UserStatusInSession -> User.SessionID usr <> "") /\
     (User.SessionID usr = "" \/ is_Some (sessions w !! User.SessionID usr))).


(** ** The websocket gateway

    The gateway owns one registry and serves every connection with a
    handler of its own.  What a handler sends is recorded as the list of its
    calls of [Conn.WriteMessage], each with the handle of the connection
    written to and the frame before it is marshalled. *)

Inductive Frame :=
  | FrameMessage (payload : Message.t)
  | FrameSessionCreated (payload : Session.t)
  | FrameSessionTransferred (sessionID oldStaffID newStaffID : string).

Abbreviation Out := (list (nat * Frame)) (only parsing).

(** [NewMessageGateway()]: a gateway with a new registry. *)
Definition NewMessageGateway (clk : nat -> Time) : World :=
  NewCustomerService clk.

(** [conn.WriteMessage(websocket.TextMessage, data)]; the method
    dereferences its receiver, so a nil connection panics.  The error it
    returns is dropped by every caller. *)
Definition WriteMessage (c : Conn) (data : Frame) : M Out :=
  match c with
  | Some h => ret [(h, data)]
  | None => panic
  end.

Definition forwardMessageToStaff (message : Message.t) : M Out :=
  let data := FrameMessage message in
  staff <- GetStaff (Message.ToID message) ;;
  match staff with
  | Some staff =>
      cur <- load_staff staff ;;
      WriteMessage (CSStaff.Conn cur) data
  | None => ret []
  end.

Definition forwardMessageToUser (message : Message.t) : M Out :=
  let data := FrameMessage message in
  user <- GetUser (Message.ToID message) ;;
  match user with
  | Some user =>
      cur <- load_user user ;;
      WriteMessage (User.Conn cur) data
  | None => ret []
  end.

Definition notifySessionCreated (session : loc) : M Out :=
  cur <- load_session session ;;
  let data := FrameSessionCreated cur in
  user <- GetUser (Session.UserID cur) ;;
  o1 <- match user with
        | Some user =>
            u <- load_user user ;;
            WriteMessage (User.Conn u) data
        | None => ret []
        end ;;
  staff <- GetStaff (Session.StaffID cur) ;;
  o2 <- match staff with
        | Some staff =>
            s <- load_staff staff ;;
            WriteMessage (CSStaff.Conn s) data
        | None => ret []
        end ;;
  ret (o1 ++ o2).

Definition notifySessionTransferred (sessionID oldStaffID newStaffID : string)
  : M Out :=
  let data := FrameSessionTransferred sessionID oldStaffID newStaffID in
  session <- GetSession sessionID ;;
  match session with
  | None => ret []
  | Some session =>
      cur <- load_session session ;;
      user <- GetUser (Session.UserID cur) ;;
      o1 <- match user with
            | Some user =>
                u <- load_user user ;;
                WriteMessage (User.Conn u) data
            | None => ret []
            end ;;
      oldStaff <- GetStaff oldStaffID ;;
      o2 <- match oldStaff with
            | Some oldStaff =>
                s <- load_staff oldStaff ;;
                WriteMessage (CSStaff.Conn s) data
            | None => ret []
            end ;;
      newStaff <- GetStaff newStaffID ;;
      o3 <- match newStaff with
            | Some newStaff =>
                s <- load_staff newStaff ;;
                WriteMessage (CSStaff.Conn s) data
            | None => ret []
            end ;;
      ret (o1 ++ o2 ++ o3)
  end.

(** What a handler reads from its connection, after both [json.Unmarshal]
    steps: a request it knows, or anything else (bytes that do not parse, a
    payload that does not parse, a type it has no case for), which it
    skips. *)
Inductive UserEvent :=
  | UserEvMessage (content : string)
  | UserEvSkipped.

Inductive StaffEvent :=
  | StaffEvConnectUser (userID : string)
  | StaffEvTransferSession (sessionID newStaffID : string)
  | StaffEvMessage (sessionID content : string)
  | StaffEvSkipped.

(** One turn of the loop of [HandleUserConnection]; [user] is the pointer
    the handler got from [ConnectUser]. *)
Definition user_event (user : loc) (userID : string) (e : UserEvent) : M Out :=
  match e with
  | UserEvMessage content =>
      cur <- load_user user ;;
      if decide (User.SessionID cur <> "") then
        r <- SendMessage (User.SessionID cur) userID content MessageTypeText ;;
        match r with
        | Err _ => ret []
        | Ok message => forwardMessageToStaff message
        end
      else ret []
  | UserEvSkipped => ret []
  end.

(** One turn of the loop of [HandleStaffConnection]. *)
Definition staff_event (staffID : string) (e : StaffEvent) : M Out :=
  match e with
  | StaffEvConnectUser userID =>
      r <- CreateSession userID staffID ;;
      match r with
      | Err _ => ret []
      | Ok session => notifySessionCreated session
      end
  | StaffEvTransferSession sessionID newStaffID =>
      err <- TransferSession sessionID newStaffID ;;
      match err with
      | Some _ => ret []
      | None => notifySessionTransferred sessionID staffID newStaffID
      end
  | StaffEvMessage sessionID content =>
      r <- SendMessage sessionID staffID content MessageTypeText ;;
      match r with
      | Err _ => ret []
      | Ok message => forwardMessageToUser message
      end
  | StaffEvSkipped => ret []
  end.

(** [HandleUserConnection] up to its loop.  [upgrade] is what
    [upgrader.Upgrade] gives: the connection, or [None] for an error.  The
    result is the handler's [user], or [None] when the handler has returned
    (bad request, failed upgrade) without touching the registry. *)
Definition user_open (userID name : string) (upgrade : option nat)
  : M (option loc) :=
  if decide (userID = "" \/ name = "") then ret None
  else
    match upgrade with
    | None => ret None
    | Some conn =>
        user <- ConnectUser userID name (Some conn) ;;
        ret (Some user)
    end.

(** [HandleStaffConnection] up to its loop: [true] when the handler goes on
    to serve the connection. *)
Definition staff_open (staffID name groupID : string) (upgrade : option nat)
  : M bool :=
  if decide (staffID = "" \/ name = "" \/ groupID = "") then ret false
  else
    match upgrade with
    | None => ret false
    | Some conn =>
        r <- ConnectStaff staffID name groupID (Some conn) ;;
        match r with
        | Err _ =>
            _ <- close_conn (Some conn) ;;
            ret false
        | Ok _ => ret true
        end
    end.

(** A loop that collects what its turns write. *)
Fixpoint for_each_out {A} (xs : list A) (body : A -> M Out) : M Out :=
  match xs with
  | [] => ret []
  | x :: rest =>
      o <- body x ;;
      os <- for_each_out rest body ;;
      ret (o ++ os)
  end.

(** The two handlers from request to return, each serving its connection
    with no other handler running in between; [events] is what the
    connection delivers before its read fails. *)
Definition HandleUserConnection (userID name : string) (upgrade : option nat)
    (events : list UserEvent) : M Out :=
  u <- user_open userID name upgrade ;;
  match u with
  | None => ret []
  | Some user =>
      out <- for_each_out events (user_event user userID) ;;
      _ <- DisconnectUser userID ;;
      ret out
  end.

Definition HandleStaffConnection (staffID name groupID : string)
    (upgrade : option nat) (events : list StaffEvent) : M Out :=
  ok <- staff_open staffID name groupID upgrade ;;
  if ok : bool then
    out <- for_each_out events (staff_event staffID) ;;
    _ <- DisconnectStaff staffID ;;
    ret out
  else ret [].

(** ** Handlers side by side

    Handlers run concurrently; the registry's lock makes each of its calls
    atomic.  Here a handler's turn (the registration, one frame read and
    handled, the deferred disconnect) is taken as one step, and the steps of
    the handlers are interleaved in any order.  A running handler is known
    by its position in the list of handlers started so far. *)
Inductive Handler :=
  | UserHandler (userID : string) (user : loc)
  | StaffHandler (staffID : string).

Record Gateway := mkGateway {
  service : World;
  handlers : list (option Handler);
  sent : list (nat * Frame)
}.

Inductive Action :=
  | UserRequest (userID name : string) (upgrade : option nat)
  | StaffRequest (staffID name groupID : string) (upgrade : option nat)
  | UserData (i : nat) (e : UserEvent)
  | StaffData (i : nat) (e : StaffEvent)
  | ReadError (i : nat).

(** One step; [None] if it panics.  Data for a handler that is not running,
    or of the other kind, is no step at all. *)
Definition gateway_step (a : Action) (g : Gateway) : option Gateway :=
  match a with
  | UserRequest userID name upgrade =>
      match user_open userID name upgrade (service g) with
      | Some (Some user, w) =>
          Some (mkGateway w (handlers g ++ [Some (UserHandler userID user)]) (sent g))
      | Some (None, w) => Some (mkGateway w (handlers g) (sent g))
      | None => None
      end
  | StaffRequest staffID name groupID upgrade =>
      match staff_open staffID name groupID upgrade (service g) with
      | Some (true, w) =>
          Some (mkGateway w (handlers g ++ [Some (StaffHandler staffID)]) (sent g))
      | Some (false, w) => Some (mkGateway w (handlers g) (sent g))
      | None => None
      end
  | UserData i e =>
      match handlers g !! i with
      | Some (Some (UserHandler userID user)) =>
          match user_event user userID e (service g) with
          | Some (out, w) => Some (mkGateway w (handlers g) (sent g ++ out))
          | None => None
          end
      | _ => Some g
      end
  | StaffData i e =>
      match handlers g !! i with
      | Some (Some (StaffHandler staffID)) =>
          match staff_event staffID e (service g) with
          | Some (out, w) => Some (mkGateway w (handlers g) (sent g ++ out))
          | None => None
          end
      | _ => Some g
      end
  | ReadError i =>
      match handlers g !! i with
      | Some (Some (UserHandler userID _)) =>
          match DisconnectUser userID (service g) with
          | Some (_, w) => Some (mkGateway w (<[i := None]> (handlers g)) (sent g))
          | None => None
          end
      | Some (Some (StaffHandler staffID)) =>
          match DisconnectStaff staffID (service g) with
          | Some (_, w) => Some (mkGateway w (<[i := None]> (handlers g)) (sent g))
          | None => None
          end
      | _ => Some g
      end
  end.

Fixpoint gateway_run (acts : list Action) (g : Gateway) : option Gateway :=
  match acts with
  | [] => Some g
  | a :: rest =>
      match gateway_step a g with
      | Some g1 => gateway_run rest g1
      | None => None
      end
  end.

(** The connection registered under an id. *)
Definition user_conn (w : World) (userID : string) : option Conn :=
  User.Conn <$> user_of w userID.

Definition staff_conn (w : World) (staffID : string) : option Conn :=
  CSStaff.Conn <$> staff_of w staffID.

(** Every registered user and staff member has a connection. *)
Definition conns_present (w : World) : Prop :=
  (forall u c, user_conn w u = Some c -> is_Some c) /\
  (forall a c, staff_conn w a = Some c -> is_Some c).

(** A call that registers somebody does so with a connection. *)
Definition with_conn (o : Op) : Prop :=
  match o with
  | OpConnectUser _ _ c => is_Some c
  | OpConnectStaff _ _ _ c => is_Some c
  | _ => True
  end.

(** The handlers hold pointers to allocated user objects. *)
Definition handlers_valid (g : Gateway) : Prop :=
  forall i userID user,
    handlers g !! i = Some (Some (UserHandler userID user)) ->
    (user < length (h_users (service g)))%nat.

Definition gateway_ok (g : Gateway) : Prop :=
  wf (service g) /\ conns_present (service g) /\ handlers_valid g.

(** The frame [data] for whoever is registered under an id: one write, or
    none when nobody is. *)
Definition to_user (w : World) (userID : string) (data : Frame)
  : list (nat * Frame) :=
  match user_conn w userID with
  | Some (Some h) => [(h, data)]
  | _ => []
  end.

Definition to_staff (w : World) (staffID : string) (data : Frame)
  : list (nat * Frame) :=
  match staff_conn w staffID with
  | Some (Some h) => [(h, data)]
  | _ => []
  end.

(** A gateway as the program gets it: [NewMessageGateway()], and the
    groups the program then creates in its registry. *)
Definition gateway_start (clk : nat -> Time) (gs : list (string * string))
  : Gateway :=
  mkGateway
    (foldl (fun w g => create_group_world g.1 g.2 w) (NewMessageGateway clk) gs)
    [] [].

(** Step into [x <- GetUser ... ;; k] and [x <- GetStaff ... ;; k]. *)
Ltac go_get :=
  unfold bind at 1; unfold GetUser at 1, read at 1 || unfold GetStaff at 1, read at 1;
  cbv beta iota zeta.

(** What a step of a handler keeps. *)
Definition kept (w w' : World) : Prop :=
  wf w' /\ conns_present w' /\
  (length (h_users w) <= length (h_users w'))%nat /\
  groups w' = groups w /\
  (forall l usr, h_users w !! l = Some usr -> (forall u, users w !! u <> Some l) ->
     h_users w' !! l = Some usr /\ (forall u, users w' !! u <> Some l)).

(** A gateway whose registry has no group, no staff member, no session and
    no user with a session id, and which runs no staff handler. *)
Definition deserted (g : Gateway) : Prop :=
  groups (service g) = ∅ /\ staffs (service g) = ∅ /\ sessions (service g) = ∅ /\
  (forall l usr, h_users (service g) !! l = Some usr -> User.SessionID usr = "") /\
  (forall i a, handlers g !! i <> Some (Some (StaffHandler a))).

(** A staff request that passes the parameter check and the upgrade. *)
Definition staff_request_served (a : Action) (conn : nat) : Prop :=
  exists staffID name groupID,
    a = StaffRequest staffID name groupID (Some conn) /\
    staffID <> "" /\ name <> "" /\ groupID <> "".

(** A gateway with group g1 where alice has connected twice under u1, on
    connections 1 and 7. *)
Definition twice_connected : Gateway :=
  default (gateway_start clock0 [])
    (gateway_run [ UserRequest "u1" "alice" (Some 1%nat);
                   UserRequest "u1" "alice" (Some 7%nat) ]
       (gateway_start clock0 [("g1", "support")])).

(** * Properties *)

(** ** The primitives *)

Lemma lookup_valid {A} (h : list A) (l : loc) :
  (l < length h)%nat -> exists x, h !! l = Some x.
Proof. intros H. destruct (lookup_lt_is_Some_2 h l H) as [x Hx]. eauto. Qed.

Example Format_2023 : Format 1700000000123456789 = "20231114221320"%string.
Proof. reflexivity. Qed.

Example Format_epoch : Format 0 = "19700101000000"%string.
Proof. reflexivity. Qed.

(** The scenario of the repository's tests: group, user and staff connect,
    a session is created, the user writes and the staff answers. *)
Example end_to_end :
  session_of
    (scene [ OpCreateGroup "g1" "support";
             OpConnectUser "u1" "alice" (Some 1%nat);
             OpConnectStaff "s1" "bob" "g1" (Some 2%nat);
             OpCreateSession "u1" "s1";
             OpSendMessage "u1_s1_20231114221320" "u1" "hi" MessageTypeText;
             OpSendMessage "u1_s1_20231114221320" "s1" "hello" MessageTypeText ])
    "u1_s1_20231114221320"
  = Some (Session.mk "u1_s1_20231114221320" "u1" "s1" SessionStatusActive
            1700000000000002000 1700000000000009000
            [ Message.mk "u1_s1_20231114221320_20231114221320"
                "u1_s1_20231114221320" "u1" "s1" "hi" MessageTypeText
                1700000000000005000;
              Message.mk "u1_s1_20231114221320_20231114221320"
                "u1_s1_20231114221320" "s1" "u1" "hello" MessageTypeText
                1700000000000008000 ]).
Proof. vm_compute. reflexivity. Qed.

(** ** What each call computes *)

Lemma ConnectUser_eq u n c w :
  ConnectUser u n c w =
  Some (length (h_users w),
        set_users (fun m => <[u := length (h_users w)]> m)
          (set_h_users (fun h => h ++ [User.mk u n UserStatusOnline c (clock w (ticks w)) ""])
             (set_ticks S w))).
Proof. reflexivity. Qed.

Lemma CreateGroup_eq g n w :
  CreateGroup g n w =
  Some (length (h_groups w),
        set_groups (fun m => <[g := length (h_groups w)]> m)
          (set_h_groups (fun h => h ++ [CSGroup.mk g n ∅]) w)).
Proof. reflexivity. Qed.

Lemma ConnectStaff_err s n g c w :
  groups w !! g = None -> ConnectStaff s n g c w = Some (Err ErrGroupNotFound, w).
Proof. intros H. unfold ConnectStaff. go_unfold. rewrite H. reflexivity. Qed.

Lemma ConnectStaff_eq s n g c w gl :
  groups w !! g = Some gl -> (gl < length (h_groups w))%nat ->
  ConnectStaff s n g c w =
  Some (Ok (length (h_staffs w)),
        set_h_groups
          (alter (fun gr => CSGroup.with_Members
                              (<[s := length (h_staffs w)]> (CSGroup.Members gr)) gr) gl)
          (set_staffs (fun m => <[s := length (h_staffs w)]> m)
             (set_h_staffs
                (fun h => h ++ [CSStaff.mk s n g UserStatusOnline c ∅]) w))).
Proof.
  intros H Hl. unfold ConnectStaff. go_unfold. rewrite H. simpl.
  destruct (lookup_valid _ _ Hl) as [x ->]. reflexivity.
Qed.

Lemma CreateSession_err_user u s w :
  users w !! u = None -> CreateSession u s w = Some (Err ErrUserNotFound, w).
Proof. intros H. unfold CreateSession. go_unfold. rewrite H. reflexivity. Qed.

Lemma CreateSession_err_staff u s w ul :
  users w !! u = Some ul -> staffs w !! s = None ->
  CreateSession u s w = Some (Err ErrStaffNotFound, w).
Proof.
  intros Hu Hs. unfold CreateSession. go_unfold. rewrite Hu. simpl.
  rewrite Hs. reflexivity.
Qed.

Lemma CreateSession_eq u s w ul sl :
  users w !! u = Some ul -> (ul < length (h_users w))%nat ->
  staffs w !! s = Some sl -> (sl < length (h_staffs w))%nat ->
  CreateSession u s w = Some (Ok (length (h_sessions w)), new_session_world u s ul sl w).
Proof.
  intros Hu Hul Hs Hsl. unfold CreateSession. go_unfold. rewrite Hu. simpl.
  rewrite Hs. simpl.
  destruct (lookup_valid _ _ Hsl) as [x ->]. simpl.
  destruct (lookup_valid _ _ Hul) as [y Hy]. rewrite Hy. simpl.
  rewrite list_lookup_alter_eq, Hy. reflexivity.
Qed.

Lemma TransferSession_err_session k b w :
  sessions w !! k = None -> TransferSession k b w = Some (Some ErrSessionNotFound, w).
Proof. intros H. unfold TransferSession. go_unfold. rewrite H. reflexivity. Qed.

Lemma TransferSession_err_new k b w l :
  sessions w !! k = Some l -> staffs w !! b = None ->
  TransferSession k b w = Some (Some ErrStaffNotFound, w).
Proof.
  intros H Hb. unfold TransferSession. go_unfold. rewrite H. simpl.
  rewrite Hb. reflexivity.
Qed.

Lemma TransferSession_err_old k b w l nl s :
  sessions w !! k = Some l -> staffs w !! b = Some nl ->
  h_sessions w !! l = Some s -> staffs w !! Session.StaffID s = None ->
  TransferSession k b w = Some (Some ErrStaffNotFound, w).
Proof.
  intros H Hb Hl Ho. unfold TransferSession. go_unfold. rewrite H. simpl.
  rewrite Hb. simpl. rewrite Hl. simpl. rewrite Ho. reflexivity.
Qed.

Lemma TransferSession_eq k b w l nl s ol :
  sessions w !! k = Some l -> staffs w !! b = Some nl ->
  h_sessions w !! l = Some s -> staffs w !! Session.StaffID s = Some ol ->
  (ol < length (h_staffs w))%nat -> (nl < length (h_staffs w))%nat ->
  TransferSession k b w = Some (None, transfer_world k b l ol nl w).
Proof.
  intros H Hb Hl Ho Hol Hnl. unfold TransferSession. go_unfold. rewrite H. simpl.
  rewrite Hb. simpl. rewrite Hl. simpl. rewrite Ho. simpl.
  destruct (lookup_valid _ _ Hol) as [x ->]. simpl. rewrite Hl. simpl.
  rewrite list_lookup_alter_eq, Hl. simpl.
  rewrite <- (length_alter
    (fun st => CSStaff.with_Sessions (delete k (CSStaff.Sessions st)) st)
    (h_staffs w) ol) in Hnl.
  destruct (lookup_valid _ _ Hnl) as [y ->]. reflexivity.
Qed.

Lemma SendMessage_err_session k from content ty w :
  sessions w !! k = None ->
  SendMessage k from content ty w = Some (Err ErrSessionNotFound, w).
Proof. intros H. unfold SendMessage. go_unfold. rewrite H. reflexivity. Qed.

Lemma SendMessage_err_party k from content ty w l s :
  sessions w !! k = Some l -> h_sessions w !! l = Some s ->
  from <> Session.UserID s -> from <> Session.StaffID s ->
  SendMessage k from content ty w =
  Some (Err ErrInvalidOperation, set_ticks (fun t => S (S t)) w).
Proof.
  intros H Hl Hu Hs. unfold SendMessage. go_unfold. rewrite H. simpl.
  rewrite Hl. simpl.
  destruct (decide (from = Session.UserID s)) as [|_]; [done|].
  destruct (decide (from = Session.StaffID s)) as [|_]; [done|].
  reflexivity.
Qed.

Lemma SendMessage_deliver l msg w s :
  h_sessions w !! l = Some s ->
  (_ <- update_session l
          (fun s => Session.with_Messages (Session.Messages s ++ [msg]) s) ;;
   t2 <- now ;;
   _ <- update_session l (Session.with_UpdateAt t2) ;;
   ret (Ok msg)) (set_ticks (fun t => S (S t)) w)
  = Some (Ok msg, send_world l msg w).
Proof.
  intros Hl. go_unfold. rewrite Hl. simpl.
  rewrite list_lookup_alter_eq, Hl. reflexivity.
Qed.

Lemma SendMessage_eq_user k from content ty w l s :
  sessions w !! k = Some l -> h_sessions w !! l = Some s ->
  from = Session.UserID s ->
  let msg := new_message k from content ty (Session.StaffID s) w in
  SendMessage k from content ty w = Some (Ok msg, send_world l msg w).
Proof.
  intros H Hl Hu msg. unfold SendMessage.
  unfold bind at 1, read at 1. rewrite H.
  unfold bind at 1, now at 1. unfold bind at 1, now at 1.
  unfold bind at 1, load_session at 1. simpl. rewrite Hl.
  destruct (decide (from = Session.UserID s)) as [_|]; [|done].
  apply (SendMessage_deliver l msg w s Hl).
Qed.

Lemma SendMessage_eq_staff k from content ty w l s :
  sessions w !! k = Some l -> h_sessions w !! l = Some s ->
  from <> Session.UserID s -> from = Session.StaffID s ->
  let msg := new_message k from content ty (Session.UserID s) w in
  SendMessage k from content ty w = Some (Ok msg, send_world l msg w).
Proof.
  intros H Hl Hu Hs msg. unfold SendMessage.
  unfold bind at 1, read at 1. rewrite H.
  unfold bind at 1, now at 1. unfold bind at 1, now at 1.
  unfold bind at 1, load_session at 1. simpl. rewrite Hl.
  destruct (decide (from = Session.UserID s)) as [|_]; [done|].
  destruct (decide (from = Session.StaffID s)) as [_|]; [|done].
  apply (SendMessage_deliver l msg w s Hl).
Qed.

Lemma DisconnectUser_absent u w :
  users w !! u = None -> DisconnectUser u w = Some (tt, w).
Proof. intros H. unfold DisconnectUser. go_unfold. rewrite H. reflexivity. Qed.

Lemma DisconnectUser_eq u w ul usr :
  users w !! u = Some ul -> h_users w !! ul = Some usr ->
  DisconnectUser u w = Some (tt, disconnect_user_world u ul (User.Conn usr) w).
Proof.
  intros H Hl. unfold DisconnectUser. go_unfold. rewrite H. simpl.
  rewrite Hl. simpl. rewrite list_lookup_alter_eq, Hl. simpl.
  destruct (User.Conn usr); reflexivity.
Qed.

(** The loop of [DisconnectStaff] runs to its end whenever the session
    table holds no dangling pointer. *)
Lemma close_loop_eq ks : forall w,
  (forall k l, sessions w !! k = Some l -> (l < length (h_sessions w))%nat) ->
  for_each ks close_session w = Some (tt, close_sessions_world ks w).
Proof.
  induction ks as [|k ks IH]; intros w Hw; [reflexivity|].
  simpl. unfold bind at 1. unfold close_session at 1. go_unfold.
  destruct (sessions w !! k) as [l|] eqn:Hk; simpl.
  - destruct (lookup_valid _ _ (Hw k l Hk)) as [s Hs]. rewrite Hs. simpl.
    rewrite list_lookup_alter_eq, Hs. simpl.
    rewrite <- IH.
    + f_equal. unfold set_h_sessions, set_ticks. simpl. f_equal.
      apply list_alter_alter_eq.
    + simpl. intros k' l' Hk'. rewrite !length_alter. eauto.
  - apply IH, Hw.
Qed.

Lemma DisconnectStaff_absent s w :
  staffs w !! s = None -> DisconnectStaff s w = Some (tt, w).
Proof. intros H. unfold DisconnectStaff. go_unfold. rewrite H. reflexivity. Qed.

Lemma DisconnectStaff_eq s w sl st :
  staffs w !! s = Some sl -> h_staffs w !! sl = Some st ->
  (forall k l, groups w !! k = Some l -> (l < length (h_groups w))%nat) ->
  (forall k l, sessions w !! k = Some l -> (l < length (h_sessions w))%nat) ->
  DisconnectStaff s w = Some (tt, disconnect_staff_world s sl st w).
Proof.
  intros H Hl Hg Hs. unfold DisconnectStaff.
  unfold bind at 1, read at 1. rewrite H.
  unfold bind at 1, update_staff at 1. rewrite Hl.
  unfold bind at 1, load_staff at 1. simpl.
  rewrite list_lookup_alter_eq, Hl. simpl.
  unfold disconnect_staff_world.
  set (w1 := set_h_staffs _ w).
  assert (Hc : close_conn (CSStaff.Conn st) w1
               = Some (tt, set_closed (closed_conns (CSStaff.Conn st)) w1)).
  { destruct (CSStaff.Conn st); reflexivity. }
  unfold bind at 1. rewrite Hc.
  set (w2 := set_closed _ w1).
  unfold bind at 1, read at 1.
  assert (Hgr : (match groups w2 !! CSStaff.GroupID st with
                 | Some group =>
                     update_group group
                       (fun g => CSGroup.with_Members (delete s (CSGroup.Members g)) g)
                 | None => ret tt
                 end) w2 = Some (tt, leave_group s (CSStaff.GroupID st) w2)).
  { unfold leave_group. destruct (groups w2 !! CSStaff.GroupID st) as [gl|] eqn:Hgl;
      [|reflexivity].
    unfold update_group.
    destruct (lookup_valid (h_groups w2) gl) as [g ->]; [|reflexivity].
    apply (Hg _ _ Hgl). }
  unfold bind at 1. rewrite Hgr.
  unfold bind at 1. rewrite close_loop_eq; [reflexivity|].
  intros k l Hk. unfold leave_group in *.
  destruct (groups w2 !! CSStaff.GroupID st); simpl in *; eauto.
Qed.

(** ** Well-formedness is invariant *)

Lemma alter_lookup_Some {A} (f : A -> A) (h : list A) (i j : nat) (y : A) :
  alter f i h !! j = Some y ->
  exists x, h !! j = Some x /\ ((i = j /\ y = f x) \/ (i <> j /\ y = x)).
Proof.
  destruct (decide (i = j)) as [->|Hne].
  - rewrite list_lookup_alter_eq. destruct (h !! j) as [x|]; simpl; [|done].
    intros [= <-]. eauto.
  - rewrite list_lookup_alter_ne by done. eauto.
Qed.

Lemma snoc_lookup_Some {A} (h : list A) (x y : A) (j : nat) :
  (h ++ [x]) !! j = Some y -> h !! j = Some y \/ (j = length h /\ y = x).
Proof. rewrite lookup_snoc_Some. intros [[? ?]|[? ?]]; eauto. Qed.

Lemma insert_lookup_Some (m : gmap string nat) (k k' : string) (n l : nat) :
  <[k := n]> m !! k' = Some l -> (k = k' /\ l = n) \/ (k <> k' /\ m !! k' = Some l).
Proof. rewrite lookup_insert_Some. intros [[? ?]|[? ?]]; eauto. Qed.

Lemma wf_init clk : wf (NewCustomerService clk).
Proof.
  constructor; simpl; intros *; try (rewrite lookup_empty; done);
    try (rewrite lookup_nil; done).
Qed.

Lemma wf_ConnectUser u n c w w' r :
  wf w -> ConnectUser u n c w = Some (r, w') -> wf w'.
Proof.
  intros [Hu Hs Hg Hse Hid Hss Hsg Hst Hinj]. rewrite ConnectUser_eq. intros [= _ <-].
  constructor; simpl; eauto.
  - intros k l [[_ ->]|[_ H]]%insert_lookup_Some; rewrite length_app; simpl;
      [lia | specialize (Hu _ _ H); lia].
  - intros l s H. destruct (Hst _ _ H) as (i & Hi & ->). exists i. split; [lia|done].
Qed.

Lemma wf_CreateGroup g n w w' r :
  wf w -> CreateGroup g n w = Some (r, w') -> wf w'.
Proof.
  intros [Hu Hs Hg Hse Hid Hss Hsg Hst Hinj]. rewrite CreateGroup_eq. intros [= _ <-].
  constructor; simpl; eauto.
  - intros k l [[_ ->]|[_ H]]%insert_lookup_Some; rewrite length_app; simpl;
      [lia | specialize (Hg _ _ H); lia].
  - intros la st H. rewrite lookup_insert_is_Some.
    destruct (decide (g = CSStaff.GroupID st)); eauto.
Qed.

Lemma wf_ConnectStaff s n g c w w' r :
  wf w -> ConnectStaff s n g c w = Some (r, w') -> wf w'.
Proof.
  intros Hwf. pose proof Hwf as [Hu Hs Hg Hse Hid Hss Hsg Hst Hinj].
  destruct (groups w !! g) as [gl|] eqn:Hgl.
  - rewrite (ConnectStaff_eq _ _ _ _ _ gl) by eauto. intros [= _ <-].
    constructor; simpl; eauto.
    + intros k l [[_ ->]|[_ H]]%insert_lookup_Some; rewrite length_app; simpl;
        [lia | specialize (Hs _ _ H); lia].
    + intros k l H. rewrite length_alter. eauto.
    + intros la st k [H|[_ ->]]%snoc_lookup_Some; [eauto|].
      simpl. rewrite lookup_empty. intros [? ?]; done.
    + intros la st [H|[_ ->]]%snoc_lookup_Some; simpl; eauto.
    + intros a a' l [[<- ->]|[? H]]%insert_lookup_Some
        [[<- E]|[? H']]%insert_lookup_Some; eauto.
      * apply Hs in H'. lia.
      * apply Hs in H. lia.
  - rewrite ConnectStaff_err by done. intros [= _ <-]. done.
Qed.

Lemma wf_new_session_world u s ul sl w :
  wf w -> wf (new_session_world u s ul sl w).
Proof.
  intros [Hu Hs Hg Hse Hid Hss Hsg Hst Hinj].
  constructor; unfold new_session_world; simpl.
  - intros k l H. rewrite !length_alter. eauto.
  - intros k l H. rewrite length_alter. eauto.
  - eauto.
  - intros k l [[_ ->]|[_ H]]%insert_lookup_Some; rewrite length_app; simpl;
      [lia | specialize (Hse _ _ H); lia].
  - intros k l x [[<- ->]|[Hne H]]%insert_lookup_Some Hx.
    + apply snoc_lookup_Some in Hx as [Hx|[_ ->]]; [|done].
      apply lookup_lt_Some in Hx. lia.
    + apply snoc_lookup_Some in Hx as [Hx|[-> _]]; [exact (Hid _ _ _ H Hx)|].
      specialize (Hse _ _ H). lia.
  - intros la st k (x & Hx & [[_ ->]|[_ ->]])%alter_lookup_Some; simpl.
    + rewrite !lookup_insert_is_Some. intros [?|[? ?]]; [left|right]; eauto.
    + rewrite lookup_insert_is_Some. intros H.
      destruct (decide (session_id u s (clock w (ticks w)) = k)); eauto.
  - intros la st (x & Hx & [[_ ->]|[_ ->]])%alter_lookup_Some; simpl; eauto.
  - intros l x [Hx|[_ ->]]%snoc_lookup_Some.
    + destruct (Hst _ _ Hx) as (i & Hi & ->). exists i. split; [lia|done].
    + exists (S (S (ticks w))). split; [lia|done].
  - eauto.
Qed.

Lemma wf_transfer_world k b l ol nl w :
  wf w -> sessions w !! k = Some l -> wf (transfer_world k b l ol nl w).
Proof.
  intros [Hu Hs Hg Hse Hid Hss Hsg Hst Hinj] Hk.
  constructor; unfold transfer_world; simpl; eauto.
  - intros k' l' H. rewrite !length_alter. eauto.
  - intros k' l' H. rewrite !length_alter. eauto.
  - intros k' l' x H (y & (z & Hz & Hy)%alter_lookup_Some & Hx)%alter_lookup_Some.
    rewrite <- (Hid _ _ _ H Hz).
    destruct Hx as [[_ ->]|[_ ->]], Hy as [[_ ->]|[_ ->]]; reflexivity.
  - intros la st k' (y & (z & Hz & Hy)%alter_lookup_Some & Hx)%alter_lookup_Some.
    destruct Hx as [[_ ->]|[_ ->]], Hy as [[_ ->]|[_ ->]]; simpl;
      rewrite ?lookup_insert_is_Some, ?lookup_delete_is_Some;
      intros; destruct_or?; destruct_and?; subst; eauto.
  - intros la st (y & (z & Hz & Hy)%alter_lookup_Some & Hx)%alter_lookup_Some.
    destruct Hx as [[_ ->]|[_ ->]], Hy as [[_ ->]|[_ ->]]; simpl; eauto.
  - intros l' x (y & (z & Hz & Hy)%alter_lookup_Some & Hx)%alter_lookup_Some.
    destruct (Hst _ _ Hz) as (i & Hi & Hzi).
    destruct Hx as [[_ ->]|[_ ->]].
    + exists (ticks w). split; [lia|done].
    + exists i. split; [lia|]. destruct Hy as [[_ ->]|[_ ->]]; done.
Qed.

Lemma wf_set_ticks f w :
  wf w -> (forall n, (n <= f n)%nat) -> wf (set_ticks f w).
Proof.
  intros [Hu Hs Hg Hse Hid Hss Hsg Hst Hinj] Hf. constructor; simpl; eauto.
  intros l s H. destruct (Hst _ _ H) as (i & Hi & ->). exists i.
  split; [|done]. specialize (Hf (ticks w)). lia.
Qed.

Lemma wf_send_world l msg w :
  wf w -> wf (send_world l msg w).
Proof.
  intros [Hu Hs Hg Hse Hid Hss Hsg Hst Hinj].
  constructor; unfold send_world; simpl; eauto.
  - intros k' l' H. rewrite !length_alter. eauto.
  - intros k' l' x H (y & (z & Hz & Hy)%alter_lookup_Some & Hx)%alter_lookup_Some.
    rewrite <- (Hid _ _ _ H Hz).
    destruct Hx as [[_ ->]|[_ ->]], Hy as [[_ ->]|[_ ->]]; reflexivity.
  - intros l' x (y & (z & Hz & Hy)%alter_lookup_Some & Hx)%alter_lookup_Some.
    destruct (Hst _ _ Hz) as (i & Hi & Hzi).
    destruct Hx as [[_ ->]|[_ ->]].
    + exists (S (S (ticks w))). split; [lia|done].
    + exists i. split; [lia|]. destruct Hy as [[_ ->]|[_ ->]]; done.
Qed.

Lemma wf_disconnect_user_world u ul c w :
  wf w -> wf (disconnect_user_world u ul c w).
Proof.
  intros [Hu Hs Hg Hse Hid Hss Hsg Hst Hinj].
  constructor; unfold disconnect_user_world; simpl; eauto.
  intros k l [_ H]%lookup_delete_Some. rewrite length_alter. eauto.
Qed.

Lemma wf_close_step k l w :
  wf w -> sessions w !! k = Some l ->
  wf (set_h_sessions (alter (close_stamp (clock w (ticks w))) l) (set_ticks S w)).
Proof.
  intros [Hu Hs Hg Hse Hid Hss Hsg Hst Hinj] Hk. constructor; simpl; eauto.
  - intros k' l' H. rewrite length_alter. eauto.
  - intros k' l' x H (z & Hz & Hx)%alter_lookup_Some.
    rewrite <- (Hid _ _ _ H Hz). destruct Hx as [[_ ->]|[_ ->]]; reflexivity.
  - intros l' x (z & Hz & Hx)%alter_lookup_Some.
    destruct (Hst _ _ Hz) as (i & Hi & Hzi).
    destruct Hx as [[_ ->]|[_ ->]].
    + exists (ticks w). split; [lia|done].
    + exists i. split; [lia|done].
Qed.

Lemma wf_close_sessions_world ks : forall w,
  wf w -> wf (close_sessions_world ks w).
Proof.
  induction ks as [|k ks IH]; intros w Hwf; [done|]. simpl. apply IH.
  destruct (sessions w !! k) as [l|] eqn:Hk; [|done].
  by apply (wf_close_step k).
Qed.

Lemma wf_leave_group s gid w : wf w -> wf (leave_group s gid w).
Proof.
  intros Hwf. unfold leave_group. destruct (groups w !! gid) as [gl|]; [|done].
  destruct Hwf as [Hu Hs Hg Hse Hid Hss Hsg Hst Hinj]. constructor; simpl; eauto.
  intros k l H. rewrite length_alter. eauto.
Qed.

Lemma wf_disconnect_staff_world s sl st w :
  wf w -> wf (disconnect_staff_world s sl st w).
Proof.
  intros Hwf. unfold disconnect_staff_world.
  assert (H1 : wf (set_closed (closed_conns (CSStaff.Conn st))
                     (set_h_staffs (alter (CSStaff.with_Status UserStatusOffline) sl) w))).
  { destruct Hwf as [Hu Hs Hg Hse Hid Hss Hsg Hst Hinj]. constructor; simpl; eauto.
    - intros k l H. rewrite length_alter. eauto.
    - intros la x k (z & Hz & [[_ ->]|[_ ->]])%alter_lookup_Some; simpl; eauto.
    - intros la x (z & Hz & [[_ ->]|[_ ->]])%alter_lookup_Some; simpl; eauto. }
  apply (wf_leave_group s (CSStaff.GroupID st)) in H1.
  apply (wf_close_sessions_world (map_to_list (CSStaff.Sessions st)).*1) in H1.
  destruct H1 as [Hu Hs Hg Hse Hid Hss Hsg Hst Hinj]. constructor; simpl; eauto.
  - intros k l [_ H]%lookup_delete_Some. eauto.
  - intros a a' l [_ H]%lookup_delete_Some [_ H']%lookup_delete_Some. eauto.
Qed.

(** No call panics in a well-formed state, and it leaves a well-formed one. *)
Lemma wf_exec o w :
  wf w -> exists w', exec o w = Some (tt, w') /\ wf w'.
Proof.
  intros Hwf. destruct o; simpl; try unfold bind at 1.
  - rewrite ConnectUser_eq. eexists; split; [reflexivity|].
    eapply wf_ConnectUser; [done|apply ConnectUser_eq].
  - destruct (groups w !! groupID) as [gl|] eqn:Hg.
    + erewrite ConnectStaff_eq by (eauto using wf_groups).
      eexists; split; [reflexivity|].
      eapply wf_ConnectStaff; [done|]. apply ConnectStaff_eq; eauto using wf_groups.
    + rewrite ConnectStaff_err by done. eauto.
  - rewrite CreateGroup_eq. eexists; split; [reflexivity|].
    eapply wf_CreateGroup; [done|apply CreateGroup_eq].
  - destruct (users w !! userID) as [ul|] eqn:Hu.
    + destruct (staffs w !! staffID) as [sl|] eqn:Hs.
      * erewrite CreateSession_eq by (eauto using wf_users, wf_staffs).
        eexists; split; [reflexivity|]. by apply wf_new_session_world.
      * erewrite CreateSession_err_staff by eauto. eauto.
    + rewrite CreateSession_err_user by done. eauto.
  - destruct (sessions w !! sessionID) as [l|] eqn:Hk.
    + destruct (staffs w !! newStaffID) as [nl|] eqn:Hn.
      * destruct (lookup_valid _ _ (wf_sessions w Hwf _ _ Hk)) as [s Hs].
        destruct (staffs w !! Session.StaffID s) as [ol|] eqn:Ho.
        -- erewrite TransferSession_eq by (eauto using wf_staffs).
           eexists; split; [reflexivity|]. by apply wf_transfer_world.
        -- erewrite TransferSession_err_old by eauto. eauto.
      * erewrite TransferSession_err_new by eauto. eauto.
    + rewrite TransferSession_err_session by done. eauto.
  - destruct (sessions w !! sessionID) as [l|] eqn:Hk.
    + destruct (lookup_valid _ _ (wf_sessions w Hwf _ _ Hk)) as [s Hs].
      destruct (decide (fromID = Session.UserID s)) as [Hu|Hu].
      * rewrite (SendMessage_eq_user _ _ _ _ _ _ _ Hk Hs Hu).
        eexists; split; [reflexivity|]. by apply wf_send_world.
      * destruct (decide (fromID = Session.StaffID s)) as [Hf|Hf].
        -- rewrite (SendMessage_eq_staff _ _ _ _ _ _ _ Hk Hs Hu Hf).
           eexists; split; [reflexivity|]. by apply wf_send_world.
        -- rewrite (SendMessage_err_party _ _ _ _ _ _ _ Hk Hs Hu Hf).
           eexists; split; [reflexivity|]. apply wf_set_ticks; [done|lia].
    + rewrite SendMessage_err_session by done. eauto.
  - destruct (users w !! userID) as [ul|] eqn:Hu.
    + destruct (lookup_valid _ _ (wf_users w Hwf _ _ Hu)) as [usr Husr].
      erewrite DisconnectUser_eq by eauto.
      eexists; split; [reflexivity|]. by apply wf_disconnect_user_world.
    + rewrite DisconnectUser_absent by done. eauto.
  - destruct (staffs w !! staffID) as [sl|] eqn:Hs.
    + destruct (lookup_valid _ _ (wf_staffs w Hwf _ _ Hs)) as [st Hst].
      erewrite DisconnectStaff_eq by (eauto using wf_groups, wf_sessions).
      eexists; split; [reflexivity|]. by apply wf_disconnect_staff_world.
    + rewrite DisconnectStaff_absent by done. eauto.
Qed.

(** ** Sequences of calls *)

Lemma after_nil w : after [] w = Some w.
Proof. reflexivity. Qed.

Lemma after_cons o ops w :
  after (o :: ops) w =
  match exec o w with
  | Some (_, w1) => after ops w1
  | None => None
  end.
Proof.
  unfold after, run. simpl. unfold bind.
  destruct (exec o w) as [[[] w1]|]; reflexivity.
Qed.

Lemma after_app ops1 : forall ops2 w,
  after (ops1 ++ ops2) w =
  match after ops1 w with
  | Some w1 => after ops2 w1
  | None => None
  end.
Proof.
  induction ops1 as [|o ops1 IH]; intros ops2 w; [reflexivity|].
  simpl. rewrite !after_cons. destruct (exec o w) as [[[] w1]|]; [apply IH|done].
Qed.

Lemma wf_after ops : forall w,
  wf w -> exists w', after ops w = Some w' /\ wf w'.
Proof.
  induction ops as [|o ops IH]; intros w Hwf; [eauto|].
  rewrite after_cons. destruct (wf_exec o w Hwf) as (w1 & -> & Hwf1). eauto.
Qed.

(** Every state the registry can be in is well-formed; in particular no
    sequence of calls panics. *)
Lemma reachable_wf w : reachable w -> wf w.
Proof.
  intros (clk & ops & H).
  destruct (wf_after ops _ (wf_init clk)) as (w' & H' & Hwf). congruence.
Qed.

Lemma reachable_after ops w w' :
  reachable w -> after ops w = Some w' -> reachable w'.
Proof.
  intros (clk & ops0 & H) H'. exists clk, (ops0 ++ ops).
  rewrite after_app, H. done.
Qed.

Lemma session_of_Some w k s :
  session_of w k = Some s <->
  exists l, sessions w !! k = Some l /\ h_sessions w !! l = Some s.
Proof.
  unfold session_of. destruct (sessions w !! k) as [l|]; split.
  - eauto.
  - intros (l' & [= <-] & H). done.
  - done.
  - intros (l' & ? & _). done.
Qed.

Lemma staff_of_Some w a st :
  staff_of w a = Some st <->
  exists l, staffs w !! a = Some l /\ h_staffs w !! l = Some st.
Proof.
  unfold staff_of. destruct (staffs w !! a) as [l|]; split.
  - eauto.
  - intros (l' & [= <-] & H). done.
  - done.
  - intros (l' & ? & _). done.
Qed.

Lemma handles_true w a k :
  handles w a k = true <->
  exists st, staff_of w a = Some st /\ is_Some (CSStaff.Sessions st !! k).
Proof.
  unfold handles. destruct (staff_of w a) as [st|]; split.
  - intros H%bool_decide_eq_true. eauto.
  - intros (st' & [= <-] & H). by apply bool_decide_eq_true.
  - done.
  - intros (st' & ? & _). done.
Qed.

Lemma holders_spec w a k : a ∈ holders w k <-> handles w a k = true.
Proof.
  unfold holders. rewrite list_elem_of_filter. split; [tauto|].
  intros H. split; [done|].
  apply handles_true in H as (st & (l & Hl & _)%staff_of_Some & _).
  apply list_elem_of_fmap. exists (a, l). split; [done|].
  by apply elem_of_map_to_list.
Qed.

Lemma scene_reachable ops w :
  after ops (NewCustomerService clock0) = Some w -> reachable w.
Proof. intros H. exists clock0, ops. exact H. Defined.

Lemma session_of_None w k :
  wf w -> session_of w k = None -> sessions w !! k = None.
Proof.
  intros Hwf. unfold session_of. destruct (sessions w !! k) as [l|] eqn:Hk; [|done].
  destruct (lookup_valid _ _ (wf_sessions w Hwf _ _ Hk)) as [s ->]. done.
Qed.

(** * The claims *)

(** C8. [DisconnectUser] and [DisconnectStaff] on an id that is not in the
    table are no-ops: they return normally and the whole state (tables,
    objects, closed connections, clock) is what it was. *)
Theorem C8_disconnect_unknown_is_noop (w : World) (userID staffID : string) :
  users w !! userID = None ->
  staffs w !! staffID = None ->
  DisconnectUser userID w = Some (tt, w) /\
  DisconnectStaff staffID w = Some (tt, w).
Proof.
  intros Hu Hs. split.
  - by apply DisconnectUser_absent.
  - by apply DisconnectStaff_absent.
Qed.

(** Disconnecting ids that never connected, after [setup]. *)
Lemma C8_witness :
  DisconnectUser "nobody" (scene setup) = Some (tt, scene setup) /\
  DisconnectStaff "nobody" (scene setup) = Some (tt, scene setup).
Proof. apply (C8_disconnect_unknown_is_noop (scene setup) "nobody" "nobody"); reflexivity. Defined.

(** C6. [TransferSession] fails with [ErrStaffNotFound] when the session
    and the destination staff exist but the session's current staff is not
    in the staff table; and whenever [TransferSession] returns an error, in
    any state, the error is [ErrSessionNotFound] or [ErrStaffNotFound] and
    the state is unchanged. *)
Theorem C6_transfer_failure_mutates_nothing (w : World) (k b : string) (s : Session.t) :
  session_of w k = Some s ->
  is_Some (staffs w !! b) ->
  staffs w !! Session.StaffID s = None ->
  TransferSession k b w = Some (Some ErrStaffNotFound, w) /\
  (forall w0 k0 b0 e w',
     TransferSession k0 b0 w0 = Some (Some e, w') ->
     w' = w0 /\ (e = ErrSessionNotFound \/ e = ErrStaffNotFound)).
Proof.
  intros (l & Hk & Hl)%session_of_Some [nl Hb] Ho. split.
  - by apply (TransferSession_err_old k b w l nl s).
  - intros w0 k0 b0 e w'. unfold TransferSession. go_unfold.
    repeat case_match; intros; simplify_eq; eauto.
Qed.

(** s1 has disconnected; the transfer of its session to s2 fails and
    changes nothing. *)
Lemma C6_witness :
  TransferSession sid0 "s2" (scene (setup ++ [OpDisconnectStaff "s1"]))
  = Some (Some ErrStaffNotFound, scene (setup ++ [OpDisconnectStaff "s1"])).
Proof.
  refine (proj1 (C6_transfer_failure_mutates_nothing
                   (scene (setup ++ [OpDisconnectStaff "s1"])) sid0 "s2"
                   (Session.mk sid0 "u1" "s1" SessionStatusClosed
                      1700000000000002000 1700000000000004000 []) _ _ _)).
  - reflexivity.
  - exists 1%nat. reflexivity.
  - reflexivity.
Defined.

(** C4. [SendMessage] from an id that is neither the session's user nor
    its staff fails with [ErrInvalidOperation]; the state it leaves differs
    from the one before only in the number of clock readings taken, so the
    session, its messages and its [UpdateAt] are what they were. *)
Theorem C4_send_from_stranger_rejected
    (w : World) (k from content : string) (ty : MessageType) (s : Session.t) :
  session_of w k = Some s ->
  from <> Session.UserID s ->
  from <> Session.StaffID s ->
  exists w',
    SendMessage k from content ty w = Some (Err ErrInvalidOperation, w') /\
    w' = set_ticks (fun t => S (S t)) w /\
    h_sessions w' = h_sessions w /\
    session_of w' k = Some s.
Proof.
  intros Hs Hu Hf. pose proof Hs as (l & Hk & Hl)%session_of_Some.
  eexists. split; [by apply (SendMessage_err_party k from content ty w l s)|].
  split; [reflexivity|]. split; [reflexivity|]. exact Hs.
Qed.

(** A third party writes into the session of u1 and s1. *)
Lemma C4_witness :
  exists w',
    SendMessage sid0 "mallory" "hi" MessageTypeText (scene setup)
    = Some (Err ErrInvalidOperation, w') /\
    w' = set_ticks (fun t => S (S t)) (scene setup) /\
    h_sessions w' = h_sessions (scene setup) /\
    session_of w' sid0 =
    Some (Session.mk sid0 "u1" "s1" SessionStatusActive
            1700000000000002000 1700000000000003000 []).
Proof.
  apply (C4_send_from_stranger_rejected (scene setup) sid0 "mallory" "hi"
           MessageTypeText); [reflexivity | discriminate | discriminate].
Defined.

(** C9. In every state the registry can be in, [SendMessage] returns, and
    it returns an error exactly when the session id is not in the session
    table ([ErrSessionNotFound]) or the sender is neither the session's
    user nor its staff ([ErrInvalidOperation]).  The session's status is
    never looked at: from either party the call succeeds on a Closed
    session as on any other, the message is appended and [UpdateAt] is
    stamped with the third clock reading of the call. *)
Theorem C9_send_message_error_cases
    (w : World) (k from content : string) (ty : MessageType) :
  reachable w ->
  exists r w',
    SendMessage k from content ty w = Some (r, w') /\
    ((exists e, r = Err e) <->
     (sessions w !! k = None \/
      exists s, session_of w k = Some s /\
                from <> Session.UserID s /\ from <> Session.StaffID s)) /\
    (sessions w !! k = None -> r = Err ErrSessionNotFound) /\
    (forall s, session_of w k = Some s ->
               from <> Session.UserID s -> from <> Session.StaffID s ->
               r = Err ErrInvalidOperation) /\
    (forall s, session_of w k = Some s ->
               from = Session.UserID s \/ from = Session.StaffID s ->
               exists msg,
                 r = Ok msg /\
                 Message.FromID msg = from /\
                 Message.Content msg = content /\
                 session_of w' k =
                 Some (Session.with_UpdateAt (clock w (S (S (ticks w))))
                         (Session.with_Messages (Session.Messages s ++ [msg]) s))).
Proof.
  intros Hwf%reachable_wf.
  destruct (sessions w !! k) as [l|] eqn:Hk.
  - destruct (lookup_valid _ _ (wf_sessions w Hwf _ _ Hk)) as [s Hl].
    assert (Hs : session_of w k = Some s) by (apply session_of_Some; eauto).
    assert (Hdone : forall msg,
      session_of (send_world l msg w) k =
      Some (Session.with_UpdateAt (clock w (S (S (ticks w))))
              (Session.with_Messages (Session.Messages s ++ [msg]) s))).
    { intros msg. unfold session_of, send_world. simpl. rewrite Hk.
      rewrite !list_lookup_alter_eq, Hl. reflexivity. }
    destruct (decide (from = Session.UserID s)) as [Hu|Hu];
      [|destruct (decide (from = Session.StaffID s)) as [Hf|Hf]].
    + rewrite (SendMessage_eq_user _ _ _ _ _ _ _ Hk Hl Hu).
      do 2 eexists. split; [reflexivity|]. repeat split.
      * intros [e [=]].
      * intros [[=]|(s' & Hs' & Hu' & _)]. congruence.
      * intros [=].
      * intros s' Hs' Hu'. congruence.
      * intros s' Hs' _. assert (s' = s) as -> by congruence.
        eexists. split; [reflexivity|]. repeat split. apply Hdone.
    + rewrite (SendMessage_eq_staff _ _ _ _ _ _ _ Hk Hl Hu Hf).
      do 2 eexists. split; [reflexivity|]. repeat split.
      * intros [e [=]].
      * intros [[=]|(s' & Hs' & _ & Hf')]. congruence.
      * intros [=].
      * intros s' Hs' _ Hf'. congruence.
      * intros s' Hs' _. assert (s' = s) as -> by congruence.
        eexists. split; [reflexivity|]. repeat split. apply Hdone.
    + rewrite (SendMessage_err_party _ _ _ _ _ _ _ Hk Hl Hu Hf).
      do 2 eexists. split; [reflexivity|]. repeat split; eauto.
      * intros [=].
      * intros s' Hs' [?|?]; congruence.
  - rewrite SendMessage_err_session by done.
    do 2 eexists. split; [reflexivity|]. repeat split; eauto.
    + intros s. unfold session_of. rewrite Hk. done.
    + intros s. unfold session_of. rewrite Hk. done.
Qed.

(** On the session that the disconnect of s1 has closed, the user still
    sends. *)
Lemma C9_witness :
  exists r w',
    SendMessage sid0 "u1" "anyone?" MessageTypeText
      (scene (setup ++ [OpDisconnectStaff "s1"])) = Some (r, w') /\
    r = Ok (Message.mk "u1_s1_20231114221320_20231114221320" sid0 "u1" "s1"
              "anyone?" MessageTypeText 1700000000000006000) /\
    session_of (scene (setup ++ [OpDisconnectStaff "s1"])) sid0
    = Some (Session.mk sid0 "u1" "s1" SessionStatusClosed
              1700000000000002000 1700000000000004000 []).
Proof.
  destruct (C9_send_message_error_cases
              (scene (setup ++ [OpDisconnectStaff "s1"])) sid0 "u1" "anyone?"
              MessageTypeText) as (r & w' & Hrun & _ & _ & _ & Hok).
  - apply (scene_reachable (setup ++ [OpDisconnectStaff "s1"])).
    vm_compute. reflexivity.
  - exists r, w'. split; [exact Hrun|]. split; [|vm_compute; reflexivity].
    revert Hrun. vm_compute. intros [= <- _]. reflexivity.
Defined.

(** ** The loop of [DisconnectStaff] *)

Lemma close_stamp_twice t t' s : close_stamp t (close_stamp t' s) = close_stamp t s.
Proof. reflexivity. Qed.

(** The loop only writes session objects and reads the clock. *)
Lemma close_sessions_world_frame ks : forall w,
  let w' := close_sessions_world ks w in
  users w' = users w /\ staffs w' = staffs w /\ groups w' = groups w /\
  sessions w' = sessions w /\ h_users w' = h_users w /\
  h_staffs w' = h_staffs w /\ h_groups w' = h_groups w /\
  closed w' = closed w /\ clock w' = clock w /\
  length (h_sessions w') = length (h_sessions w) /\ (ticks w <= ticks w')%nat.
Proof.
  induction ks as [|k ks IH]; intros w; simpl; [repeat split; lia|].
  destruct (sessions w !! k) as [l|]; [|apply IH].
  specialize (IH (set_h_sessions (alter (close_stamp (clock w (ticks w))) l)
                    (set_ticks S w))).
  simpl in IH. rewrite length_alter in IH.
  destruct IH as (?&?&?&?&?&?&?&?&?&?&?). repeat split; try done. lia.
Qed.

(** A session object is left alone if no id of the loop is filed at it,
    and is otherwise stamped closed with a reading taken during the loop. *)
Lemma close_sessions_world_at ks : forall w l s,
  h_sessions w !! l = Some s ->
  let w' := close_sessions_world ks w in
  ((forall k, k ∈ ks -> sessions w !! k <> Some l) /\
   h_sessions w' !! l = Some s) \/
  ((exists k, k ∈ ks /\ sessions w !! k = Some l) /\
   exists i, (ticks w <= i < ticks w')%nat /\
             h_sessions w' !! l = Some (close_stamp (clock w i) s)).
Proof.
  induction ks as [|k ks IH]; intros w l s Hl; simpl.
  { left. split; [|done]. intros k Hk. by apply elem_of_nil in Hk. }
  destruct (sessions w !! k) as [l0|] eqn:Hk.
  - set (w1 := set_h_sessions (alter (close_stamp (clock w (ticks w))) l0)
                 (set_ticks S w)).
    pose proof (close_sessions_world_frame ks w1) as (_&_&_&_&_&_&_&_&_&_&Ht).
    simpl in Ht.
    destruct (decide (l0 = l)) as [->|Hne].
    + right. split; [exists k; split; [left|done]|].
      assert (Hl1 : h_sessions w1 !! l = Some (close_stamp (clock w (ticks w)) s)).
      { simpl. rewrite list_lookup_alter_eq, Hl. done. }
      destruct (IH w1 _ _ Hl1) as [[_ H]|[_ (i & Hi & H)]].
      * exists (ticks w). split; [lia|done].
      * exists i. simpl in Hi. split; [lia|]. rewrite H. done.
    + assert (Hl1 : h_sessions w1 !! l = Some s).
      { simpl. rewrite list_lookup_alter_ne by done. done. }
      destruct (IH w1 _ _ Hl1) as [[Hn H]|[(k' & Hk' & Hkl) (i & Hi & H)]].
      * left. split; [|done].
        intros k' [->|Hk']%elem_of_cons; [congruence|]. by apply Hn.
      * right. split; [exists k'; split; [right|]; done|].
        exists i. simpl in Hi. split; [lia|done].
  - destruct (IH w _ _ Hl) as [[Hn H]|[(k' & Hk' & Hkl) (i & Hi & H)]].
    + left. split; [|done].
      intros k' [->|Hk']%elem_of_cons; [congruence|]. by apply Hn.
    + right. split; [exists k'; split; [right|]; done|]. eauto.
Qed.

Lemma leave_group_frame s gid w :
  let w' := leave_group s gid w in
  users w' = users w /\ staffs w' = staffs w /\ groups w' = groups w /\
  sessions w' = sessions w /\ h_users w' = h_users w /\
  h_staffs w' = h_staffs w /\ h_sessions w' = h_sessions w /\
  closed w' = closed w /\ clock w' = clock w /\ ticks w' = ticks w.
Proof. unfold leave_group. destruct (groups w !! gid); repeat split. Qed.

Lemma keys_elem_of (m : gmap string nat) (k : string) :
  k ∈ (map_to_list m).*1 <-> is_Some (m !! k).
Proof.
  rewrite list_elem_of_fmap. split.
  - intros ([k' l] & -> & H%elem_of_map_to_list). eauto.
  - intros [l H]. exists (k, l). split; [done|]. by apply elem_of_map_to_list.
Qed.

(** The order in which the loop visits the ids only decides the stamps:
    visiting them in another order closes the same session objects. *)
Lemma close_sessions_world_order ks ks' w l s1 s2 :
  ks ≡ₚ ks' ->
  h_sessions (close_sessions_world ks w) !! l = Some s1 ->
  h_sessions (close_sessions_world ks' w) !! l = Some s2 ->
  exists t, s2 = Session.with_UpdateAt t s1.
Proof.
  intros Hp H1 H2.
  pose proof (close_sessions_world_frame ks w) as (_&_&_&_&_&_&_&_&_&Hlen&_).
  destruct (lookup_valid (h_sessions w) l) as [s Hs].
  { rewrite <- Hlen. eauto using lookup_lt_Some. }
  destruct (close_sessions_world_at ks w l s Hs)
    as [[Hn E1]|[(k & Hk & Hkl) (i & _ & E1)]];
    destruct (close_sessions_world_at ks' w l s Hs)
      as [[Hn' E2]|[(k' & Hk' & Hkl') (i' & _ & E2)]];
    rewrite E1 in H1; rewrite E2 in H2;
    injection H1 as <-; injection H2 as <-.
  - exists (Session.UpdateAt s). by destruct s.
  - exfalso. apply (Hn k'); [by rewrite Hp|done].
  - exfalso. apply (Hn' k); [by rewrite <- Hp|done].
  - by exists (clock w i').
Qed.



(** ** [TransferSession] on its success path *)


Lemma handles_transfer_world w k b l ol nl os a k' :
  wf w -> staffs w !! b = Some nl -> staffs w !! os = Some ol ->
  handles (transfer_world k b l ol nl w) a k' =
  if decide (k' = k) then
    if decide (a = b) then true
    else if decide (a = os) then false
    else handles w a k
  else handles w a k'.
Proof.
  intros Hwf Hb Ho. unfold handles, staff_of. simpl.
  destruct (staffs w !! a) as [la|] eqn:Ha.
  - destruct (lookup_valid _ _ (wf_staffs w Hwf _ _ Ha)) as [x Hx].
    destruct (decide (nl = la)) as [->|Hn], (decide (ol = la)) as [->|Hol];
      repeat (rewrite list_lookup_alter_eq || rewrite list_lookup_alter_ne by done);
      rewrite Hx; simpl.
    + assert (a = b) as -> by eauto using wf_staffs_inj.
      destruct (decide (k' = k)) as [->|Hk].
      * rewrite decide_True by done. rewrite lookup_insert_eq.
        by apply bool_decide_eq_true.
      * rewrite lookup_insert_ne, lookup_delete_ne by done. done.
    + assert (a = b) as -> by eauto using wf_staffs_inj.
      destruct (decide (k' = k)) as [->|Hk].
      * rewrite decide_True by done. rewrite lookup_insert_eq.
        by apply bool_decide_eq_true.
      * rewrite lookup_insert_ne by done. done.
    + assert (a <> b) by (intros ->; congruence).
      assert (a = os) as -> by eauto using wf_staffs_inj.
      destruct (decide (k' = k)) as [->|Hk].
      * rewrite decide_False, decide_True by done. rewrite lookup_delete_eq.
        apply bool_decide_eq_false. intros [? ?]; done.
      * rewrite lookup_delete_ne by done. done.
    + assert (a <> b) by (intros ->; congruence).
      assert (a <> os) by (intros ->; congruence).
      destruct (decide (k' = k)) as [->|Hk]; [|done].
      rewrite !decide_False by done. done.
  - assert (a <> b) by (intros ->; congruence).
    assert (a <> os) by (intros ->; congruence).
    destruct (decide (k' = k)); rewrite ?decide_False by done; done.
Qed.





(** ** Session ids *)




Lemma append_inj_r (p a b : string) : p +:+ a = p +:+ b -> a = b.
Proof.
  induction p as [|x p IH]; [done|].
  change (String x (p +:+ a) = String x (p +:+ b) -> a = b).
  intros [= H]. auto.
Qed.






(** ** [CreateSession] on its success path *)

Lemma handles_new_session_world w u s ul sl a k :
  wf w -> staffs w !! s = Some sl ->
  handles (new_session_world u s ul sl w) a k =
  if decide (k = session_id u s (clock w (ticks w))) then
    if decide (a = s) then true else handles w a k
  else handles w a k.
Proof.
  intros Hwf Hs. unfold handles, staff_of. simpl.
  destruct (staffs w !! a) as [la|] eqn:Ha.
  - destruct (lookup_valid _ _ (wf_staffs w Hwf _ _ Ha)) as [x Hx].
    destruct (decide (sl = la)) as [->|Hn];
      [rewrite list_lookup_alter_eq|rewrite list_lookup_alter_ne by done];
      rewrite Hx; simpl.
    + assert (a = s) as -> by eauto using wf_staffs_inj.
      destruct (decide (k = _)) as [->|Hk].
      * rewrite decide_True by done. rewrite lookup_insert_eq.
        by apply bool_decide_eq_true.
      * rewrite lookup_insert_ne by done. done.
    + assert (a <> s) by (intros ->; congruence).
      destruct (decide (k = _)); [|done]. rewrite decide_False by done. done.
  - assert (a <> s) by (intros ->; congruence).
    destruct (decide (k = _)); [|done]. rewrite decide_False by done. done.
Qed.

Lemma session_of_new_session_world w u s ul sl k :
  wf w ->
  session_of (new_session_world u s ul sl w) k =
  if decide (k = session_id u s (clock w (ticks w))) then
    Some (Session.mk k u s SessionStatusActive
            (clock w (S (ticks w))) (clock w (S (S (ticks w)))) [])
  else session_of w k.
Proof.
  intros Hwf. unfold session_of. simpl.
  destruct (decide (k = _)) as [->|Hk].
  - rewrite lookup_insert_eq, lookup_app_r, Nat.sub_diag by lia. done.
  - rewrite lookup_insert_ne by done.
    destruct (sessions w !! k) as [l|] eqn:Hl; [|done].
    apply lookup_app_l. eauto using wf_sessions.
Qed.

(** C10 as stated fails, in two ways.  First: u1 is InSession, its session
    was closed when s1 disconnected; a new session with s2 is created and
    the prior one is still Closed, not Active.  Second: u1 is InSession with
    s1 and is paired with s1 again within the same second; the new session
    has the id of the prior one and takes its place in the session table. *)
Lemma C10_counterexample :
  (exists p w',
     User.Status <$> user_of (scene (setup ++ [OpDisconnectStaff "s1"])) "u1"
       = Some UserStatusInSession /\
     User.SessionID <$> user_of (scene (setup ++ [OpDisconnectStaff "s1"])) "u1"
       = Some sid0 /\
     CreateSession "u1" "s2" (scene (setup ++ [OpDisconnectStaff "s1"]))
       = Some (Ok p, w') /\
     ~ prior_session_kept (scene (setup ++ [OpDisconnectStaff "s1"])) w' sid0) /\
  (exists p w',
     User.Status <$> user_of (scene setup) "u1" = Some UserStatusInSession /\
     User.SessionID <$> user_of (scene setup) "u1" = Some sid0 /\
     CreateSession "u1" "s1" (scene setup) = Some (Ok p, w') /\
     ~ prior_session_kept (scene setup) w' sid0).
Proof.
  split.
  - exists 1%nat,
      (new_session_world "u1" "s2" 0 1 (scene (setup ++ [OpDisconnectStaff "s1"]))).
    split; [vm_compute; reflexivity|]. split; [vm_compute; reflexivity|].
    split.
    { apply (CreateSession_eq "u1" "s2"
               (scene (setup ++ [OpDisconnectStaff "s1"])) 0 1);
        vm_compute; (reflexivity || lia). }
    intros (_ & _ & s & Hs & Hact & _). revert Hs. vm_compute.
    intros [= <-]. discriminate Hact.
  - exists 1%nat, (new_session_world "u1" "s1" 0 0 (scene setup)).
    split; [vm_compute; reflexivity|]. split; [vm_compute; reflexivity|].
    split.
    { apply (CreateSession_eq "u1" "s1" (scene setup) 0 0);
        vm_compute; (reflexivity || lia). }
    intros (_ & Hptr & _). revert Hptr. vm_compute. discriminate.
Qed.

(** C10, amended.  For a connected user who is InSession and a connected
    staff member, [CreateSession] succeeds: the user's [SessionID] becomes
    the new id (status InSession), the new Active session is filed under
    that id and is in the staff's session set.  Every other id, in
    particular the user's prior session id when the new id differs from it,
    keeps its table entry, its session with its status, and its membership
    in every staff's session set. *)
Theorem C10_create_session_while_in_session
    (w : World) (u s : string) (usr : User.t) :
  reachable w ->
  user_of w u = Some usr ->
  User.Status usr = UserStatusInSession ->
  is_Some (staffs w !! s) ->
  let id := session_id u s (clock w (ticks w)) in
  exists p w',
    CreateSession u s w = Some (Ok p, w') /\
    user_of w' u =
      Some (User.with_Status UserStatusInSession (User.with_SessionID id usr)) /\
    session_of w' id =
      Some (Session.mk id u s SessionStatusActive
              (clock w (S (ticks w))) (clock w (S (S (ticks w)))) []) /\
    handles w' s id = true /\
    (forall k, k <> id ->
       sessions w' !! k = sessions w !! k /\
       session_of w' k = session_of w k /\
       forall a, handles w' a k = handles w a k).
Proof.
  intros Hwf%reachable_wf Husr _ [sl Hs] id.
  unfold user_of in Husr. destruct (users w !! u) as [ul|] eqn:Hu; [|done].
  exists (length (h_sessions w)), (new_session_world u s ul sl w).
  split; [apply CreateSession_eq; eauto using wf_users, wf_staffs|].
  split.
  { unfold user_of. simpl. rewrite Hu, !list_lookup_alter_eq, Husr. done. }
  split.
  { rewrite session_of_new_session_world by done. by rewrite decide_True. }
  split.
  { rewrite (handles_new_session_world w u s ul sl) by done.
    by rewrite !decide_True. }
  intros k Hk. split; [simpl; by rewrite lookup_insert_ne|].
  split.
  - rewrite session_of_new_session_world by done. by rewrite decide_False.
  - intros a. rewrite (handles_new_session_world w u s ul sl) by done.
    by rewrite decide_False.
Qed.

(** u1, in session with s1 since 22:13:20, is paired with s2: the session
    with s1 stays as it was. *)
Lemma C10_witness :
  exists p w',
    CreateSession "u1" "s2" (scene setup) = Some (Ok p, w') /\
    User.SessionID <$> user_of w' "u1" = Some "u1_s2_20231114221320"%string /\
    session_of w' sid0 = session_of (scene setup) sid0 /\
    handles w' "s1" sid0 = handles (scene setup) "s1" sid0.
Proof.
  destruct (C10_create_session_while_in_session (scene setup) "u1" "s2"
              (User.mk "u1" "alice" UserStatusInSession (Some 1%nat)
                 1700000000000000000 sid0))
    as (p & w' & Hrun & Hu & _ & _ & Hkeep).
  - apply (scene_reachable setup). vm_compute. reflexivity.
  - vm_compute. reflexivity.
  - reflexivity.
  - exists 1%nat. vm_compute. reflexivity.
  - exists p, w'. split; [exact Hrun|]. split; [rewrite Hu; vm_compute; reflexivity|].
    destruct (Hkeep sid0) as (_ & Hs & Hh); [vm_compute; discriminate|].
    split; [exact Hs|apply Hh].
Defined.

(** ** Every call has one of the effects above *)

Lemma exec_effect o w w' :
  wf w -> exec o w = Some (tt, w') -> effect w o w'.
Proof.
  intros Hwf. destruct o; simpl; try unfold bind at 1.
  - rewrite ConnectUser_eq. intros [= <-]. constructor.
  - destruct (groups w !! groupID) as [gl|] eqn:Hg.
    + erewrite ConnectStaff_eq by (eauto using wf_groups).
      intros [= <-]. by constructor.
    + rewrite ConnectStaff_err by done. intros [= <-]. constructor.
  - rewrite CreateGroup_eq. intros [= <-]. constructor.
  - destruct (users w !! userID) as [ul|] eqn:Hu.
    + destruct (staffs w !! staffID) as [sl|] eqn:Hs.
      * erewrite CreateSession_eq by (eauto using wf_users, wf_staffs).
        intros [= <-]. by constructor.
      * erewrite CreateSession_err_staff by eauto. intros [= <-]. constructor.
    + rewrite CreateSession_err_user by done. intros [= <-]. constructor.
  - destruct (sessions w !! sessionID) as [l|] eqn:Hk.
    + destruct (staffs w !! newStaffID) as [nl|] eqn:Hn.
      * destruct (lookup_valid _ _ (wf_sessions w Hwf _ _ Hk)) as [s Hs].
        destruct (staffs w !! Session.StaffID s) as [ol|] eqn:Ho.
        -- erewrite TransferSession_eq by (eauto using wf_staffs).
           intros [= <-]. by econstructor.
        -- erewrite TransferSession_err_old by eauto. intros [= <-]. constructor.
      * erewrite TransferSession_err_new by eauto. intros [= <-]. constructor.
    + rewrite TransferSession_err_session by done. intros [= <-]. constructor.
  - destruct (sessions w !! sessionID) as [l|] eqn:Hk.
    + destruct (lookup_valid _ _ (wf_sessions w Hwf _ _ Hk)) as [s Hs].
      destruct (decide (fromID = Session.UserID s)) as [Hu|Hu].
      * rewrite (SendMessage_eq_user _ _ _ _ _ _ _ Hk Hs Hu).
        intros [= <-]. by constructor.
      * destruct (decide (fromID = Session.StaffID s)) as [Hf|Hf].
        -- rewrite (SendMessage_eq_staff _ _ _ _ _ _ _ Hk Hs Hu Hf).
           intros [= <-]. by constructor.
        -- rewrite (SendMessage_err_party _ _ _ _ _ _ _ Hk Hs Hu Hf).
           intros [= <-]. apply eff_send_rejected.
    + rewrite SendMessage_err_session by done. intros [= <-]. constructor.
  - destruct (users w !! userID) as [ul|] eqn:Hu.
    + destruct (lookup_valid _ _ (wf_users w Hwf _ _ Hu)) as [usr Husr].
      erewrite DisconnectUser_eq by eauto. intros [= <-]. by constructor.
    + rewrite DisconnectUser_absent by done. intros [= <-]. constructor.
  - destruct (staffs w !! staffID) as [sl|] eqn:Hs.
    + destruct (lookup_valid _ _ (wf_staffs w Hwf _ _ Hs)) as [st Hst].
      erewrite DisconnectStaff_eq by (eauto using wf_groups, wf_sessions).
      intros [= <-]. by constructor.
    + rewrite DisconnectStaff_absent by done. intros [= <-]. constructor.
Qed.

(** ** What a call can do to a session object *)

Lemma effect_session_object w o w' l s :
  wf w -> effect w o w' -> h_sessions w !! l = Some s ->
  exists s',
    h_sessions w' !! l = Some s' /\
    Session.ID s' = Session.ID s /\
    Session.UserID s' = Session.UserID s /\
    (Session.Status s = SessionStatusClosed ->
     Session.Status s' = SessionStatusClosed) /\
    (Session.StaffID s' = Session.StaffID s \/
     exists b, o = OpTransferSession (Session.ID s) b).
Proof.
  intros Hwf Heff Hl.
  destruct Heff as [| | |u a ul sl Hu Hs|k b l0 nl s0 ol Hk Hb Hl0 Ho
                    |k from content ty l0 msg Hk| | |a sl st Ha Hst|];
    simpl; try (exists s; by eauto 10).
  - exists s. split; [by apply lookup_app_l_Some|]. eauto 10.
  - destruct (decide (l0 = l)) as [->|Hne].
    + rewrite !list_lookup_alter_eq, Hl. simpl. eexists. split; [done|].
      simpl. repeat split; [done|]. right. exists b.
      by rewrite (wf_session_id w Hwf _ _ _ Hk Hl).
    + rewrite !list_lookup_alter_ne by done. exists s. eauto 10.
  - destruct (decide (l0 = l)) as [->|Hne].
    + rewrite !list_lookup_alter_eq, Hl. simpl. eexists. split; [done|].
      simpl. repeat split; eauto.
    + rewrite !list_lookup_alter_ne by done. exists s. eauto 10.
  - set (w2 := set_closed _ (set_h_staffs _ w)).
    pose proof (leave_group_frame a (CSStaff.GroupID st) w2)
      as (_&_&_&_&_&_&Ehse&_&_&_).
    assert (Hl3 : h_sessions (leave_group a (CSStaff.GroupID st) w2) !! l = Some s)
      by (rewrite Ehse; done).
    destruct (close_sessions_world_at (map_to_list (CSStaff.Sessions st)).*1
                _ l s Hl3) as [[_ H]|[_ (i & _ & H)]].
    + exists s. eauto 10.
    + eexists. split; [exact H|]. simpl. repeat split; eauto.
Qed.

(** C2, amended.  Once a session object is Closed, no sequence of calls
    changes its [Status], its [UserID] or its [ID]; and its [StaffID] is the
    same after any sequence that has no [TransferSession] for its id. *)
Theorem C2_closed_session_frozen
    (ops : list Op) (w w' : World) (l : nat) (s : Session.t) :
  reachable w ->
  after ops w = Some w' ->
  h_sessions w !! l = Some s ->
  Session.Status s = SessionStatusClosed ->
  exists s',
    h_sessions w' !! l = Some s' /\
    Session.Status s' = SessionStatusClosed /\
    Session.UserID s' = Session.UserID s /\
    Session.ID s' = Session.ID s /\
    ((forall b, OpTransferSession (Session.ID s) b ∉ ops) ->
     Session.StaffID s' = Session.StaffID s).
Proof.
  intros Hwf%reachable_wf. revert w s Hwf.
  induction ops as [|o ops IH]; intros w s Hwf Hrun Hl Hc.
  { rewrite after_nil in Hrun. injection Hrun as <-. exists s. eauto 10. }
  rewrite after_cons in Hrun.
  destruct (wf_exec o w Hwf) as (w1 & Hexec & Hwf1). rewrite Hexec in Hrun.
  pose proof (exec_effect o w w1 Hwf Hexec) as Heff.
  destruct (effect_session_object w o w1 l s Hwf Heff Hl)
    as (s1 & Hl1 & Hid & Hu & Hst & Hsid).
  destruct (IH w1 s1 Hwf1 Hrun Hl1 (Hst Hc)) as (s' & Hl' & Hc' & Hu' & Hid' & Hsid').
  exists s'. split; [done|]. split; [done|]. split; [congruence|].
  split; [congruence|]. intros Hno.
  rewrite Hsid'.
  - destruct Hsid as [?|[b ->]]; [done|].
    exfalso. apply (Hno b). left.
  - intros b Hb. apply (Hno b). right. by rewrite <- Hid.
Qed.

(** C2 as stated fails: the session was closed when s1 disconnected; s1
    connects again, and [TransferSession] to s2 then succeeds and changes
    the [StaffID] of the Closed session. *)
Lemma C2_counterexample :
  session_of (scene reconnected) sid0 =
    Some (Session.mk sid0 "u1" "s1" SessionStatusClosed
            1700000000000002000 1700000000000004000 []) /\
  exists w',
    TransferSession sid0 "s2" (scene reconnected) = Some (None, w') /\
    session_of w' sid0 =
      Some (Session.mk sid0 "u1" "s2" SessionStatusClosed
              1700000000000002000 1700000000000005000 []).
Proof.
  split; [vm_compute; reflexivity|].
  exists (transfer_world sid0 "s2" 0 2 1 (scene reconnected)).
  split; [|vm_compute; reflexivity].
  apply (TransferSession_eq sid0 "s2" (scene reconnected) 0 1
           (Session.mk sid0 "u1" "s1" SessionStatusClosed
              1700000000000002000 1700000000000004000 []) 2);
    vm_compute; (reflexivity || lia).
Qed.

(** The session closed by the disconnect of s1 stays Closed, with user u1
    and staff s1, while s1 connects again, u1 writes and u1 disconnects. *)
Lemma C2_witness :
  exists s',
    h_sessions (scene (reconnected ++
                  [ OpSendMessage sid0 "u1" "hello?" MessageTypeText;
                    OpDisconnectUser "u1" ])) !! 0%nat = Some s' /\
    Session.Status s' = SessionStatusClosed /\
    Session.UserID s' = "u1"%string /\
    Session.StaffID s' = "s1"%string.
Proof.
  destruct (C2_closed_session_frozen
              [ OpConnectStaff "s1" "bob" "g1" (Some 4%nat);
                OpSendMessage sid0 "u1" "hello?" MessageTypeText;
                OpDisconnectUser "u1" ]
              (scene (setup ++ [OpDisconnectStaff "s1"]))
              (scene (reconnected ++
                  [ OpSendMessage sid0 "u1" "hello?" MessageTypeText;
                    OpDisconnectUser "u1" ]))
              0%nat
              (Session.mk sid0 "u1" "s1" SessionStatusClosed
                 1700000000000002000 1700000000000004000 []))
    as (s' & Hl & Hc & Hu & _ & Hst).
  - apply (scene_reachable (setup ++ [OpDisconnectStaff "s1"])).
    vm_compute. reflexivity.
  - vm_compute. reflexivity.
  - vm_compute. reflexivity.
  - reflexivity.
  - exists s'. split; [exact Hl|]. split; [exact Hc|]. split; [exact Hu|].
    apply Hst. intros b Hb.
    repeat (apply elem_of_cons in Hb as [Hb|Hb]; [discriminate Hb|]).
    by apply elem_of_nil in Hb.
Defined.

(** ** The assignment invariant, step by step *)

Lemma assigned_key w : wf w -> session_assigned w <-> assigned_by_key w.
Proof.
  intros Hwf. split; intros H k s Hs Hst a.
  - pose proof Hs as (l & Hk & Hl)%session_of_Some.
    rewrite <- (wf_session_id w Hwf _ _ _ Hk Hl). apply (H k s Hs).
    destruct (Session.Status s); eauto. done.
  - pose proof Hs as (l & Hk & Hl)%session_of_Some.
    rewrite (wf_session_id w Hwf _ _ _ Hk Hl). apply (H k s Hs).
    destruct Hst as [-> | ->]; done.
Qed.

Lemma handles_in_table w a k :
  handles w a k = true -> is_Some (staffs w !! a).
Proof.
  intros (st & Hst & _)%handles_true. apply staff_of_Some in Hst as (l & ? & _).
  eauto.
Qed.

Lemma handles_in_sessions w a k :
  wf w -> handles w a k = true -> is_Some (sessions w !! k).
Proof.
  intros Hwf (st & Hst & Hk)%handles_true.
  apply staff_of_Some in Hst as (l & _ & Hl). eauto using wf_staff_sessions.
Qed.

Lemma handles_connect_staff_world w s n g c gl a k :
  wf w ->
  handles (connect_staff_world s n g c gl w) a k =
  if decide (a = s) then false else handles w a k.
Proof.
  intros Hwf. unfold handles, staff_of. simpl.
  destruct (decide (a = s)) as [->|Hne].
  - rewrite lookup_insert_eq, lookup_app_r, Nat.sub_diag by lia. simpl.
    apply bool_decide_eq_false. rewrite lookup_empty. intros [? ?]; done.
  - rewrite lookup_insert_ne by done.
    destruct (staffs w !! a) as [la|] eqn:Ha; [|done].
    rewrite lookup_app_l by eauto using wf_staffs. done.
Qed.

Lemma sessions_inj w k k' l :
  wf w -> sessions w !! k = Some l -> sessions w !! k' = Some l -> k = k'.
Proof.
  intros Hwf Hk Hk'.
  destruct (lookup_valid _ _ (wf_sessions w Hwf _ _ Hk)) as [s Hs].
  rewrite <- (wf_session_id w Hwf _ _ _ Hk Hs).
  apply (wf_session_id w Hwf _ _ _ Hk' Hs).
Qed.

(** Writing through the pointer filed under [k] changes the session under
    [k] and no other. *)
Lemma session_of_alter w f k l k' :
  wf w -> sessions w !! k = Some l ->
  session_of (set_h_sessions (alter f l) w) k' =
  if decide (k' = k) then f <$> session_of w k else session_of w k'.
Proof.
  intros Hwf Hk. unfold session_of. simpl.
  destruct (decide (k' = k)) as [->|Hne].
  - rewrite Hk. apply list_lookup_alter_eq.
  - destruct (sessions w !! k') as [l'|] eqn:Hk'; [|done].
    apply list_lookup_alter_ne. intros ->. eauto using sessions_inj.
Qed.

Lemma session_of_ext w1 w2 k :
  sessions w1 = sessions w2 -> h_sessions w1 = h_sessions w2 ->
  session_of w1 k = session_of w2 k.
Proof. unfold session_of. by intros -> ->. Qed.

Lemma handles_ext w1 w2 a k :
  staffs w1 = staffs w2 -> h_staffs w1 = h_staffs w2 ->
  handles w1 a k = handles w2 a k.
Proof. unfold handles, staff_of. by intros -> ->. Qed.

Lemma session_of_transfer_world w k b l ol nl k' :
  wf w -> sessions w !! k = Some l ->
  session_of (transfer_world k b l ol nl w) k' =
  if decide (k' = k) then
    (fun s => Session.with_UpdateAt (clock w (ticks w)) (Session.with_StaffID b s))
      <$> session_of w k
  else session_of w k'.
Proof.
  intros Hwf Hk. rewrite <- (session_of_alter w _ k l k' Hwf Hk).
  apply session_of_ext; [done|]. simpl. apply list_alter_alter_eq.
Qed.

Lemma session_of_send_world w k l msg k' :
  wf w -> sessions w !! k = Some l ->
  session_of (send_world l msg w) k' =
  if decide (k' = k) then
    (fun s => Session.with_UpdateAt (clock w (S (S (ticks w))))
                (Session.with_Messages (Session.Messages s ++ [msg]) s))
      <$> session_of w k
  else session_of w k'.
Proof.
  intros Hwf Hk. rewrite <- (session_of_alter w _ k l k' Hwf Hk).
  apply session_of_ext; [done|]. simpl. apply list_alter_alter_eq.
Qed.

Lemma handles_disconnect_staff_world w a0 sl st a k :
  wf w -> staffs w !! a0 = Some sl ->
  handles (disconnect_staff_world a0 sl st w) a k =
  if decide (a = a0) then false else handles w a k.
Proof.
  intros Hwf Ha0. unfold disconnect_staff_world.
  set (w2 := set_closed _ (set_h_staffs _ w)).
  pose proof (leave_group_frame a0 (CSStaff.GroupID st) w2)
    as (_ & Es & _ & _ & _ & Ehs & _).
  pose proof (close_sessions_world_frame (map_to_list (CSStaff.Sessions st)).*1
                (leave_group a0 (CSStaff.GroupID st) w2))
    as (_ & Fs & _ & _ & _ & Fhs & _).
  unfold handles, staff_of. simpl. rewrite Fs, Es, Fhs, Ehs. simpl.
  destruct (decide (a = a0)) as [->|Hne].
  - by rewrite lookup_delete_eq.
  - rewrite lookup_delete_ne by done.
    destruct (staffs w !! a) as [la|] eqn:Ha; [|done].
    rewrite list_lookup_alter_ne; [done|].
    intros ->. apply Hne. eauto using wf_staffs_inj.
Qed.

(** A session that the disconnect leaves open was not in the staff's set. *)
Lemma session_of_disconnect_staff_world w a0 sl st k s' :
  wf w -> h_staffs w !! sl = Some st ->
  session_of (disconnect_staff_world a0 sl st w) k = Some s' ->
  Session.Status s' <> SessionStatusClosed ->
  session_of w k = Some s' /\ CSStaff.Sessions st !! k = None.
Proof.
  intros Hwf Hst Hs' Hopen. unfold disconnect_staff_world in Hs'.
  set (w2 := set_closed _ (set_h_staffs _ w)) in Hs'.
  pose proof (leave_group_frame a0 (CSStaff.GroupID st) w2)
    as (_ & _ & _ & Ese & _ & _ & Ehse & _).
  set (w3 := leave_group a0 (CSStaff.GroupID st) w2) in *.
  set (ks := (map_to_list (CSStaff.Sessions st)).*1) in *.
  pose proof (close_sessions_world_frame ks w3) as (_ & _ & _ & Fse & _).
  apply session_of_Some in Hs' as (l & Hk & Hl). simpl in Hk, Hl.
  rewrite Fse, Ese in Hk. simpl in Hk.
  destruct (lookup_valid _ _ (wf_sessions w Hwf _ _ Hk)) as [s Hs].
  assert (Hs3 : h_sessions w3 !! l = Some s) by (rewrite Ehse; done).
  destruct (close_sessions_world_at ks w3 l s Hs3) as [[Hn H]|[_ (i & _ & H)]].
  - assert (s' = s) as -> by congruence.
    split; [apply session_of_Some; eauto|].
    destruct (CSStaff.Sessions st !! k) eqn:Hin; [|done].
    exfalso. apply (Hn k); [apply keys_elem_of; eauto|].
    rewrite Ese. done.
  - exfalso. apply Hopen. assert (s' = close_stamp (clock w3 i) s) as -> by congruence.
    done.
Qed.

Lemma assigned_step w o w' :
  wf w -> assigned_by_key w -> fresh_call w o = true -> effect w o w' ->
  assigned_by_key w'.
Proof.
  intros Hwf Hinv Hfresh Heff.
  destruct Heff as [u n c|g n|a0 n g c gl Hg|u a0 ul sl Hu Ha0
                    |k0 b l0 nl s0 ol Hk0 Hb Hl0 Ho
                    |k0 from content ty l0 msg Hk0|k0 from content ty
                    |u ul c Hu|a0 sl st Ha0 Hst|o];
    try exact Hinv.
  - (* ConnectStaff under an id that is not connected *)
    simpl in Hfresh. apply bool_decide_eq_true in Hfresh.
    intros k s Hs Hopen a. rewrite handles_connect_staff_world by done.
    specialize (Hinv k s Hs Hopen). destruct (decide (a = a0)) as [->|Hne].
    + split; [done|]. intros E. exfalso.
      assert (Hh : handles w (Session.StaffID s) k = true) by (by apply Hinv).
      apply handles_in_table in Hh as [? Hh]. congruence.
    + apply Hinv.
  - (* CreateSession with an id that is not in the table *)
    simpl in Hfresh. apply bool_decide_eq_true in Hfresh.
    intros k s. rewrite session_of_new_session_world by done.
    intros Hs Hopen a. rewrite (handles_new_session_world w u a0 ul sl) by done.
    destruct (decide (k = _)) as [->|Hne].
    + injection Hs as <-. simpl. destruct (decide (a = a0)) as [->|Ha]; [done|].
      split; [|done]. intros Hh%handles_in_sessions; [|done].
      destruct Hh as [? Hh]. congruence.
    + by apply Hinv.
  - (* TransferSession *)
    intros k s. rewrite session_of_transfer_world by done.
    intros Hs Hopen a.
    rewrite (handles_transfer_world w k0 b l0 ol nl (Session.StaffID s0)) by done.
    assert (Hs0 : session_of w k0 = Some s0) by (apply session_of_Some; eauto).
    destruct (decide (k = k0)) as [->|Hne]; [|by apply Hinv].
    rewrite Hs0 in Hs. injection Hs as <-. simpl in *.
    destruct (decide (a = b)) as [->|Hab]; [done|].
    destruct (decide (a = Session.StaffID s0)) as [->|Ha]; [done|].
    rewrite (Hinv k0 s0 Hs0 Hopen a). done.
  - (* SendMessage *)
    intros k s. rewrite (session_of_send_world w k0) by done.
    intros Hs Hopen a.
    rewrite (handles_ext (send_world l0 msg w) w) by done.
    destruct (decide (k = k0)) as [->|Hne]; [|by apply Hinv].
    destruct (session_of w k0) as [s0|] eqn:Hs0; [|done].
    injection Hs as <-. apply (Hinv k0 s0 Hs0 Hopen a).
  - (* DisconnectStaff *)
    intros k s Hs Hopen a.
    destruct (session_of_disconnect_staff_world w a0 sl st k s Hwf Hst Hs Hopen)
      as [Hs0 Hout].
    rewrite handles_disconnect_staff_world by done.
    specialize (Hinv k s Hs0 Hopen).
    destruct (decide (a = a0)) as [->|Hne]; [|apply Hinv].
    split; [done|]. intros E. exfalso.
    assert (Hh : handles w a0 k = true) by (by apply Hinv).
    apply handles_true in Hh as (st' & Hst' & [? Hin]).
    apply staff_of_Some in Hst' as (l & ? & ?). congruence.
Qed.

Lemma after_fresh_invariant ops : forall w w',
  wf w -> assigned_by_key w -> after_fresh ops w = Some w' ->
  wf w' /\ assigned_by_key w'.
Proof.
  induction ops as [|o ops IH]; intros w w' Hwf Hinv H; simpl in H.
  { injection H as <-. done. }
  destruct (fresh_call w o) eqn:Hfresh; [|done].
  destruct (wf_exec o w Hwf) as (w1 & Hexec & Hwf1). rewrite Hexec in H.
  apply (IH w1 w' Hwf1); [|done].
  apply (assigned_step w o w1 Hwf Hinv Hfresh). by apply exec_effect.
Qed.

Lemma after_fresh_after ops : forall w w',
  after_fresh ops w = Some w' -> after ops w = Some w'.
Proof.
  induction ops as [|o ops IH]; intros w w' H; simpl in H; [done|].
  rewrite after_cons. destruct (fresh_call w o); [|done].
  destruct (exec o w) as [[[] w1]|]; [by apply IH|done].
Qed.

(** C1 as stated fails, in two ways.  First: s1 holds an Active session
    and connects again under the same id; the new staff object replaces the
    old one in the staff table with an empty session set, so the session,
    still Active with [StaffID] s1, is in the session set of no connected
    staff member.  Second: the session of u1 with s1 is transferred to s2
    and, within the same second, u1 is paired with s1 again; the new
    session gets the id of the first, which s2 still has in its set, so the
    Active session filed under that id is in the sets of both. *)
Lemma C1_counterexample :
  (reachable (scene (setup ++ [OpConnectStaff "s1" "bob" "g1" (Some 4%nat)])) /\
   session_of (scene (setup ++ [OpConnectStaff "s1" "bob" "g1" (Some 4%nat)])) sid0 =
     Some (Session.mk sid0 "u1" "s1" SessionStatusActive
             1700000000000002000 1700000000000003000 []) /\
   holders (scene (setup ++ [OpConnectStaff "s1" "bob" "g1" (Some 4%nat)])) sid0 = [] /\
   ~ session_assigned
       (scene (setup ++ [OpConnectStaff "s1" "bob" "g1" (Some 4%nat)]))) /\
  (reachable (scene (setup ++ [ OpTransferSession sid0 "s2";
                                OpCreateSession "u1" "s1" ])) /\
   session_of (scene (setup ++ [ OpTransferSession sid0 "s2";
                                 OpCreateSession "u1" "s1" ])) sid0 =
     Some (Session.mk sid0 "u1" "s1" SessionStatusActive
             1700000000000006000 1700000000000007000 []) /\
   holders (scene (setup ++ [ OpTransferSession sid0 "s2";
                              OpCreateSession "u1" "s1" ])) sid0 = ["s1"; "s2"] /\
   ~ session_assigned
       (scene (setup ++ [ OpTransferSession sid0 "s2";
                          OpCreateSession "u1" "s1" ]))).
Proof.
  split.
  - split.
    { apply (scene_reachable (setup ++ [OpConnectStaff "s1" "bob" "g1" (Some 4%nat)])).
      vm_compute. reflexivity. }
    split; [vm_compute; reflexivity|]. split; [vm_compute; reflexivity|].
    intros H.
    specialize (H sid0
      (Session.mk sid0 "u1" "s1" SessionStatusActive
         1700000000000002000 1700000000000003000 [])).
    destruct (H ltac:(vm_compute; reflexivity) ltac:(by left) "s1"%string) as [_ Hh].
    specialize (Hh eq_refl). revert Hh. vm_compute. discriminate.
  - split.
    { apply (scene_reachable (setup ++ [ OpTransferSession sid0 "s2";
                                         OpCreateSession "u1" "s1" ])).
      vm_compute. reflexivity. }
    split; [vm_compute; reflexivity|]. split; [vm_compute; reflexivity|].
    intros H.
    specialize (H sid0
      (Session.mk sid0 "u1" "s1" SessionStatusActive
         1700000000000006000 1700000000000007000 [])).
    destruct (H ltac:(vm_compute; reflexivity) ltac:(by left) "s2"%string) as [Hh _].
    specialize (Hh ltac:(vm_compute; reflexivity)). discriminate Hh.
Qed.

(** C1, amended.  After every sequence of registry calls, started from
    [NewCustomerService()], in which [ConnectStaff] is only called for ids
    that are not in the staff table and [CreateSession] only makes ids that
    are not in the session table, every session in the table that is Active
    or Waiting is in the session set of exactly one connected staff member,
    the one its [StaffID] names. *)
Theorem C1_sessions_assigned (clk : nat -> Z) (ops : list Op) (w : World) :
  after_fresh ops (NewCustomerService clk) = Some w ->
  session_assigned w.
Proof.
  intros H.
  destruct (after_fresh_invariant ops (NewCustomerService clk) w (wf_init clk))
    as [Hwf Hinv]; [|done|by apply assigned_key].
  intros k s. unfold session_of. simpl. rewrite lookup_empty. done.
Qed.

(** A sequence of fresh calls with a transfer, a message, a disconnect and a
    new connection of s1. *)
Lemma C1_witness :
  session_assigned
    (scene (setup ++ [ OpTransferSession sid0 "s2";
                       OpSendMessage sid0 "s2" "hello" MessageTypeText;
                       OpDisconnectStaff "s1";
                       OpConnectStaff "s1" "bob" "g1" (Some 4%nat) ])).
Proof.
  apply (C1_sessions_assigned clock0
           (setup ++ [ OpTransferSession sid0 "s2";
                       OpSendMessage sid0 "s2" "hello" MessageTypeText;
                       OpDisconnectStaff "s1";
                       OpConnectStaff "s1" "bob" "g1" (Some 4%nat) ])).
  vm_compute. reflexivity.
Defined.

(** * Further properties of service.go *)

(** Induction over the calls that lead to a state. *)
Lemma reachable_induction (P : World -> Prop) :
  (forall clk, P (NewCustomerService clk)) ->
  (forall w o w', reachable w -> P w -> effect w o w' -> P w') ->
  forall w, reachable w -> P w.
Proof.
  intros Hinit Hstep w (clk & ops & Hrun).
  assert (Hgen : forall ops0 w0 w1,
    reachable w0 -> P w0 -> after ops0 w0 = Some w1 -> P w1).
  { intros ops0. induction ops0 as [|o ops0 IH]; intros w0 w1 Hr HP Hrun0.
    - rewrite after_nil in Hrun0. by injection Hrun0 as <-.
    - rewrite after_cons in Hrun0.
      destruct (wf_exec o w0 (reachable_wf w0 Hr)) as (w' & Hexec & _).
      rewrite Hexec in Hrun0.
      apply (IH w' w1); [| |done].
      + apply (reachable_after [o] w0); [done|].
        rewrite after_cons, Hexec. apply after_nil.
      + apply (Hstep w0 o w'); [done|done|].
        apply exec_effect; [by apply reachable_wf|done]. }
  apply (Hgen ops (NewCustomerService clk) w); [|apply Hinit|done].
  exists clk, []. apply after_nil.
Qed.

(** X1. [ConnectUser] always succeeds.  It allocates a new user object,
    Online, with the given name and connection and no session id, and files
    it under the id, replacing whatever was filed there; the object that was
    filed before, like every other object, stays as it is and its
    connection is not closed; the entries of all other ids and the staff,
    group and session tables are unchanged. *)
Theorem X1_connect_user_effect (w : World) (u n : string) (c : option nat) :
  reachable w ->
  exists p w',
    ConnectUser u n c w = Some (p, w') /\
    h_users w !! p = None /\
    users w' !! u = Some p /\
    h_users w' !! p =
      Some (User.mk u n UserStatusOnline c (clock w (ticks w)) "") /\
    (forall u', u' <> u -> user_of w' u' = user_of w u') /\
    (forall l usr, h_users w !! l = Some usr -> h_users w' !! l = Some usr) /\
    closed w' = closed w /\
    staffs w' = staffs w /\ groups w' = groups w /\ sessions w' = sessions w /\
    h_staffs w' = h_staffs w /\ h_groups w' = h_groups w /\
    h_sessions w' = h_sessions w.
Proof.
  intros Hwf%reachable_wf. rewrite ConnectUser_eq. do 2 eexists.
  split; [reflexivity|]. simpl.
  split; [by apply lookup_ge_None_2|].
  split; [apply lookup_insert_eq|].
  split; [rewrite lookup_app_r, Nat.sub_diag by lia; done|].
  split.
  { intros u' Hne. unfold user_of. simpl. rewrite lookup_insert_ne by done.
    destruct (users w !! u') as [l|] eqn:Hl; [|done].
    apply lookup_app_l. eauto using wf_users. }
  split; [intros l usr H; by apply lookup_app_l_Some|].
  repeat split.
Qed.

(** alice connects a second time under the id u1: the session pointer of
    the first user object is not carried over. *)
Lemma X1_witness :
  exists p w',
    ConnectUser "u1" "alice" (Some 9%nat) (scene setup) = Some (p, w') /\
    User.SessionID <$> user_of (scene setup) "u1" = Some sid0 /\
    User.SessionID <$> user_of w' "u1" = Some ""%string /\
    closed w' = [].
Proof.
  destruct (X1_connect_user_effect (scene setup) "u1" "alice" (Some 9%nat))
    as (p & w' & Hrun & _ & Hp & Hobj & _ & _ & Hcl & _).
  - apply (scene_reachable setup). vm_compute. reflexivity.
  - exists p, w'. split; [exact Hrun|]. split; [vm_compute; reflexivity|].
    split; [unfold user_of; rewrite Hp, Hobj; reflexivity|].
    rewrite Hcl. vm_compute. reflexivity.
Defined.

(** X2. [ConnectStaff] fails with [ErrGroupNotFound], and changes nothing,
    exactly when the group id is not in the group table.  Otherwise it
    files a new staff object under the staff id, Online, with an empty
    session set, and enters it under the staff id in the member set of the
    group; other staff ids, users, sessions and closed connections are
    unchanged. *)
Theorem X2_connect_staff_cases (w : World) (s n g : string) (c : option nat) :
  reachable w ->
  exists r w',
    ConnectStaff s n g c w = Some (r, w') /\
    match group_of w g with
    | None => r = Err ErrGroupNotFound /\ w' = w
    | Some gr =>
        exists p,
          r = Ok p /\
          h_staffs w !! p = None /\
          staffs w' !! s = Some p /\
          h_staffs w' !! p = Some (CSStaff.mk s n g UserStatusOnline c ∅) /\
          group_of w' g =
            Some (CSGroup.with_Members (<[s := p]> (CSGroup.Members gr)) gr) /\
          (forall s', s' <> s -> staff_of w' s' = staff_of w s') /\
          users w' = users w /\ h_users w' = h_users w /\
          sessions w' = sessions w /\ h_sessions w' = h_sessions w /\
          closed w' = closed w
    end.
Proof.
  intros Hwf%reachable_wf. unfold group_of.
  destruct (groups w !! g) as [gl|] eqn:Hg.
  - destruct (lookup_valid _ _ (wf_groups w Hwf _ _ Hg)) as [gr Hgr].
    rewrite Hgr. erewrite ConnectStaff_eq by eauto using wf_groups.
    do 2 eexists. split; [reflexivity|]. eexists. split; [reflexivity|].
    simpl. split; [by apply lookup_ge_None_2|].
    split; [apply lookup_insert_eq|].
    split; [rewrite lookup_app_r, Nat.sub_diag by lia; done|].
    split; [rewrite Hg, list_lookup_alter_eq, Hgr; done|].
    split; [|repeat split].
    intros s' Hne. unfold staff_of. simpl. rewrite lookup_insert_ne by done.
    destruct (staffs w !! s') as [l|] eqn:Hl; [|done].
    apply lookup_app_l. eauto using wf_staffs.
  - rewrite ConnectStaff_err by done. eauto.
Qed.

Lemma X2_witness :
  exists r w',
    ConnectStaff "s3" "dave" "g1" (Some 5%nat) (scene setup) = Some (r, w') /\
    r = Ok 2%nat /\
    CSGroup.Members <$> group_of w' "g1"
      = Some (<[ "s3" := 2%nat ]> (<[ "s2" := 1%nat ]> {[ "s1" := 0%nat ]})).
Proof.
  destruct (X2_connect_staff_cases (scene setup) "s3" "dave" "g1" (Some 5%nat))
    as (r & w' & Hrun & Hcase).
  - apply (scene_reachable setup). vm_compute. reflexivity.
  - exists r, w'. split; [exact Hrun|].
    revert Hrun. vm_compute. intros [= <- <-]. split; reflexivity.
Defined.

(** X3. [CreateSession] looks up the user first and the staff second: it
    fails with [ErrUserNotFound] when the user id is not in the user table
    (whether or not the staff id is), with [ErrStaffNotFound] when the user
    is there and the staff id is not, and in both cases changes nothing, not
    even the clock.  With both connected it returns a new session object,
    Active, without messages, filed under its id, after three clock
    readings. *)
Theorem X3_create_session_cases (w : World) (u s : string) :
  reachable w ->
  exists r w',
    CreateSession u s w = Some (r, w') /\
    (users w !! u = None -> r = Err ErrUserNotFound /\ w' = w) /\
    (is_Some (users w !! u) -> staffs w !! s = None ->
     r = Err ErrStaffNotFound /\ w' = w) /\
    (is_Some (users w !! u) -> is_Some (staffs w !! s) ->
     exists p,
       r = Ok p /\
       h_sessions w !! p = None /\
       sessions w' !! session_id u s (clock w (ticks w)) = Some p /\
       h_sessions w' !! p =
         Some (Session.mk (session_id u s (clock w (ticks w))) u s
                 SessionStatusActive (clock w (S (ticks w)))
                 (clock w (S (S (ticks w)))) []) /\
       ticks w' = S (S (S (ticks w)))).
Proof.
  intros Hwf%reachable_wf.
  destruct (users w !! u) as [ul|] eqn:Hu.
  - destruct (staffs w !! s) as [sl|] eqn:Hs.
    + erewrite CreateSession_eq by eauto using wf_users, wf_staffs.
      do 2 eexists. split; [reflexivity|].
      split; [done|]. split; [done|]. intros _ _.
      eexists. split; [reflexivity|]. simpl.
      split; [by apply lookup_ge_None_2|].
      split; [apply lookup_insert_eq|].
      split; [rewrite lookup_app_r, Nat.sub_diag by lia; done|done].
    + erewrite CreateSession_err_staff by eauto.
      do 2 eexists. split; [reflexivity|].
      split; [done|]. split; [done|]. intros _ [? ?]; done.
  - rewrite CreateSession_err_user by done.
    do 2 eexists. split; [reflexivity|].
    split; [done|]. split; intros [? ?]; done.
Qed.

(** Neither party connected: the missing user is reported. *)
Lemma X3_witness :
  exists r w',
    CreateSession "ghost" "nobody" (scene setup) = Some (r, w') /\
    r = Err ErrUserNotFound /\ w' = scene setup.
Proof.
  destruct (X3_create_session_cases (scene setup) "ghost" "nobody")
    as (r & w' & Hrun & Hnouser & _).
  - apply (scene_reachable setup). vm_compute. reflexivity.
  - exists r, w'. split; [exact Hrun|]. apply Hnouser. vm_compute. reflexivity.
Defined.

(** X4. [TransferSession] returns nil exactly when the session id is in
    the session table, the destination staff id is in the staff table and
    the staff id the session currently names is in the staff table.  The
    session is looked up first: an unknown session id gives
    [ErrSessionNotFound] even when the destination is unknown too; a known
    session with an unknown destination gives [ErrStaffNotFound]. *)
Theorem X4_transfer_session_cases (w : World) (k b : string) :
  reachable w ->
  exists r w',
    TransferSession k b w = Some (r, w') /\
    (r = None <->
     exists s, session_of w k = Some s /\ is_Some (staffs w !! b) /\
               is_Some (staffs w !! Session.StaffID s)) /\
    (sessions w !! k = None -> r = Some ErrSessionNotFound) /\
    (is_Some (sessions w !! k) -> staffs w !! b = None ->
     r = Some ErrStaffNotFound).
Proof.
  intros Hwf%reachable_wf.
  destruct (sessions w !! k) as [l|] eqn:Hk.
  - destruct (lookup_valid _ _ (wf_sessions w Hwf _ _ Hk)) as [s Hl].
    assert (Hs : session_of w k = Some s) by (apply session_of_Some; eauto).
    destruct (staffs w !! b) as [nl|] eqn:Hb.
    + destruct (staffs w !! Session.StaffID s) as [ol|] eqn:Ho.
      * erewrite TransferSession_eq by eauto using wf_staffs.
        do 2 eexists. split; [reflexivity|]. split; [|split; [done|]].
        -- split; [|done]. intros _. exists s. eauto.
        -- intros _ [=].
      * erewrite TransferSession_err_old by eauto.
        do 2 eexists. split; [reflexivity|]. split; [|split; [done|done]].
        split; [done|]. intros (s' & Hs' & _ & [? Ho']).
        assert (s' = s) as -> by congruence. congruence.
    + erewrite TransferSession_err_new by eauto.
      do 2 eexists. split; [reflexivity|]. split; [|split; [done|done]].
      split; [done|]. intros (s' & _ & [? ?] & _). done.
  - rewrite TransferSession_err_session by done.
    do 2 eexists. split; [reflexivity|]. split; [|split; [done|]].
    + split; [done|]. intros (s' & Hs' & _). unfold session_of in Hs'.
      rewrite Hk in Hs'. done.
    + intros [? ?]; done.
Qed.

(** Unknown session and unknown destination: the session is reported. *)
Lemma X4_witness :
  exists r w',
    TransferSession "no_such_session" "nobody" (scene setup) = Some (r, w') /\
    r = Some ErrSessionNotFound.
Proof.
  destruct (X4_transfer_session_cases (scene setup) "no_such_session" "nobody")
    as (r & w' & Hrun & _ & Hnone & _).
  - apply (scene_reachable setup). vm_compute. reflexivity.
  - exists r, w'. split; [exact Hrun|]. apply Hnone. vm_compute. reflexivity.
Defined.

(** ** What a sequence of calls keeps *)

Lemma effect_clock w o w' :
  effect w o w' -> clock w' = clock w /\ (ticks w <= ticks w')%nat.
Proof.
  intros Heff.
  destruct Heff as [| | | | | | | |a sl st Ha Hst|]; simpl; try (split; [done|lia]).
  set (w2 := set_closed _ (set_h_staffs _ w)).
  pose proof (leave_group_frame a (CSStaff.GroupID st) w2)
    as (_&_&_&_&_&_&_&_&Ec&Et).
  pose proof (close_sessions_world_frame (map_to_list (CSStaff.Sessions st)).*1
                (leave_group a (CSStaff.GroupID st) w2))
    as (_&_&_&_&_&_&_&_&Ec'&_&Et').
  simpl in Ec', Et'. rewrite Ec', Ec. split; [done|]. rewrite Et in Et'. exact Et'.
Qed.

Lemma effect_tables w o w' :
  effect w o w' ->
  (forall k, is_Some (sessions w !! k) -> is_Some (sessions w' !! k)) /\
  (forall g, is_Some (groups w !! g) -> is_Some (groups w' !! g)).
Proof.
  intros Heff.
  destruct Heff as [|g0 n| |u a ul sl Hu Hs| | | | |a sl st Ha Hst|]; simpl;
    try (split; done).
  - split; [done|]. intros g [x Hx].
    destruct (decide (g0 = g)) as [->|Hne].
    + rewrite lookup_insert_eq. eauto.
    + rewrite lookup_insert_ne by done. eauto.
  - split; [|done]. intros k [x Hx].
    destruct (decide (session_id u a (clock w (ticks w)) = k)) as [->|Hne].
    + rewrite lookup_insert_eq. eauto.
    + rewrite lookup_insert_ne by done. eauto.
  - set (w2 := set_closed _ (set_h_staffs _ w)).
    pose proof (leave_group_frame a (CSStaff.GroupID st) w2)
      as (_&_&Eg&Es&_).
    pose proof (close_sessions_world_frame (map_to_list (CSStaff.Sessions st)).*1
                  (leave_group a (CSStaff.GroupID st) w2))
      as (_&_&Eg'&Es'&_).
    simpl in Eg', Es'. rewrite Eg', Es', Eg, Es. split; done.
Qed.

Lemma effect_session_history w o w' l s :
  wf w -> effect w o w' -> h_sessions w !! l = Some s ->
  exists s',
    h_sessions w' !! l = Some s' /\
    Session.CreateAt s' = Session.CreateAt s /\
    Session.Messages s `prefix_of` Session.Messages s' /\
    (Session.UpdateAt s' = Session.UpdateAt s \/
     exists i, (ticks w <= i < ticks w')%nat /\ Session.UpdateAt s' = clock w i).
Proof.
  intros Hwf Heff Hl.
  destruct Heff as [| | |u a ul sl Hu Hs|k b l0 nl s0 ol Hk Hb Hl0 Ho
                    |k from content ty l0 msg Hk| | |a sl st Ha Hst|];
    simpl; try (exists s; by eauto 10).
  - exists s. split; [by apply lookup_app_l_Some|]. eauto 10.
  - destruct (decide (l0 = l)) as [->|Hne].
    + rewrite !list_lookup_alter_eq, Hl. simpl. eexists. split; [done|].
      simpl. repeat split; [done|]. right. exists (ticks w). split; [lia|done].
    + rewrite !list_lookup_alter_ne by done. exists s. eauto 10.
  - destruct (decide (l0 = l)) as [->|Hne].
    + rewrite !list_lookup_alter_eq, Hl. simpl. eexists. split; [done|].
      simpl. split; [done|]. split; [by apply prefix_app_r|].
      right. exists (S (S (ticks w))). split; [lia|done].
    + rewrite !list_lookup_alter_ne by done. exists s. eauto 10.
  - set (w2 := set_closed _ (set_h_staffs _ w)).
    pose proof (leave_group_frame a (CSStaff.GroupID st) w2)
      as (_&_&_&_&_&_&Ehse&_&Ec&Et).
    assert (Hl3 : h_sessions (leave_group a (CSStaff.GroupID st) w2) !! l = Some s)
      by (rewrite Ehse; done).
    destruct (close_sessions_world_at (map_to_list (CSStaff.Sessions st)).*1
                _ l s Hl3) as [[_ H]|[_ (i & Hi & H)]].
    + exists s. eauto 10.
    + eexists. split; [exact H|]. simpl. repeat split; [done|].
      right. exists i. rewrite Et in Hi. rewrite Ec. simpl. split; [exact Hi|done].
Qed.

(** A session object in the store: it was stamped by the clock at creation
    and its last update is a later reading. *)
Lemma stamps_ordered w :
  reachable w ->
  forall l s, h_sessions w !! l = Some s ->
    exists i j, (i <= j < ticks w)%nat /\
      Session.CreateAt s = clock w i /\ Session.UpdateAt s = clock w j.
Proof.
  intros Hr. induction Hr as [clk|w o w' Hr IH Heff] using reachable_induction.
  { intros l s Hl. simpl in Hl. by rewrite lookup_nil in Hl. }
  intros l s' Hl'.
  pose proof (reachable_wf w Hr) as Hwf.
  destruct (effect_clock w o w' Heff) as [Ec Et].
  destruct (h_sessions w !! l) as [s|] eqn:Hl.
  - destruct (effect_session_history w o w' l s Hwf Heff Hl)
      as (s1 & Hl1 & Hc & _ & Hu).
    assert (s1 = s') as -> by congruence.
    destruct (IH l s Hl) as (i & j & Hij & Hci & Huj).
    rewrite Ec. destruct Hu as [Hu|(j' & Hj' & Hu)].
    + exists i, j. split; [lia|]. split; congruence.
    + exists i, j'. split; [lia|]. split; congruence.
  - destruct Heff as [| | |u a ul sl Hu Hs|k b l0 nl s0 ol Hk Hb Hl0 Ho
                      |k from content ty l0 msg Hk| | |a sl st Ha Hst|];
      simpl in *; try congruence.
    + apply snoc_lookup_Some in Hl' as [Hl'|[_ ->]]; [congruence|]. simpl.
      exists (S (ticks w)), (S (S (ticks w))). split; [lia|done].
    + apply alter_lookup_Some in Hl' as (x & Hx & _).
      apply alter_lookup_Some in Hx as (y & Hy & _). congruence.
    + apply alter_lookup_Some in Hl' as (x & Hx & _).
      apply alter_lookup_Some in Hx as (y & Hy & _). congruence.
    + exfalso.
      set (w2 := set_closed _ (set_h_staffs _ w)) in *.
      pose proof (leave_group_frame a (CSStaff.GroupID st) w2)
        as (_&_&_&_&_&_&Ehse&_).
      pose proof (close_sessions_world_frame (map_to_list (CSStaff.Sessions st)).*1
                    (leave_group a (CSStaff.GroupID st) w2))
        as (_&_&_&_&_&_&_&_&_&Elen&_).
      simpl in Elen. rewrite Ehse in Elen. simpl in Elen.
      apply lookup_lt_Some in Hl'. apply lookup_ge_None in Hl. lia.
Qed.

Lemma after_induction (R : World -> World -> Prop) :
  (forall w, R w w) ->
  (forall w o w1 w2, wf w -> effect w o w1 -> R w1 w2 -> R w w2) ->
  forall ops w w', wf w -> after ops w = Some w' -> R w w'.
Proof.
  intros Hrefl Hstep ops.
  induction ops as [|o ops IH]; intros w w' Hwf Hrun.
  { rewrite after_nil in Hrun. injection Hrun as <-. apply Hrefl. }
  rewrite after_cons in Hrun.
  destruct (wf_exec o w Hwf) as (w1 & Hexec & Hwf1). rewrite Hexec in Hrun.
  eapply Hstep; [done|by apply exec_effect|]. by apply IH.
Qed.

(** X5. The message list of a session object is append-only: whatever
    calls follow, the messages it had are still there, in the same order
    and at the same positions, and its [CreateAt], [ID] and [UserID] are
    what they were.  This holds for a Closed session too, and for one whose
    table entry has been replaced. *)
Theorem X5_session_history_kept
    (ops : list Op) (w w' : World) (l : nat) (s : Session.t) :
  reachable w ->
  after ops w = Some w' ->
  h_sessions w !! l = Some s ->
  exists s',
    h_sessions w' !! l = Some s' /\
    Session.Messages s `prefix_of` Session.Messages s' /\
    Session.CreateAt s' = Session.CreateAt s /\
    Session.ID s' = Session.ID s /\
    Session.UserID s' = Session.UserID s.
Proof.
  intros Hwf%reachable_wf Hrun. revert l s.
  revert ops w w' Hwf Hrun. apply (after_induction (fun w w' => forall l s,
    h_sessions w !! l = Some s ->
    exists s', h_sessions w' !! l = Some s' /\
      Session.Messages s `prefix_of` Session.Messages s' /\
      Session.CreateAt s' = Session.CreateAt s /\
      Session.ID s' = Session.ID s /\
      Session.UserID s' = Session.UserID s)).
  - intros w l s Hl. exists s. eauto.
  - intros w o w1 w2 Hwf Heff IH l s Hl.
    destruct (effect_session_history w o w1 l s Hwf Heff Hl)
      as (s1 & Hl1 & Hc & Hm & _).
    destruct (effect_session_object w o w1 l s Hwf Heff Hl)
      as (s1' & Hl1' & Hid & Hu & _).
    assert (s1' = s1) as -> by congruence.
    destruct (IH l s1 Hl1) as (s2 & Hl2 & Hm2 & Hc2 & Hid2 & Hu2).
    exists s2. split; [done|]. split; [by etrans|].
    split; [congruence|]. split; congruence.
Qed.

(** The greeting of u1 is still the first message of the session after s1
    has answered, the session has been transferred and s2 has left. *)
Lemma X5_witness :
  exists s',
    h_sessions (scene (setup ++
                  [ OpSendMessage sid0 "u1" "hi" MessageTypeText;
                    OpSendMessage sid0 "s1" "hello" MessageTypeText;
                    OpTransferSession sid0 "s2";
                    OpDisconnectStaff "s2" ])) !! 0%nat = Some s' /\
    [ Message.mk "u1_s1_20231114221320_20231114221320" sid0 "u1" "s1" "hi"
        MessageTypeText 1700000000000005000 ]
      `prefix_of` Session.Messages s' /\
    Session.CreateAt s' = 1700000000000002000%Z.
Proof.
  destruct (X5_session_history_kept
              [ OpSendMessage sid0 "s1" "hello" MessageTypeText;
                OpTransferSession sid0 "s2";
                OpDisconnectStaff "s2" ]
              (scene (setup ++ [OpSendMessage sid0 "u1" "hi" MessageTypeText]))
              (scene (setup ++
                  [ OpSendMessage sid0 "u1" "hi" MessageTypeText;
                    OpSendMessage sid0 "s1" "hello" MessageTypeText;
                    OpTransferSession sid0 "s2";
                    OpDisconnectStaff "s2" ]))
              0%nat
              (Session.mk sid0 "u1" "s1" SessionStatusActive
                 1700000000000002000 1700000000000006000
                 [ Message.mk "u1_s1_20231114221320_20231114221320" sid0 "u1" "s1"
                     "hi" MessageTypeText 1700000000000005000 ]))
    as (s' & Hl & Hm & Hc & _).
  - apply (scene_reachable (setup ++ [OpSendMessage sid0 "u1" "hi" MessageTypeText])).
    vm_compute. reflexivity.
  - vm_compute. reflexivity.
  - vm_compute. reflexivity.
  - exists s'. split; [exact Hl|]. split; [exact Hm|exact Hc].
Defined.

Lemma after_stamps ops : forall w w',
  wf w -> after ops w = Some w' ->
  clock w' = clock w /\ (ticks w <= ticks w')%nat /\
  forall l s, h_sessions w !! l = Some s ->
    exists s', h_sessions w' !! l = Some s' /\
      (Session.UpdateAt s' = Session.UpdateAt s \/
       exists i, (ticks w <= i < ticks w')%nat /\ Session.UpdateAt s' = clock w i).
Proof.
  apply (after_induction (fun w w' =>
    clock w' = clock w /\ (ticks w <= ticks w')%nat /\
    forall l s, h_sessions w !! l = Some s ->
      exists s', h_sessions w' !! l = Some s' /\
        (Session.UpdateAt s' = Session.UpdateAt s \/
         exists i, (ticks w <= i < ticks w')%nat /\ Session.UpdateAt s' = clock w i))).
  - intros w. split; [done|]. split; [done|]. intros l s Hl. exists s. eauto.
  - intros w o w1 w2 Hwf Heff (Ec & Et & IH).
    destruct (effect_clock w o w1 Heff) as [Ec1 Et1].
    split; [congruence|]. split; [lia|]. intros l s Hl.
    destruct (effect_session_history w o w1 l s Hwf Heff Hl)
      as (s1 & Hl1 & _ & _ & Hu1).
    destruct (IH l s1 Hl1) as (s2 & Hl2 & Hu2).
    exists s2. split; [done|].
    destruct Hu2 as [Hu2|(i & Hi & Hu2)].
    + destruct Hu1 as [Hu1|(i & Hi & Hu1)]; [left; congruence|].
      right. exists i. split; [lia|congruence].
    + right. exists i. split; [lia|]. rewrite Hu2. by rewrite Ec1.
Qed.

(** X6. Under a clock that never goes back, the [UpdateAt] of a session
    object never goes back either, over any sequence of calls, and it is
    never before the session's [CreateAt]. *)
Theorem X6_update_at_never_goes_back
    (ops : list Op) (w w' : World) (l : nat) (s : Session.t) :
  reachable w ->
  (forall i j, (i <= j)%nat -> (clock w i <= clock w j)%Z) ->
  after ops w = Some w' ->
  h_sessions w !! l = Some s ->
  exists s',
    h_sessions w' !! l = Some s' /\
    (Session.UpdateAt s <= Session.UpdateAt s')%Z /\
    (Session.CreateAt s' <= Session.UpdateAt s')%Z.
Proof.
  intros Hr Hmono Hrun Hl.
  pose proof (reachable_wf w Hr) as Hwf.
  destruct (after_stamps ops w w' Hwf Hrun) as (Ec & Et & Hstep).
  destruct (Hstep l s Hl) as (s' & Hl' & Hu).
  exists s'. split; [done|]. split.
  - destruct Hu as [->|(i & Hi & ->)]; [lia|].
    destruct (wf_stamped w Hwf l s Hl) as (j & Hj & ->).
    apply Hmono. lia.
  - destruct (stamps_ordered w' (reachable_after ops w w' Hr Hrun) l s' Hl')
      as (i & j & Hij & -> & ->).
    rewrite Ec. apply Hmono. lia.
Qed.

(** The session of u1 through a message, a transfer and the new staff
    member's disconnect. *)
Lemma X6_witness :
  exists s',
    h_sessions (scene (setup ++
                  [ OpSendMessage sid0 "u1" "hi" MessageTypeText;
                    OpTransferSession sid0 "s2";
                    OpDisconnectStaff "s2" ])) !! 0%nat = Some s' /\
    (1700000000000003000 <= Session.UpdateAt s')%Z /\
    (Session.CreateAt s' <= Session.UpdateAt s')%Z.
Proof.
  apply (X6_update_at_never_goes_back
           [ OpSendMessage sid0 "u1" "hi" MessageTypeText;
             OpTransferSession sid0 "s2";
             OpDisconnectStaff "s2" ]
           (scene setup)
           (scene (setup ++
                  [ OpSendMessage sid0 "u1" "hi" MessageTypeText;
                    OpTransferSession sid0 "s2";
                    OpDisconnectStaff "s2" ]))
           0%nat
           (Session.mk sid0 "u1" "s1" SessionStatusActive
              1700000000000002000 1700000000000003000 [])).
  - apply (scene_reachable setup). vm_compute. reflexivity.
  - intros i j Hij.
    assert (clock (scene setup) = clock0) as -> by (vm_compute; reflexivity).
    unfold clock0. lia.
  - vm_compute. reflexivity.
  - vm_compute. reflexivity.
Defined.

(** X7. Nothing is ever removed from the session table or from the group
    table: an id that is in one of them is still there after any sequence
    of calls, whatever disconnects and closes happen.  In particular a
    Closed session stays in the table. *)
Theorem X7_sessions_and_groups_never_removed
    (ops : list Op) (w w' : World) :
  reachable w ->
  after ops w = Some w' ->
  (forall k, is_Some (sessions w !! k) -> is_Some (sessions w' !! k)) /\
  (forall g, is_Some (groups w !! g) -> is_Some (groups w' !! g)) /\
  (length (h_sessions w) <= length (h_sessions w'))%nat.
Proof.
  intros Hwf%reachable_wf. revert ops w w' Hwf.
  apply (after_induction (fun w w' =>
    (forall k, is_Some (sessions w !! k) -> is_Some (sessions w' !! k)) /\
    (forall g, is_Some (groups w !! g) -> is_Some (groups w' !! g)) /\
    (length (h_sessions w) <= length (h_sessions w'))%nat)).
  - intros w. split; [done|]. split; [done|lia].
  - intros w o w1 w2 Hwf Heff (IHs & IHg & IHl).
    destruct (effect_tables w o w1 Heff) as [Hs Hg].
    split; [intros k Hk; apply IHs, Hs, Hk|].
    split; [intros g Hg0; apply IHg, Hg, Hg0|].
    assert (length (h_sessions w) <= length (h_sessions w1))%nat; [|lia].
    destruct (decide (length (h_sessions w) = 0)%nat) as [->|Hne]; [lia|].
    destruct (lookup_valid (h_sessions w) (pred (length (h_sessions w))))
      as [s Hl]; [lia|].
    destruct (effect_session_history w o w1 _ s Hwf Heff Hl) as (s1 & Hl1 & _).
    apply lookup_lt_Some in Hl1. lia.
Qed.

(** Everyone has left: the session and the group are still in the tables. *)
Lemma X7_witness :
  is_Some (sessions (scene (setup ++ [ OpDisconnectStaff "s1";
                                       OpDisconnectStaff "s2";
                                       OpDisconnectUser "u1" ])) !! sid0) /\
  is_Some (groups (scene (setup ++ [ OpDisconnectStaff "s1";
                                     OpDisconnectStaff "s2";
                                     OpDisconnectUser "u1" ])) !! "g1").
Proof.
  destruct (X7_sessions_and_groups_never_removed
              [ OpDisconnectStaff "s1"; OpDisconnectStaff "s2"; OpDisconnectUser "u1" ]
              (scene setup)
              (scene (setup ++ [ OpDisconnectStaff "s1";
                                 OpDisconnectStaff "s2";
                                 OpDisconnectUser "u1" ])))
    as (Hs & Hg & _).
  - apply (scene_reachable setup). vm_compute. reflexivity.
  - vm_compute. reflexivity.
  - split; [apply Hs|apply Hg]; vm_compute; eexists; reflexivity.
Defined.

(** ** Users *)

Lemma session_id_nonempty u s t : session_id u s t <> "".
Proof. unfold session_id. destruct u; simpl; discriminate. Qed.

Lemma users_consistent_frame w w' :
  users w' = users w -> h_users w' = h_users w ->
  (forall k, is_Some (sessions w !! k) -> is_Some (sessions w' !! k)) ->
  users_consistent w -> users_consistent w'.
Proof.
  intros Eu Eh Hs [Ht Ho]. split.
  - intros u l usr. rewrite Eu, Eh. apply Ht.
  - intros l usr. rewrite Eh. intros Hl.
    destruct (Ho l usr Hl) as (H1 & H2 & H3).
    split; [done|]. split; [done|]. destruct H3 as [?|?]; [by left|right; by apply Hs].
Qed.

Lemma users_consistent_step w o w' :
  wf w -> users_consistent w -> effect w o w' -> users_consistent w'.
Proof.
  intros Hwf Hc Heff.
  pose proof (effect_tables w o w' Heff) as [Hmono _].
  destruct Heff as [u n c| | |u a ul sl Hu Hs| | | |u ul c Hu|a sl st Ha Hst|];
    try (apply (users_consistent_frame w); [done|done|done|done]).
  - destruct Hc as [Ht Ho]. split; simpl.
    + intros u' l usr Hu' Hl.
      apply insert_lookup_Some in Hu' as [[<- ->]|[Hne Hu']].
      * rewrite lookup_app_r, Nat.sub_diag in Hl by lia. by injection Hl as <-.
      * apply snoc_lookup_Some in Hl as [Hl|[-> _]]; [by eapply Ht|].
        apply (wf_users w Hwf) in Hu'. lia.
    + intros l usr Hl. apply snoc_lookup_Some in Hl as [Hl|[_ ->]]; [exact (Ho _ _ Hl)|].
      simpl. split; [done|]. split; [done|by left].
  - destruct Hc as [Ht Ho]. split; simpl.
    + intros u' l usr Hu' Hl.
      apply alter_lookup_Some in Hl as (x & Hl & Hx).
      apply alter_lookup_Some in Hl as (y & Hl & Hy).
      destruct (Ht u' l y Hu' Hl) as [Hid Hst].
      destruct Hx as [[_ ->]|[_ ->]]; destruct Hy as [[_ ->]|[_ ->]]; simpl; done.
    + intros l usr Hl.
      apply alter_lookup_Some in Hl as (x & Hl & Hx).
      apply alter_lookup_Some in Hl as (y & Hl & Hy).
      destruct (Ho l y Hl) as (H1 & H2 & H3).
      destruct Hx as [[<- ->]|[Hne ->]]; destruct Hy as [[? ->]|[? ->]];
        simpl; try done.
      * split; [done|]. split; [intros _; apply session_id_nonempty|].
        right. rewrite lookup_insert_eq. eauto.
      * split; [done|]. split; [done|]. destruct H3 as [?|?]; [by left|].
        right. by apply (Hmono (User.SessionID y)).
  - destruct Hc as [Ht Ho]. split; simpl.
    + intros u' l usr Hu' Hl.
      destruct (decide (u = u')) as [<-|Hne].
      { by rewrite lookup_delete_eq in Hu'. }
      rewrite lookup_delete_ne in Hu' by done.
      apply alter_lookup_Some in Hl as (x & Hl & Hx).
      destruct (Ht u' l x Hu' Hl) as [Hid Hst].
      destruct Hx as [[<- ->]|[_ ->]]; [|done].
      destruct (Ht u ul x Hu Hl) as [Hid' _]. congruence.
    + intros l usr Hl.
      apply alter_lookup_Some in Hl as (x & Hl & Hx).
      destruct (Ho l x Hl) as (H1 & H2 & H3).
      destruct Hx as [[_ ->]|[_ ->]]; simpl; done.
  - pose (w2 := set_closed (closed_conns (CSStaff.Conn st))
                  (set_h_staffs (alter (CSStaff.with_Status UserStatusOffline) sl) w)).
    pose proof (leave_group_frame a (CSStaff.GroupID st) w2)
      as (Eu&_&_&_&Eh&_).
    pose proof (close_sessions_world_frame (map_to_list (CSStaff.Sessions st)).*1
                  (leave_group a (CSStaff.GroupID st) w2))
      as (Eu'&_&_&_&Eh'&_).
    simpl in Eu', Eh'.
    apply (users_consistent_frame w); [|  |exact Hmono|exact Hc]; simpl.
    + unfold disconnect_staff_world. simpl. fold w2. by rewrite Eu', Eu.
    + unfold disconnect_staff_world. simpl. fold w2. by rewrite Eh', Eh.
Qed.

Lemma reachable_users_consistent w : reachable w -> users_consistent w.
Proof.
  intros Hr. induction Hr as [clk|w o w' Hr IH Heff] using reachable_induction.
  - split; simpl; intros *; [by rewrite lookup_empty|by rewrite lookup_nil].
  - eapply users_consistent_step; eauto using reachable_wf.
Qed.



(** X9. [DisconnectUser] of a connected user marks its object Offline,
    closes its connection if it has one and takes the id out of the user
    table, and does nothing else: it reads no clock, every other user is as
    before, and no session changes.  The user's session, if any, keeps its
    status and stays in its staff member's session set. *)
Theorem X9_disconnect_user_effect (w : World) (u : string) (usr : User.t) :
  reachable w ->
  user_of w u = Some usr ->
  exists l w',
    DisconnectUser u w = Some (tt, w') /\
    users w !! u = Some l /\
    users w' !! u = None /\
    h_users w' !! l = Some (User.with_Status UserStatusOffline usr) /\
    closed w' = closed_conns (User.Conn usr) (closed w) /\
    (forall u', u' <> u -> user_of w' u' = user_of w u') /\
    (forall k, session_of w' k = session_of w k) /\
    (forall a k, handles w' a k = handles w a k) /\
    ticks w' = ticks w.
Proof.
  intros Hr Hu. pose proof (reachable_users_consistent w Hr) as [Ht _].
  unfold user_of in Hu. destruct (users w !! u) as [l|] eqn:Hl; [|done].
  exists l, (disconnect_user_world u l (User.Conn usr) w).
  split; [by apply DisconnectUser_eq|]. split; [done|].
  split; [simpl; apply lookup_delete_eq|].
  split; [simpl; by rewrite list_lookup_alter_eq, Hu|].
  split; [done|]. split; [|done].
  intros u' Hne. unfold user_of. simpl. rewrite lookup_delete_ne by done.
  destruct (users w !! u') as [l'|] eqn:Hl'; [|done].
  destruct (decide (l = l')) as [<-|Hll]; [|by rewrite list_lookup_alter_ne].
  destruct (Ht u l usr Hl Hu) as [<- _]. destruct (Ht u' l usr Hl' Hu) as [Hid _].
  done.
Qed.

(** u1 leaves while in a session with s1: connection 1 is closed and the
    session is still Active and still in the session set of s1. *)
Lemma X9_witness :
  exists l w',
    DisconnectUser "u1" (scene setup) = Some (tt, w') /\
    users w' !! "u1" = None /\
    h_users w' !! l =
      Some (User.mk "u1" "alice" UserStatusOffline (Some 1%nat)
              1700000000000000000 sid0) /\
    closed w' = [1%nat] /\
    session_of w' sid0 =
      Some (Session.mk sid0 "u1" "s1" SessionStatusActive
              1700000000000002000 1700000000000003000 []) /\
    handles w' "s1" sid0 = true.
Proof.
  destruct (X9_disconnect_user_effect (scene setup) "u1"
              (User.mk "u1" "alice" UserStatusInSession (Some 1%nat)
                 1700000000000000000 sid0))
    as (l & w' & Hrun & _ & Hgone & Hobj & Hcl & _ & Hs & Hh & _).
  - apply (scene_reachable setup). vm_compute. reflexivity.
  - vm_compute. reflexivity.
  - exists l, w'. split; [exact Hrun|]. split; [exact Hgone|].
    split; [exact Hobj|]. split; [rewrite Hcl; vm_compute; reflexivity|].
    split; [rewrite Hs|rewrite Hh]; vm_compute; reflexivity.
Defined.

(** X10. The user table is keyed by id alone.  When a second connection
    registers under an id that is already connected and [DisconnectUser] is
    then called for that id (as the handler of the first connection does
    when it ends), it is the second connection that is closed and removed:
    the id is no longer in the table, the first connection is never closed
    and its user object stays Online. *)
Theorem X10_disconnect_hits_latest_connection
    (w : World) (u n1 n2 : string) (a b : nat) :
  exists p1 w1 p2 w2 w3,
    ConnectUser u n1 (Some a) w = Some (p1, w1) /\
    ConnectUser u n2 (Some b) w1 = Some (p2, w2) /\
    DisconnectUser u w2 = Some (tt, w3) /\
    p1 <> p2 /\
    users w3 !! u = None /\
    closed w3 = closed w ++ [b] /\
    h_users w3 !! p1 =
      Some (User.mk u n1 UserStatusOnline (Some a) (clock w (ticks w)) "") /\
    h_users w3 !! p2 =
      Some (User.mk u n2 UserStatusOffline (Some b) (clock w (S (ticks w))) "").
Proof.
  do 5 eexists.
  split; [apply ConnectUser_eq|]. split; [apply ConnectUser_eq|].
  split.
  { eapply DisconnectUser_eq; simpl.
    - apply lookup_insert_eq.
    - rewrite length_app. simpl.
      rewrite lookup_app_r by (rewrite length_app; simpl; lia).
      rewrite length_app. simpl. rewrite Nat.sub_diag. reflexivity. }
  simpl. rewrite !length_app. simpl.
  split; [lia|]. split; [apply lookup_delete_eq|]. split; [done|].
  split.
  - rewrite list_lookup_alter_ne by lia.
    rewrite lookup_app_l by (rewrite length_app; simpl; lia).
    rewrite lookup_app_r, Nat.sub_diag by lia. done.
  - rewrite list_lookup_alter_eq.
    rewrite lookup_app_r by (rewrite length_app; simpl; lia).
    rewrite length_app. simpl. rewrite Nat.sub_diag. done.
Qed.

(** ** Messages *)

(** What [SendMessage] returns for a party of the session. *)
Lemma SendMessage_party w k from content ty l s :
  sessions w !! k = Some l -> h_sessions w !! l = Some s ->
  from = Session.UserID s \/ from = Session.StaffID s ->
  exists msg,
    SendMessage k from content ty w = Some (Ok msg, send_world l msg w) /\
    Message.ID msg = (k +:+ "_") +:+ Format (clock w (ticks w)).
Proof.
  intros Hk Hl Hfrom.
  destruct (decide (from = Session.UserID s)) as [Hu|Hu].
  - rewrite (SendMessage_eq_user _ _ _ _ _ _ _ Hk Hl Hu). eexists. split; done.
  - destruct Hfrom as [?|Hs]; [done|].
    rewrite (SendMessage_eq_staff _ _ _ _ _ _ _ Hk Hl Hu Hs). eexists. split; done.
Qed.

(** X11. A message that [SendMessage] accepts is addressed to the other
    party of the session: to the session's staff id when the sender is its
    user id, also when user id and staff id are the same string, and to the
    user id otherwise.  Its id is the session id, an underscore and the
    clock reading in seconds; it carries the session id, sender, content
    and type given, and it becomes the last message of the session.  The
    session's status is not consulted. *)
Theorem X11_send_message_routing
    (w : World) (k from content : string) (ty : MessageType) (s : Session.t) :
  session_of w k = Some s ->
  from = Session.UserID s \/ from = Session.StaffID s ->
  exists msg w',
    SendMessage k from content ty w = Some (Ok msg, w') /\
    msg = Message.mk ((k +:+ "_") +:+ Format (clock w (ticks w))) k from
            (if decide (from = Session.UserID s)
             then Session.StaffID s else Session.UserID s)
            content ty (clock w (S (ticks w))) /\
    (exists s', h_sessions w' !! default 0%nat (sessions w !! k) = Some s' /\
                last (Session.Messages s') = Some msg /\
                length (Session.Messages s') = S (length (Session.Messages s)) /\
                Session.Status s' = Session.Status s) /\
    ticks w' = S (S (S (ticks w))).
Proof.
  intros (l & Hk & Hl)%session_of_Some Hfrom. rewrite Hk. simpl.
  destruct (decide (from = Session.UserID s)) as [Hu|Hu].
  - rewrite (SendMessage_eq_user _ _ _ _ _ _ _ Hk Hl Hu).
    do 2 eexists. split; [reflexivity|]. split; [reflexivity|].
    split; [|reflexivity]. simpl.
    rewrite !list_lookup_alter_eq, Hl. simpl. eexists. split; [reflexivity|].
    simpl. rewrite last_snoc, length_app. simpl. split; [done|]. split; [lia|done].
  - destruct Hfrom as [?|Hs]; [done|].
    rewrite (SendMessage_eq_staff _ _ _ _ _ _ _ Hk Hl Hu Hs).
    do 2 eexists. split; [reflexivity|]. split; [reflexivity|].
    split; [|reflexivity]. simpl.
    rewrite !list_lookup_alter_eq, Hl. simpl. eexists. split; [reflexivity|].
    simpl. rewrite last_snoc, length_app. simpl. split; [done|]. split; [lia|done].
Qed.

(** s1 answers in the session of u1: the message goes to u1. *)
Lemma X11_witness :
  exists msg w',
    SendMessage sid0 "s1" "hello" MessageTypeText (scene setup) = Some (Ok msg, w') /\
    msg = Message.mk "u1_s1_20231114221320_20231114221320" sid0 "s1" "u1" "hello"
            MessageTypeText 1700000000000005000.
Proof.
  destruct (X11_send_message_routing (scene setup) sid0 "s1" "hello" MessageTypeText
              (Session.mk sid0 "u1" "s1" SessionStatusActive
                 1700000000000002000 1700000000000003000 []))
    as (msg & w' & Hrun & Hmsg & _).
  - vm_compute. reflexivity.
  - right. reflexivity.
  - exists msg, w'. split; [exact Hrun|]. rewrite Hmsg. vm_compute. reflexivity.
Defined.

Lemma Format_same_second (t t' : Z) :
  (t / 1000000000 = t' / 1000000000)%Z -> Format t = Format t'.
Proof. intros H. unfold Format. by rewrite H. Qed.

(** X12. Message ids are not unique.  Two messages accepted one after the
    other in the same session have the same id exactly when the two clock
    readings that name them print alike, and they do whenever both fall in
    the same second; the session then holds two messages under one id. *)
Theorem X12_message_ids_collide
    (w : World) (k f1 f2 c1 c2 : string) (ty1 ty2 : MessageType) (s : Session.t) :
  session_of w k = Some s ->
  f1 = Session.UserID s \/ f1 = Session.StaffID s ->
  f2 = Session.UserID s \/ f2 = Session.StaffID s ->
  exists m1 w1 m2 w2 s2,
    SendMessage k f1 c1 ty1 w = Some (Ok m1, w1) /\
    SendMessage k f2 c2 ty2 w1 = Some (Ok m2, w2) /\
    session_of w2 k = Some s2 /\
    Session.Messages s2 = Session.Messages s ++ [m1; m2] /\
    (Message.ID m1 = Message.ID m2 <->
     Format (clock w (ticks w)) = Format (clock w (3 + ticks w))) /\
    ((clock w (ticks w) / 1000000000 = clock w (3 + ticks w) / 1000000000)%Z ->
     Message.ID m1 = Message.ID m2).
Proof.
  intros Hs Hf1 Hf2.
  pose proof Hs as (l & Hk & Hl)%session_of_Some.
  destruct (SendMessage_party w k f1 c1 ty1 l s Hk Hl Hf1)
    as (m1 & Hrun1 & Hid1).
  set (w1 := send_world l m1 w) in *.
  set (s1 := Session.with_UpdateAt (clock w (S (S (ticks w))))
               (Session.with_Messages (Session.Messages s ++ [m1]) s)).
  assert (Hl1 : h_sessions w1 !! l = Some s1).
  { unfold w1. simpl. by rewrite !list_lookup_alter_eq, Hl. }
  destruct (SendMessage_party w1 k f2 c2 ty2 l s1 Hk Hl1 Hf2)
    as (m2 & Hrun2 & Hid2).
  exists m1, w1, m2, (send_world l m2 w1). eexists.
  split; [done|]. split; [done|].
  split.
  { apply session_of_Some. exists l. split; [done|].
    simpl. rewrite !list_lookup_alter_eq, Hl. reflexivity. }
  simpl. split; [by rewrite <- app_assoc|].
  assert (Hiff : Message.ID m1 = Message.ID m2 <->
                 Format (clock w (ticks w)) = Format (clock w (3 + ticks w))).
  { rewrite Hid1, Hid2. simpl. split; [apply append_inj_r|by intros ->]. }
  split; [exact Hiff|]. intros Hsec. apply Hiff. by apply Format_same_second.
Qed.

(** u1 writes and s1 answers within the same second: one id, two
    messages. *)
Lemma X12_witness :
  exists m1 w1 m2 w2,
    SendMessage sid0 "u1" "hi" MessageTypeText (scene setup) = Some (Ok m1, w1) /\
    SendMessage sid0 "s1" "hello" MessageTypeText w1 = Some (Ok m2, w2) /\
    Message.ID m1 = Message.ID m2.
Proof.
  destruct (X12_message_ids_collide (scene setup) sid0 "u1" "s1" "hi" "hello"
              MessageTypeText MessageTypeText
              (Session.mk sid0 "u1" "s1" SessionStatusActive
                 1700000000000002000 1700000000000003000 []))
    as (m1 & w1 & m2 & w2 & s2 & Hrun1 & Hrun2 & _ & _ & _ & Hsec).
  - vm_compute. reflexivity.
  - left. reflexivity.
  - right. reflexivity.
  - exists m1, w1, m2, w2. split; [exact Hrun1|]. split; [exact Hrun2|].
    apply Hsec. vm_compute. reflexivity.
Defined.

(** ** Transfers compose *)

(** X13. Transferring a session to another connected staff member and
    back again restores the assignment: the session names its first staff
    member again and differs from what it was only in [UpdateAt]; the id is
    in the first member's session set and, if the two differ, not in the
    second's; every other session set and every other session is as
    before. *)
Theorem X13_transfer_there_and_back
    (w : World) (k a b : string) (s : Session.t) :
  reachable w ->
  session_of w k = Some s ->
  Session.StaffID s = a ->
  is_Some (staffs w !! a) ->
  is_Some (staffs w !! b) ->
  exists w1 w2,
    TransferSession k b w = Some (None, w1) /\
    TransferSession k a w1 = Some (None, w2) /\
    session_of w2 k = Some (Session.with_UpdateAt (clock w (S (ticks w))) s) /\
    handles w2 a k = true /\
    (a <> b -> handles w2 b k = false) /\
    (forall c, c <> a -> c <> b -> handles w2 c k = handles w c k) /\
    (forall c k', k' <> k -> handles w2 c k' = handles w c k') /\
    (forall k', k' <> k -> session_of w2 k' = session_of w k').
Proof.
  intros Hwf%reachable_wf Hs Ha [al Hal] [bl Hbl].
  pose proof Hs as (l & Hk & Hl)%session_of_Some.
  assert (Hal' : staffs w !! Session.StaffID s = Some al) by (by rewrite Ha).
  set (w1 := transfer_world k b l al bl w).
  assert (Hrun1 : TransferSession k b w = Some (None, w1))
    by (eapply TransferSession_eq; eauto using wf_staffs).
  assert (Hwf1 : wf w1) by (by apply wf_transfer_world).
  set (s1 := Session.with_UpdateAt (clock w (ticks w)) (Session.with_StaffID b s)).
  assert (Hs1 : session_of w1 k = Some s1).
  { unfold w1. rewrite (session_of_transfer_world w k b l al bl k Hwf Hk).
    rewrite decide_True by done. by rewrite Hs. }
  pose proof Hs1 as (l1 & Hk1 & Hl1)%session_of_Some.
  assert (l1 = l) as -> by (unfold w1 in Hk1; simpl in Hk1; congruence).
  set (w2 := transfer_world k a l bl al w1).
  assert (Hrun2 : TransferSession k a w1 = Some (None, w2)).
  { eapply TransferSession_eq; eauto; unfold w1; simpl;
      rewrite ?length_alter; eauto using wf_staffs. }
  exists w1, w2. split; [done|]. split; [done|].
  assert (Hh2 : forall c k', handles w2 c k' =
            if decide (k' = k) then
              if decide (c = a) then true
              else if decide (c = b) then false
              else handles w1 c k
            else handles w1 c k').
  { intros c k'. unfold w2.
    apply (handles_transfer_world w1 k a l bl al b c k' Hwf1); done. }
  assert (Hh1 : forall c k', handles w1 c k' =
            if decide (k' = k) then
              if decide (c = b) then true
              else if decide (c = a) then false
              else handles w c k
            else handles w c k').
  { intros c k'. unfold w1.
    apply (handles_transfer_world w k b l al bl a c k' Hwf); done. }
  split.
  { unfold w2. rewrite (session_of_transfer_world w1 k a l bl al k Hwf1 Hk1).
    rewrite decide_True by done. rewrite Hs1. simpl. f_equal.
    unfold s1. destruct s; simpl in *. by rewrite Ha. }
  split; [rewrite Hh2, !decide_True by done; done|].
  split.
  { intros Hne. rewrite Hh2, decide_True by done.
    rewrite decide_False by done. by rewrite decide_True. }
  split.
  { intros c Hca Hcb. rewrite Hh2, decide_True by done.
    rewrite !decide_False by done. rewrite Hh1, decide_True by done.
    by rewrite !decide_False. }
  split.
  { intros c k' Hne. rewrite Hh2, decide_False by done.
    rewrite Hh1. by rewrite decide_False. }
  intros k' Hne. unfold w2.
  rewrite (session_of_transfer_world w1 k a l bl al k' Hwf1 Hk1).
  rewrite decide_False by done. unfold w1.
  rewrite (session_of_transfer_world w k b l al bl k' Hwf Hk).
  by rewrite decide_False.
Qed.

(** The session of u1 goes from s1 to s2 and back. *)
Lemma X13_witness :
  exists w1 w2,
    TransferSession sid0 "s2" (scene setup) = Some (None, w1) /\
    TransferSession sid0 "s1" w1 = Some (None, w2) /\
    session_of w2 sid0 =
      Some (Session.mk sid0 "u1" "s1" SessionStatusActive
              1700000000000002000 1700000000000005000 []) /\
    handles w2 "s1" sid0 = true /\
    handles w2 "s2" sid0 = false.
Proof.
  destruct (X13_transfer_there_and_back (scene setup) sid0 "s1" "s2"
              (Session.mk sid0 "u1" "s1" SessionStatusActive
                 1700000000000002000 1700000000000003000 []))
    as (w1 & w2 & Hrun1 & Hrun2 & Hs & Ha & Hb & _).
  - apply (scene_reachable setup). vm_compute. reflexivity.
  - vm_compute. reflexivity.
  - reflexivity.
  - vm_compute. eexists. reflexivity.
  - vm_compute. eexists. reflexivity.
  - exists w1, w2. split; [exact Hrun1|]. split; [exact Hrun2|].
    split; [rewrite Hs; vm_compute; reflexivity|].
    split; [exact Ha|]. apply Hb. discriminate.
Defined.

(** ** Objects that have left the tables *)

Lemma disconnect_staff_world_frame s sl st w :
  users (disconnect_staff_world s sl st w) = users w /\
  h_users (disconnect_staff_world s sl st w) = h_users w /\
  staffs (disconnect_staff_world s sl st w) = delete s (staffs w) /\
  h_staffs (disconnect_staff_world s sl st w) =
    alter (CSStaff.with_Status UserStatusOffline) sl (h_staffs w) /\
  groups (disconnect_staff_world s sl st w) = groups w /\
  sessions (disconnect_staff_world s sl st w) = sessions w /\
  closed (disconnect_staff_world s sl st w) =
    closed_conns (CSStaff.Conn st) (closed w).
Proof.
  unfold disconnect_staff_world. simpl.
  set (w2 := set_closed _ (set_h_staffs _ w)).
  pose proof (leave_group_frame s (CSStaff.GroupID st) w2)
    as (Eu&Es&Eg&Ese&Ehu&Ehs&_&Ecl&_).
  pose proof (close_sessions_world_frame (map_to_list (CSStaff.Sessions st)).*1
                (leave_group s (CSStaff.GroupID st) w2))
    as (Eu'&Es'&Eg'&Ese'&Ehu'&Ehs'&_&Ecl'&_).
  simpl in *. rewrite Eu', Es', Eg', Ese', Ehu', Ehs', Ecl'.
  rewrite Eu, Es, Eg, Ese, Ehu, Ehs, Ecl. done.
Qed.

Lemma effect_unregistered_user w o w' l usr :
  wf w -> effect w o w' ->
  h_users w !! l = Some usr -> (forall u, users w !! u <> Some l) ->
  h_users w' !! l = Some usr /\ (forall u, users w' !! u <> Some l).
Proof.
  intros Hwf Heff Hl Hout.
  destruct Heff as [u n c| | |u a ul sl Hu Hs| | | |u ul c Hu|a sl st Ha Hst|];
    try (split; [exact Hl|exact Hout]).
  - simpl. split; [by apply lookup_app_l_Some|]. intros u'.
    destruct (decide (u = u')) as [<-|Hne].
    + rewrite lookup_insert_eq. apply lookup_lt_Some in Hl. intros [=]. lia.
    + rewrite lookup_insert_ne by done. apply Hout.
  - simpl. split; [|exact Hout].
    assert (ul <> l) by (intros ->; by apply (Hout u)).
    by rewrite !list_lookup_alter_ne.
  - simpl. split.
    + assert (ul <> l) by (intros ->; by apply (Hout u)).
      by rewrite list_lookup_alter_ne.
    + intros u'. destruct (decide (u = u')) as [<-|Hne].
      * by rewrite lookup_delete_eq.
      * rewrite lookup_delete_ne by done. apply Hout.
  - destruct (disconnect_staff_world_frame a sl st w) as (Eu & Eh & _).
    rewrite Eu, Eh. done.
Qed.

Lemma effect_unregistered_staff w o w' l st0 :
  wf w -> effect w o w' ->
  h_staffs w !! l = Some st0 -> (forall a, staffs w !! a <> Some l) ->
  h_staffs w' !! l = Some st0 /\ (forall a, staffs w' !! a <> Some l).
Proof.
  intros Hwf Heff Hl Hout.
  destruct Heff as [| |a n g c gl Hg|u a ul sl Hu Hs|k b l0 nl s0 ol Hk Hb Hl0 Ho
                    | | | |a sl st Ha Hst|];
    try (split; [exact Hl|exact Hout]).
  - simpl. split; [by apply lookup_app_l_Some|]. intros a'.
    destruct (decide (a = a')) as [<-|Hne].
    + rewrite lookup_insert_eq. apply lookup_lt_Some in Hl. intros [=]. lia.
    + rewrite lookup_insert_ne by done. apply Hout.
  - simpl. split; [|exact Hout].
    assert (sl <> l) by (intros ->; by apply (Hout a)).
    by rewrite list_lookup_alter_ne.
  - simpl. split; [|exact Hout].
    assert (nl <> l) by (intros ->; by apply (Hout b)).
    assert (ol <> l) by (intros ->; by apply (Hout (Session.StaffID s0))).
    by rewrite !list_lookup_alter_ne.
  - destruct (disconnect_staff_world_frame a sl st w) as (_ & _ & Es & Eh & _).
    rewrite Es, Eh. split.
    + assert (sl <> l) by (intros ->; by apply (Hout a)).
      by rewrite list_lookup_alter_ne.
    + intros a'. destruct (decide (a = a')) as [<-|Hne].
      * by rewrite lookup_delete_eq.
      * rewrite lookup_delete_ne by done. apply Hout.
Qed.

(** X14. Only objects in the tables are ever updated.  A user object or a
    staff object that no table entry points to (its id was disconnected, or
    was taken over by a later connection) never changes again and never
    comes back into the table, whatever calls follow: a user object left
    behind keeps its status and session id, a staff object left behind
    keeps its session set. *)
Theorem X14_unregistered_objects_frozen (ops : list Op) (w w' : World) :
  reachable w ->
  after ops w = Some w' ->
  (forall l usr,
     h_users w !! l = Some usr -> (forall u, users w !! u <> Some l) ->
     h_users w' !! l = Some usr /\ (forall u, users w' !! u <> Some l)) /\
  (forall l st,
     h_staffs w !! l = Some st -> (forall a, staffs w !! a <> Some l) ->
     h_staffs w' !! l = Some st /\ (forall a, staffs w' !! a <> Some l)).
Proof.
  intros Hwf%reachable_wf. revert ops w w' Hwf.
  apply (after_induction (fun w w' =>
    (forall l usr,
       h_users w !! l = Some usr -> (forall u, users w !! u <> Some l) ->
       h_users w' !! l = Some usr /\ (forall u, users w' !! u <> Some l)) /\
    (forall l st,
       h_staffs w !! l = Some st -> (forall a, staffs w !! a <> Some l) ->
       h_staffs w' !! l = Some st /\ (forall a, staffs w' !! a <> Some l)))).
  - intros w. split; intros; done.
  - intros w o w1 w2 Hwf Heff [IHu IHs]. split.
    + intros l usr Hl Hout.
      destruct (effect_unregistered_user w o w1 l usr Hwf Heff Hl Hout) as [Hl1 Hout1].
      by apply IHu.
    + intros l st Hl Hout.
      destruct (effect_unregistered_staff w o w1 l st Hwf Heff Hl Hout) as [Hl1 Hout1].
      by apply IHs.
Qed.

(** alice connects twice under u1; the first object stays Online and
    without a session id when a session is created for u1. *)
Lemma X14_witness :
  h_users (scene (lobby ++ [ OpConnectUser "u1" "alice" (Some 7%nat);
                             OpCreateSession "u1" "s1" ])) !! 0%nat =
    Some (User.mk "u1" "alice" UserStatusOnline (Some 1%nat)
            1700000000000000000 "") /\
  users (scene (lobby ++ [ OpConnectUser "u1" "alice" (Some 7%nat);
                           OpCreateSession "u1" "s1" ])) !! "u1" = Some 1%nat.
Proof.
  destruct (X14_unregistered_objects_frozen
              [ OpCreateSession "u1" "s1" ]
              (scene (lobby ++ [ OpConnectUser "u1" "alice" (Some 7%nat) ]))
              (scene (lobby ++ [ OpConnectUser "u1" "alice" (Some 7%nat);
                                 OpCreateSession "u1" "s1" ])))
    as [Hu _].
  - apply (scene_reachable (lobby ++ [ OpConnectUser "u1" "alice" (Some 7%nat) ])).
    vm_compute. reflexivity.
  - vm_compute. reflexivity.
  - destruct (Hu 0%nat (User.mk "u1" "alice" UserStatusOnline (Some 1%nat)
                          1700000000000000000 "")) as [Hl _].
    + vm_compute. reflexivity.
    + intros u Hu0.
      assert (Hm : users (scene (lobby ++ [ OpConnectUser "u1" "alice" (Some 7%nat) ]))
                   = {[ "u1"%string := 1%nat ]}) by (vm_compute; reflexivity).
      rewrite Hm in Hu0. apply lookup_singleton_Some in Hu0 as [_ [=]].
    + split; [exact Hl|]. vm_compute. reflexivity.
Defined.

(** * The gateway *)

(** ** What the forwarding and notifying functions write *)

Lemma user_block_eq w u data :
  wf w -> conns_present w ->
  match users w !! u with
  | Some user => cur <- load_user user ;; WriteMessage (User.Conn cur) data
  | None => ret []
  end w = Some (to_user w u data, w).
Proof.
  intros Hwf [Hcu _]. unfold to_user. go_unfold.
  pose proof (Hcu u) as Hc. unfold user_conn, user_of in *.
  destruct (users w !! u) as [l|] eqn:Hu; [|done].
  destruct (lookup_valid _ _ (wf_users w Hwf _ _ Hu)) as [usr Hl].
  rewrite Hl in *. simpl in *. destruct (Hc _ eq_refl) as [h Hh]. rewrite Hh. done.
Qed.

Lemma staff_block_eq w a data :
  wf w -> conns_present w ->
  match staffs w !! a with
  | Some staff => cur <- load_staff staff ;; WriteMessage (CSStaff.Conn cur) data
  | None => ret []
  end w = Some (to_staff w a data, w).
Proof.
  intros Hwf [_ Hcs]. unfold to_staff. go_unfold.
  pose proof (Hcs a) as Hc. unfold staff_conn, staff_of in *.
  destruct (staffs w !! a) as [l|] eqn:Ha; [|done].
  destruct (lookup_valid _ _ (wf_staffs w Hwf _ _ Ha)) as [st Hl].
  rewrite Hl in *. simpl in *. destruct (Hc _ eq_refl) as [h Hh]. rewrite Hh. done.
Qed.

Lemma forwardMessageToStaff_eq w m :
  wf w -> conns_present w ->
  forwardMessageToStaff m w = Some (to_staff w (Message.ToID m) (FrameMessage m), w).
Proof.
  intros. unfold forwardMessageToStaff. go_get. by apply staff_block_eq.
Qed.

Lemma forwardMessageToUser_eq w m :
  wf w -> conns_present w ->
  forwardMessageToUser m w = Some (to_user w (Message.ToID m) (FrameMessage m), w).
Proof.
  intros. unfold forwardMessageToUser. go_get. by apply user_block_eq.
Qed.

Lemma notifySessionCreated_eq w p s :
  wf w -> conns_present w -> h_sessions w !! p = Some s ->
  notifySessionCreated p w =
  Some (to_user w (Session.UserID s) (FrameSessionCreated s) ++
        to_staff w (Session.StaffID s) (FrameSessionCreated s), w).
Proof.
  intros Hwf Hc Hp. unfold notifySessionCreated.
  unfold bind at 1, load_session at 1. rewrite Hp. cbv beta iota zeta.
  go_get. unfold bind at 1.
  rewrite (user_block_eq w (Session.UserID s) (FrameSessionCreated s) Hwf Hc).
  go_get. unfold bind at 1.
  rewrite (staff_block_eq w (Session.StaffID s) (FrameSessionCreated s) Hwf Hc).
  done.
Qed.

Lemma notifySessionTransferred_eq w k o n :
  wf w -> conns_present w ->
  notifySessionTransferred k o n w =
  Some (match session_of w k with
        | Some s =>
            to_user w (Session.UserID s) (FrameSessionTransferred k o n) ++
            to_staff w o (FrameSessionTransferred k o n) ++
            to_staff w n (FrameSessionTransferred k o n)
        | None => []
        end, w).
Proof.
  intros Hwf Hc. unfold notifySessionTransferred, session_of.
  unfold bind at 1, GetSession at 1, read at 1.
  destruct (sessions w !! k) as [l|] eqn:Hk; [|done]. cbv beta iota zeta.
  destruct (lookup_valid _ _ (wf_sessions w Hwf _ _ Hk)) as [s Hl].
  unfold bind at 1, load_session at 1. rewrite Hl. cbv beta iota zeta.
  go_get. unfold bind at 1.
  rewrite (user_block_eq w (Session.UserID s) (FrameSessionTransferred k o n) Hwf Hc).
  go_get. unfold bind at 1.
  rewrite (staff_block_eq w o (FrameSessionTransferred k o n) Hwf Hc).
  go_get. unfold bind at 1.
  rewrite (staff_block_eq w n (FrameSessionTransferred k o n) Hwf Hc).
  done.
Qed.

(** ** Connections of the registered *)

Lemma user_conn_ext w1 w2 u :
  users w1 = users w2 ->
  (forall l, User.Conn <$> h_users w1 !! l = User.Conn <$> h_users w2 !! l) ->
  user_conn w1 u = user_conn w2 u.
Proof.
  intros Eu Eh. unfold user_conn, user_of. rewrite Eu.
  destruct (users w2 !! u); [apply Eh|done].
Qed.

Lemma staff_conn_ext w1 w2 a :
  staffs w1 = staffs w2 ->
  (forall l, CSStaff.Conn <$> h_staffs w1 !! l = CSStaff.Conn <$> h_staffs w2 !! l) ->
  staff_conn w1 a = staff_conn w2 a.
Proof.
  intros Es Eh. unfold staff_conn, staff_of. rewrite Es.
  destruct (staffs w2 !! a); [apply Eh|done].
Qed.

Lemma fmap_lookup_alter {A B} (g : A -> B) (f : A -> A) (h : list A) (i j : nat) :
  (forall x, g (f x) = g x) -> g <$> alter f i h !! j = g <$> h !! j.
Proof.
  intros Hg. destruct (decide (i = j)) as [->|Hne].
  - rewrite list_lookup_alter_eq. destruct (h !! j); simpl; [by rewrite Hg|done].
  - by rewrite list_lookup_alter_ne.
Qed.

(** Only [ConnectUser], [ConnectStaff] and the two disconnects change who
    is registered with which connection. *)
Lemma effect_conns w o w' :
  wf w -> effect w o w' ->
  (forall u c, user_conn w' u = Some c ->
     user_conn w u = Some c \/ exists n, o = OpConnectUser u n c) /\
  (forall a c, staff_conn w' a = Some c ->
     staff_conn w a = Some c \/ exists n g, o = OpConnectStaff a n g c) /\
  ((forall u n c, o <> OpConnectUser u n c) ->
   (forall u, o <> OpDisconnectUser u) -> forall u, user_conn w' u = user_conn w u) /\
  ((forall a n g c, o <> OpConnectStaff a n g c) ->
   (forall a, o <> OpDisconnectStaff a) -> forall a, staff_conn w' a = staff_conn w a).
Proof.
  intros Hwf Heff.
  assert (Hsame : forall w2, (forall u, user_conn w2 u = user_conn w u) ->
            (forall a, staff_conn w2 a = staff_conn w a) ->
            (forall u c, user_conn w2 u = Some c ->
               user_conn w u = Some c \/ exists n, o = OpConnectUser u n c) /\
            (forall a c, staff_conn w2 a = Some c ->
               staff_conn w a = Some c \/ exists n g, o = OpConnectStaff a n g c) /\
            ((forall u n c, o <> OpConnectUser u n c) ->
             (forall u, o <> OpDisconnectUser u) ->
             forall u, user_conn w2 u = user_conn w u) /\
            ((forall a n g c, o <> OpConnectStaff a n g c) ->
             (forall a, o <> OpDisconnectStaff a) ->
             forall a, staff_conn w2 a = staff_conn w a)).
  { intros w2 Hu Hs. split; [intros u c; rewrite Hu; by left|].
    split; [intros a c; rewrite Hs; by left|]. split; done. }
  destruct Heff as [u n c|g n|a n g c gl Hg|u a ul sl Hu Hs
                    |k b l0 nl s0 ol Hk Hb Hl0 Ho
                    |k from content ty l0 msg Hk|k from content ty
                    |u ul c Hu|a sl st Ha Hst|o].
  - (* ConnectUser *)
    assert (Hold : forall u', u' <> u ->
              user_conn (connect_user_world u n c w) u' = user_conn w u').
    { intros u' Hne. unfold user_conn, user_of. simpl.
      rewrite lookup_insert_ne by done.
      destruct (users w !! u') as [l|] eqn:Hl; [|done].
      by rewrite lookup_app_l by (by eapply wf_users). }
    split; [|split; [by left|split; [intros H; by destruct (H u n c)|done]]].
    intros u' c' Hc'. destruct (decide (u' = u)) as [->|Hne].
    + right. exists n. unfold user_conn, user_of in Hc'. simpl in Hc'.
      rewrite lookup_insert_eq in Hc'.
      rewrite lookup_app_r, Nat.sub_diag in Hc' by lia. simpl in Hc'. congruence.
    + left. by rewrite <- Hold.
  - apply Hsame; done.
  - (* ConnectStaff *)
    assert (Hold : forall a', a' <> a ->
              staff_conn (connect_staff_world a n g c gl w) a' = staff_conn w a').
    { intros a' Hne. unfold staff_conn, staff_of. simpl.
      rewrite lookup_insert_ne by done.
      destruct (staffs w !! a') as [l|] eqn:Hl; [|done].
      by rewrite lookup_app_l by (by eapply wf_staffs). }
    split; [by left|]. split; [|split; [done|intros H; by destruct (H a n g c)]].
    intros a' c' Hc'. destruct (decide (a' = a)) as [->|Hne].
    + right. exists n, g. unfold staff_conn, staff_of in Hc'. simpl in Hc'.
      rewrite lookup_insert_eq in Hc'.
      rewrite lookup_app_r, Nat.sub_diag in Hc' by lia. simpl in Hc'. congruence.
    + left. by rewrite <- Hold.
  - (* CreateSession *)
    apply Hsame.
    + intros u'. apply user_conn_ext; [done|]. intros l. simpl.
      rewrite !fmap_lookup_alter; done.
    + intros a'. apply staff_conn_ext; [done|]. intros l. simpl.
      rewrite !fmap_lookup_alter; done.
  - (* TransferSession *)
    apply Hsame; [done|].
    intros a'. apply staff_conn_ext; [done|]. intros l. simpl.
    rewrite !fmap_lookup_alter; done.
  - apply Hsame; done.
  - apply Hsame; done.
  - (* DisconnectUser *)
    split; [|split; [by left|split; [intros _ H; by destruct (H u)|done]]].
    intros u' c' Hc'. left. unfold user_conn, user_of in *. simpl in Hc'.
    destruct (decide (u = u')) as [<-|Hne]; [by rewrite lookup_delete_eq in Hc'|].
    rewrite lookup_delete_ne in Hc' by done.
    destruct (users w !! u'); [|done].
    by rewrite fmap_lookup_alter in Hc'.
  - (* DisconnectStaff *)
    destruct (disconnect_staff_world_frame a sl st w) as (Eu & Ehu & Es & Ehs & _).
    split; [|split; [|split; [intros _ _ u'; by apply user_conn_ext; [|intros; rewrite Ehu]|
                              intros _ H; by destruct (H a)]]].
    + intros u' c' Hc'. left. rewrite <- Hc'. symmetry.
      apply user_conn_ext; [done|]. intros. by rewrite Ehu.
    + intros a' c' Hc'. left. unfold staff_conn, staff_of in *.
      rewrite Es, Ehs in Hc'.
      destruct (decide (a = a')) as [<-|Hne]; [by rewrite lookup_delete_eq in Hc'|].
      rewrite lookup_delete_ne in Hc' by done.
      destruct (staffs w !! a'); [|done].
      by rewrite fmap_lookup_alter in Hc'.
  - apply Hsame; done.
Qed.

Lemma conns_present_step w o w' :
  wf w -> conns_present w -> with_conn o -> effect w o w' -> conns_present w'.
Proof.
  intros Hwf [Hcu Hcs] Hwith Heff.
  destruct (effect_conns w o w' Hwf Heff) as (Hu & Hs & _).
  split.
  - intros u c Hc. destruct (Hu u c Hc) as [?|[n ->]]; [by eapply Hcu|done].
  - intros a c Hc. destruct (Hs a c Hc) as [?|(n & g & ->)]; [by eapply Hcs|done].
Qed.

Lemma effect_users_grow w o w' :
  effect w o w' -> (length (h_users w) <= length (h_users w'))%nat.
Proof.
  intros Heff.
  destruct Heff as [| | | | | | | |a sl st Ha Hst|]; simpl;
    rewrite ?length_app, ?length_alter; try lia.
  destruct (disconnect_staff_world_frame a sl st w) as (_ & Ehu & _).
  unfold disconnect_staff_world in Ehu. simpl in Ehu. rewrite Ehu. lia.
Qed.

(** A registry call run for its state. *)
Lemma call_exec {A} (m : M A) w w' :
  (_ <- m ;; ret tt) w = Some (tt, w') -> exists r, m w = Some (r, w').
Proof.
  unfold bind, ret. destruct (m w) as [[r w1]|]; [|done]. intros [= <-]. eauto.
Qed.

(** What every registry call of a handler keeps. *)
Lemma call_ok o w :
  wf w -> conns_present w -> with_conn o ->
  exists w', exec o w = Some (tt, w') /\ effect w o w' /\
             wf w' /\ conns_present w' /\
             (length (h_users w) <= length (h_users w'))%nat.
Proof.
  intros Hwf Hc Hwith.
  destruct (wf_exec o w Hwf) as (w' & Hexec & Hwf').
  pose proof (exec_effect o w w' Hwf Hexec) as Heff.
  exists w'. split; [done|]. split; [done|]. split; [done|].
  split; [exact (conns_present_step w o w' Hwf Hc Hwith Heff)|
         exact (effect_users_grow w o w' Heff)].
Qed.

Lemma conns_present_init clk : conns_present (NewCustomerService clk).
Proof.
  split; intros x c; unfold user_conn, staff_conn, user_of, staff_of; simpl;
    by rewrite lookup_empty.
Qed.

Lemma conns_present_after ops : forall w w',
  wf w -> conns_present w -> Forall with_conn ops -> after ops w = Some w' ->
  wf w' /\ conns_present w'.
Proof.
  induction ops as [|o ops IH]; intros w w' Hwf Hc Hall Hrun.
  { rewrite after_nil in Hrun. by injection Hrun as <-. }
  apply Forall_cons in Hall as [Ho Hall]. rewrite after_cons in Hrun.
  destruct (call_ok o w Hwf Hc Ho) as (w1 & Hexec & _ & Hwf1 & Hc1 & _).
  rewrite Hexec in Hrun. by apply (IH w1).
Qed.

(** A scene whose users and staff all came with a connection. *)
Lemma scene_ok ops w :
  after ops (NewCustomerService clock0) = Some w -> Forall with_conn ops ->
  wf w /\ conns_present w.
Proof.
  intros Hrun Hall.
  apply (conns_present_after ops (NewCustomerService clock0) w);
    auto using wf_init, conns_present_init.
Qed.

(** ** One frame, handled *)

Lemma to_user_effect w o w' u data :
  wf w -> effect w o w' ->
  (forall u n c, o <> OpConnectUser u n c) -> (forall u, o <> OpDisconnectUser u) ->
  to_user w' u data = to_user w u data.
Proof.
  intros Hwf Heff H1 H2. unfold to_user.
  destruct (effect_conns w o w' Hwf Heff) as (_ & _ & Hu & _). by rewrite Hu.
Qed.

Lemma to_staff_effect w o w' a data :
  wf w -> effect w o w' ->
  (forall a n g c, o <> OpConnectStaff a n g c) -> (forall a, o <> OpDisconnectStaff a) ->
  to_staff w' a data = to_staff w a data.
Proof.
  intros Hwf Heff H1 H2. unfold to_staff.
  destruct (effect_conns w o w' Hwf Heff) as (_ & _ & _ & Hs). by rewrite Hs.
Qed.

(** X15. A "message" frame from a user whose object names a session it is
    the user of: the message is recorded by [SendMessage] and then written
    once, to the connection now registered under the session's staff id.
    If nobody is registered under that id (the staff member has left, which
    closed the session), the message is still recorded and nothing is
    written: the sender is not told. *)
Theorem X15_user_message_event
    (w : World) (user : nat) (userID content : string)
    (usr : User.t) (s : Session.t) :
  wf w -> conns_present w ->
  h_users w !! user = Some usr ->
  User.SessionID usr <> "" ->
  session_of w (User.SessionID usr) = Some s ->
  userID = Session.UserID s ->
  exists msg w',
    SendMessage (User.SessionID usr) userID content MessageTypeText w
      = Some (Ok msg, w') /\
    Message.ToID msg = Session.StaffID s /\
    user_event user userID (UserEvMessage content) w
      = Some (to_staff w (Session.StaffID s) (FrameMessage msg), w') /\
    (staffs w !! Session.StaffID s = None ->
     user_event user userID (UserEvMessage content) w = Some ([], w')) /\
    (forall h, staff_conn w (Session.StaffID s) = Some (Some h) ->
     user_event user userID (UserEvMessage content) w
       = Some ([(h, FrameMessage msg)], w')).
Proof.
  intros Hwf Hc Hl Hne Hs Hu.
  pose proof Hs as (l & Hk & Hls)%session_of_Some.
  pose proof (SendMessage_eq_user (User.SessionID usr) userID content MessageTypeText
                w l s Hk Hls Hu) as Hsend. simpl in Hsend.
  set (msg := new_message (User.SessionID usr) userID content MessageTypeText
                (Session.StaffID s) w) in *.
  set (w' := send_world l msg w) in *.
  assert (Heff : effect w (OpSendMessage (User.SessionID usr) userID content
                             MessageTypeText) w') by (by constructor).
  assert (Hwf' : wf w') by (by apply wf_send_world).
  assert (Hc' : conns_present w')
    by (refine (conns_present_step w _ w' Hwf Hc _ Heff); exact I).
  assert (Hrun : user_event user userID (UserEvMessage content) w
                 = Some (to_staff w (Session.StaffID s) (FrameMessage msg), w')).
  { unfold user_event. unfold bind at 1, load_user at 1. rewrite Hl.
    rewrite decide_True by done. unfold bind at 1. rewrite Hsend.
    rewrite (forwardMessageToStaff_eq w' msg Hwf' Hc'). simpl.
    by rewrite (to_staff_effect w _ w' _ _ Hwf Heff) by done. }
  exists msg, w'. split; [done|]. split; [done|]. split; [done|]. split.
  - intros Hnone. rewrite Hrun. unfold to_staff, staff_conn, staff_of.
    by rewrite Hnone.
  - intros h Hh. rewrite Hrun. unfold to_staff. by rewrite Hh.
Qed.

(** u1 writes in its session with s1: one frame, on connection 2. *)
Lemma X15_witness :
  exists msg w',
    user_event 0 "u1" (UserEvMessage "hi") (scene setup)
      = Some ([(2%nat, FrameMessage msg)], w') /\
    msg = Message.mk "u1_s1_20231114221320_20231114221320" sid0 "u1" "s1" "hi"
            MessageTypeText 1700000000000005000.
Proof.
  destruct (scene_ok setup (scene setup)) as [Hwf Hc].
  { vm_compute. reflexivity. }
  { repeat constructor; eexists; reflexivity. }
  destruct (X15_user_message_event (scene setup) 0 "u1" "hi"
              (User.mk "u1" "alice" UserStatusInSession (Some 1%nat)
                 1700000000000000000 sid0)
              (Session.mk sid0 "u1" "s1" SessionStatusActive
                 1700000000000002000 1700000000000003000 []) Hwf Hc)
    as (msg & w' & Hsend & _ & _ & _ & Hout).
  - vm_compute. reflexivity.
  - discriminate.
  - vm_compute. reflexivity.
  - reflexivity.
  - exists msg, w'. split.
    + apply Hout. vm_compute. reflexivity.
    + assert (Hsend' : SendMessage sid0 "u1" "hi" MessageTypeText (scene setup)
                       = Some (Ok (Message.mk "u1_s1_20231114221320_20231114221320"
                                     sid0 "u1" "s1" "hi" MessageTypeText
                                     1700000000000005000),
                               send_world 0 (Message.mk
                                     "u1_s1_20231114221320_20231114221320"
                                     sid0 "u1" "s1" "hi" MessageTypeText
                                     1700000000000005000) (scene setup)))
        by (vm_compute; reflexivity).
      simpl in Hsend. rewrite Hsend' in Hsend. by injection Hsend as <- _.
Defined.

(** X16. A "message" frame from a staff member for a session that names it
    as staff (and not as user): the message is recorded and written once,
    to the connection now registered under the session's user id; when the
    user has disconnected it is recorded and nothing is written. *)
Theorem X16_staff_message_event
    (w : World) (staffID sessionID content : string) (s : Session.t) :
  wf w -> conns_present w ->
  session_of w sessionID = Some s ->
  staffID = Session.StaffID s ->
  staffID <> Session.UserID s ->
  exists msg w',
    SendMessage sessionID staffID content MessageTypeText w = Some (Ok msg, w') /\
    Message.ToID msg = Session.UserID s /\
    staff_event staffID (StaffEvMessage sessionID content) w
      = Some (to_user w (Session.UserID s) (FrameMessage msg), w') /\
    (users w !! Session.UserID s = None ->
     staff_event staffID (StaffEvMessage sessionID content) w = Some ([], w')) /\
    (forall h, user_conn w (Session.UserID s) = Some (Some h) ->
     staff_event staffID (StaffEvMessage sessionID content) w
       = Some ([(h, FrameMessage msg)], w')).
Proof.
  intros Hwf Hc Hs Ha Hne.
  pose proof Hs as (l & Hk & Hls)%session_of_Some.
  pose proof (SendMessage_eq_staff sessionID staffID content MessageTypeText
                w l s Hk Hls Hne Ha) as Hsend. simpl in Hsend.
  set (msg := new_message sessionID staffID content MessageTypeText
                (Session.UserID s) w) in *.
  set (w' := send_world l msg w) in *.
  assert (Heff : effect w (OpSendMessage sessionID staffID content
                             MessageTypeText) w') by (by constructor).
  assert (Hwf' : wf w') by (by apply wf_send_world).
  assert (Hc' : conns_present w')
    by (refine (conns_present_step w _ w' Hwf Hc _ Heff); exact I).
  assert (Hrun : staff_event staffID (StaffEvMessage sessionID content) w
                 = Some (to_user w (Session.UserID s) (FrameMessage msg), w')).
  { unfold staff_event. unfold bind at 1. rewrite Hsend.
    rewrite (forwardMessageToUser_eq w' msg Hwf' Hc'). simpl.
    by rewrite (to_user_effect w _ w' _ _ Hwf Heff) by done. }
  exists msg, w'. split; [done|]. split; [done|]. split; [done|]. split.
  - intros Hnone. rewrite Hrun. unfold to_user, user_conn, user_of.
    by rewrite Hnone.
  - intros h Hh. rewrite Hrun. unfold to_user. by rewrite Hh.
Qed.

(** s1 answers u1: one frame, on connection 1. *)
Lemma X16_witness :
  exists msg w',
    staff_event "s1" (StaffEvMessage sid0 "hello") (scene setup)
      = Some ([(1%nat, FrameMessage msg)], w') /\
    Message.ToID msg = "u1"%string.
Proof.
  destruct (scene_ok setup (scene setup)) as [Hwf Hc].
  { vm_compute. reflexivity. }
  { repeat constructor; eexists; reflexivity. }
  destruct (X16_staff_message_event (scene setup) "s1" sid0 "hello"
              (Session.mk sid0 "u1" "s1" SessionStatusActive
                 1700000000000002000 1700000000000003000 []) Hwf Hc)
    as (msg & w' & _ & Hto & _ & _ & Hout).
  - vm_compute. reflexivity.
  - reflexivity.
  - discriminate.
  - exists msg, w'. split; [|exact Hto].
    apply Hout. vm_compute. reflexivity.
Defined.

(** X17. A "connect_user" frame from a staff member.  When the user id or
    the handler's own staff id is not registered, nothing is written, not
    even to the requester, and the registry is unchanged.  Otherwise the
    session is created and announced twice with the same frame, which
    carries the session as created: first on the user's connection, then
    on the staff member's. *)
Theorem X17_staff_connect_user_event (w : World) (staffID userID : string) :
  wf w -> conns_present w ->
  exists out w',
    staff_event staffID (StaffEvConnectUser userID) w = Some (out, w') /\
    (users w !! userID = None \/ staffs w !! staffID = None ->
     out = [] /\ w' = w) /\
    (is_Some (users w !! userID) -> is_Some (staffs w !! staffID) ->
     exists hu hs p,
       user_conn w userID = Some (Some hu) /\
       staff_conn w staffID = Some (Some hs) /\
       CreateSession userID staffID w = Some (Ok p, w') /\
       let sess := Session.mk (session_id userID staffID (clock w (ticks w)))
                     userID staffID SessionStatusActive
                     (clock w (S (ticks w))) (clock w (S (S (ticks w)))) [] in
       h_sessions w' !! p = Some sess /\
       out = [(hu, FrameSessionCreated sess); (hs, FrameSessionCreated sess)]).
Proof.
  intros Hwf Hc. unfold staff_event. unfold bind at 1.
  destruct (users w !! userID) as [ul|] eqn:Hu.
  - destruct (staffs w !! staffID) as [sl|] eqn:Hs.
    + rewrite (CreateSession_eq userID staffID w ul sl)
        by eauto using wf_users, wf_staffs.
      set (w' := new_session_world userID staffID ul sl w).
      set (sess := Session.mk (session_id userID staffID (clock w (ticks w)))
                     userID staffID SessionStatusActive
                     (clock w (S (ticks w))) (clock w (S (S (ticks w)))) []).
      assert (Heff : effect w (OpCreateSession userID staffID) w')
        by (by constructor).
      assert (Hwf' : wf w') by (by apply wf_new_session_world).
      assert (Hc' : conns_present w')
        by (refine (conns_present_step w _ w' Hwf Hc _ Heff); exact I).
      assert (Hp : h_sessions w' !! length (h_sessions w) = Some sess).
      { unfold w'. simpl. by rewrite lookup_app_r, Nat.sub_diag by lia. }
      rewrite (notifySessionCreated_eq w' _ sess Hwf' Hc' Hp).
      rewrite (to_user_effect w _ w' _ _ Hwf Heff) by done.
      rewrite (to_staff_effect w _ w' _ _ Hwf Heff) by done.
      do 2 eexists. split; [reflexivity|].
      split; [intros [?|?]; done|]. intros _ _.
      destruct (lookup_valid _ _ (wf_users w Hwf _ _ Hu)) as [usr Hul].
      destruct (lookup_valid _ _ (wf_staffs w Hwf _ _ Hs)) as [st Hsl].
      assert (Huc : user_conn w userID = Some (User.Conn usr))
        by (unfold user_conn, user_of; by rewrite Hu, Hul).
      assert (Hsc : staff_conn w staffID = Some (CSStaff.Conn st))
        by (unfold staff_conn, staff_of; by rewrite Hs, Hsl).
      destruct Hc as [Hcu Hcs].
      destruct (Hcu _ _ Huc) as [hu Hhu]. destruct (Hcs _ _ Hsc) as [hs Hhs].
      exists hu, hs, (length (h_sessions w)).
      rewrite Hhu in Huc. rewrite Hhs in Hsc.
      split; [done|]. split; [done|]. split; [done|]. split; [done|].
      simpl. unfold to_user, to_staff. by rewrite Huc, Hsc.
    + erewrite CreateSession_err_staff by eauto.
      do 2 eexists. split; [reflexivity|]. split; [done|].
      intros _ [? ?]; done.
  - rewrite CreateSession_err_user by done.
    do 2 eexists. split; [reflexivity|]. split; [done|].
    intros [? ?]; done.
Qed.

(** s2 asks for u1, who is in a session with s1 already: both are told of
    the new session, u1 on connection 1 and s2 on connection 3. *)
Lemma X17_witness :
  exists sess w',
    staff_event "s2" (StaffEvConnectUser "u1") (scene setup)
      = Some ([(1%nat, FrameSessionCreated sess);
               (3%nat, FrameSessionCreated sess)], w') /\
    Session.ID sess = "u1_s2_20231114221320"%string.
Proof.
  destruct (scene_ok setup (scene setup)) as [Hwf Hc].
  { vm_compute. reflexivity. }
  { repeat constructor; eexists; reflexivity. }
  destruct (X17_staff_connect_user_event (scene setup) "s2" "u1" Hwf Hc)
    as (out & w' & Hrun & _ & Hok).
  destruct Hok as (hu & hs & p & Hhu & Hhs & _ & _ & Hout).
  - vm_compute. eexists. reflexivity.
  - vm_compute. eexists. reflexivity.
  - assert (Hhu' : user_conn (scene setup) "u1" = Some (Some 1%nat))
      by (vm_compute; reflexivity).
    assert (Hhs' : staff_conn (scene setup) "s2" = Some (Some 3%nat))
      by (vm_compute; reflexivity).
    rewrite Hhu' in Hhu. rewrite Hhs' in Hhs.
    injection Hhu as <-. injection Hhs as <-.
    eexists _, w'. split; [rewrite Hrun, Hout; reflexivity|].
    vm_compute. reflexivity.
Defined.

(** X18. A "transfer_session" frame from a staff member.  When
    [TransferSession] fails nothing is written and the registry is
    unchanged.  When it succeeds, one frame that names the requester as the
    old staff member is written to the session's user, to the requester and
    to the new staff member, in this order, each if registered.  The
    requester need not be the staff member the session was assigned to, and
    that member is not written to unless it is the requester or the new
    one. *)
Theorem X18_staff_transfer_event (w : World) (staffID sessionID newStaffID : string) :
  wf w -> conns_present w ->
  exists out w',
    staff_event staffID (StaffEvTransferSession sessionID newStaffID) w
      = Some (out, w') /\
    (forall e, TransferSession sessionID newStaffID w = Some (Some e, w) ->
     out = [] /\ w' = w) /\
    (forall s,
       session_of w sessionID = Some s ->
       is_Some (staffs w !! newStaffID) ->
       is_Some (staffs w !! Session.StaffID s) ->
       let data := FrameSessionTransferred sessionID staffID newStaffID in
       TransferSession sessionID newStaffID w = Some (None, w') /\
       session_of w' sessionID =
         Some (Session.with_UpdateAt (clock w (ticks w))
                 (Session.with_StaffID newStaffID s)) /\
       out = to_user w (Session.UserID s) data ++
             to_staff w staffID data ++ to_staff w newStaffID data /\
       exists hn, to_staff w newStaffID data = [(hn, data)]).
Proof.
  intros Hwf Hc. unfold staff_event. unfold bind at 1.
  destruct (sessions w !! sessionID) as [l|] eqn:Hk.
  - destruct (lookup_valid _ _ (wf_sessions w Hwf _ _ Hk)) as [s Hl].
    assert (Hs : session_of w sessionID = Some s) by (apply session_of_Some; eauto).
    destruct (staffs w !! newStaffID) as [nl|] eqn:Hb.
    + destruct (staffs w !! Session.StaffID s) as [ol|] eqn:Ho.
      * rewrite (TransferSession_eq sessionID newStaffID w l nl s ol)
          by eauto using wf_staffs.
        set (w' := transfer_world sessionID newStaffID l ol nl w).
        assert (Heff : effect w (OpTransferSession sessionID newStaffID) w')
          by (by econstructor).
        assert (Hwf' : wf w') by (by apply wf_transfer_world).
        assert (Hc' : conns_present w')
          by (refine (conns_present_step w _ w' Hwf Hc _ Heff); exact I).
        rewrite (notifySessionTransferred_eq w' _ _ _ Hwf' Hc').
        assert (Hs' : session_of w' sessionID =
                  Some (Session.with_UpdateAt (clock w (ticks w))
                          (Session.with_StaffID newStaffID s))).
        { unfold w'. rewrite (session_of_transfer_world w _ _ l ol nl _ Hwf Hk).
          rewrite decide_True by done. by rewrite Hs. }
        rewrite Hs'. simpl.
        rewrite (to_user_effect w _ w' _ _ Hwf Heff) by done.
        rewrite !(to_staff_effect w _ w' _ _ Hwf Heff) by done.
        do 2 eexists. split; [reflexivity|].
        split; [intros e [=]|].
        intros s0 Hs0 _ _. rewrite Hs in Hs0. injection Hs0 as <-.
        split; [done|]. split; [done|]. split; [done|].
        destruct (lookup_valid _ _ (wf_staffs w Hwf _ _ Hb)) as [st Hsl].
        assert (Hsc : staff_conn w newStaffID = Some (CSStaff.Conn st))
          by (unfold staff_conn, staff_of; by rewrite Hb, Hsl).
        destruct Hc as [_ Hcs]. destruct (Hcs _ _ Hsc) as [hn Hhn].
        exists hn. unfold to_staff. by rewrite Hsc, Hhn.
      * erewrite TransferSession_err_old by eauto.
        do 2 eexists. split; [reflexivity|]. split; [done|].
        intros s0 Hs0 _ [? ?]. rewrite Hs in Hs0. injection Hs0 as <-. congruence.
    + erewrite TransferSession_err_new by eauto.
      do 2 eexists. split; [reflexivity|]. split; [done|].
      intros s0 _ [? ?]; done.
  - rewrite TransferSession_err_session by done.
    do 2 eexists. split; [reflexivity|]. split; [done|].
    intros s0 Hs0. unfold session_of in Hs0. by rewrite Hk in Hs0.
Qed.

(** s2 takes over the session of u1 from s1: u1 is told on connection 1,
    s2 twice on connection 3, with s2 named as the old staff member; s1, on
    connection 2, is not told. *)
Lemma X18_witness :
  exists w',
    staff_event "s2" (StaffEvTransferSession sid0 "s2") (scene setup)
      = Some ([(1%nat, FrameSessionTransferred sid0 "s2" "s2");
               (3%nat, FrameSessionTransferred sid0 "s2" "s2");
               (3%nat, FrameSessionTransferred sid0 "s2" "s2")], w') /\
    staff_conn (scene setup) "s1" = Some (Some 2%nat).
Proof.
  destruct (scene_ok setup (scene setup)) as [Hwf Hc].
  { vm_compute. reflexivity. }
  { repeat constructor; eexists; reflexivity. }
  destruct (X18_staff_transfer_event (scene setup) "s2" sid0 "s2" Hwf Hc)
    as (out & w' & Hrun & _ & Hok).
  destruct (Hok (Session.mk sid0 "u1" "s1" SessionStatusActive
                   1700000000000002000 1700000000000003000 []))
    as (_ & _ & Hout & _).
  - vm_compute. reflexivity.
  - vm_compute. eexists. reflexivity.
  - vm_compute. eexists. reflexivity.
  - exists w'. split; [|vm_compute; reflexivity].
    rewrite Hrun, Hout. vm_compute. reflexivity.
Defined.

(** ** Handlers side by side *)

Lemma wf_set_closed f w : wf w -> wf (set_closed f w).
Proof. intros [Hu Hs Hg Hse Hid Hss Hsg Hst Hinj]. by constructor. Qed.

Lemma effect_groups w o w' :
  effect w o w' -> (forall g n, o <> OpCreateGroup g n) -> groups w' = groups w.
Proof.
  intros Heff Hno.
  destruct Heff as [|g n| | | | | | |a sl st Ha Hst|]; try done.
  - by destruct (Hno g n).
  - by destruct (disconnect_staff_world_frame a sl st w) as (_&_&_&_&Eg&_).
Qed.

Lemma kept_refl w : wf w -> conns_present w -> kept w w.
Proof. intros. split; [done|]. split; [done|]. split; [lia|]. split; done. Qed.

Lemma kept_call o w :
  wf w -> conns_present w -> with_conn o -> (forall g n, o <> OpCreateGroup g n) ->
  exists w', exec o w = Some (tt, w') /\ effect w o w' /\ kept w w'.
Proof.
  intros Hwf Hc Hwith Hno.
  destruct (call_ok o w Hwf Hc Hwith) as (w' & Hexec & Heff & Hwf' & Hc' & Hlen).
  exists w'. split; [done|]. split; [done|].
  split; [done|]. split; [done|]. split; [done|].
  split; [by eapply effect_groups|].
  intros l usr Hl Hout. by apply (effect_unregistered_user w o w').
Qed.

Lemma user_event_kept user userID e w :
  wf w -> conns_present w -> (user < length (h_users w))%nat ->
  exists out w', user_event user userID e w = Some (out, w') /\ kept w w'.
Proof.
  intros Hwf Hc Hp. destruct e as [content|]; simpl.
  2: { do 2 eexists. split; [reflexivity|]. by apply kept_refl. }
  destruct (lookup_valid _ _ Hp) as [usr Hl].
  unfold bind at 1, load_user at 1. rewrite Hl.
  destruct (decide (User.SessionID usr <> "")) as [Hne|_].
  2: { do 2 eexists. split; [reflexivity|]. by apply kept_refl. }
  destruct (kept_call (OpSendMessage (User.SessionID usr) userID content
                         MessageTypeText) w Hwf Hc I)
    as (w' & Hexec & _ & Hk); [done|].
  apply call_exec in Hexec as [r Hr]. unfold bind at 1. rewrite Hr.
  destruct r as [msg|err].
  - destruct Hk as (Hwf' & Hc' & ?). rewrite forwardMessageToStaff_eq by done.
    do 2 eexists. split; [reflexivity|]. by split.
  - do 2 eexists. split; [reflexivity|]. done.
Qed.

Lemma staff_event_kept staffID e w :
  wf w -> conns_present w ->
  exists out w', staff_event staffID e w = Some (out, w') /\ kept w w'.
Proof.
  intros Hwf Hc. destruct e as [userID|sessionID newStaffID|sessionID content|]; simpl.
  - destruct (kept_call (OpCreateSession userID staffID) w Hwf Hc I)
      as (w' & Hexec & _ & Hk); [done|].
    unfold bind at 1.
    destruct (users w !! userID) as [ul|] eqn:Hu.
    + destruct (staffs w !! staffID) as [sl|] eqn:Hs.
      * simpl in Hexec. unfold bind at 1 in Hexec.
        rewrite (CreateSession_eq userID staffID w ul sl) in *
          by eauto using wf_users, wf_staffs.
        simpl in Hexec. injection Hexec as <-.
        destruct Hk as (Hwf' & Hc' & ?).
        erewrite notifySessionCreated_eq; [|done|done|].
        -- do 2 eexists. split; [reflexivity|]. by split.
        -- simpl. by rewrite lookup_app_r, Nat.sub_diag by lia.
      * erewrite CreateSession_err_staff by eauto.
        do 2 eexists. split; [reflexivity|]. by apply kept_refl.
    + rewrite CreateSession_err_user by done.
      do 2 eexists. split; [reflexivity|]. by apply kept_refl.
  - destruct (kept_call (OpTransferSession sessionID newStaffID) w Hwf Hc I)
      as (w' & Hexec & _ & Hk); [done|].
    apply call_exec in Hexec as [r Hr]. unfold bind at 1. rewrite Hr.
    destruct r as [err|].
    + do 2 eexists. split; [reflexivity|]. done.
    + destruct Hk as (Hwf' & Hc' & ?). rewrite notifySessionTransferred_eq by done.
      do 2 eexists. split; [reflexivity|]. by split.
  - destruct (kept_call (OpSendMessage sessionID staffID content MessageTypeText)
                w Hwf Hc I) as (w' & Hexec & _ & Hk); [done|].
    apply call_exec in Hexec as [r Hr]. unfold bind at 1. rewrite Hr.
    destruct r as [msg|err].
    + destruct Hk as (Hwf' & Hc' & ?). rewrite forwardMessageToUser_eq by done.
      do 2 eexists. split; [reflexivity|]. by split.
    + do 2 eexists. split; [reflexivity|]. done.
  - do 2 eexists. split; [reflexivity|]. by apply kept_refl.
Qed.

Lemma user_open_kept userID name upgrade w :
  wf w -> conns_present w ->
  exists r w', user_open userID name upgrade w = Some (r, w') /\ kept w w' /\
    forall user, r = Some user -> (user < length (h_users w'))%nat.
Proof.
  intros Hwf Hc. unfold user_open.
  destruct (decide (userID = "" \/ name = "")) as [_|_].
  { do 2 eexists. split; [reflexivity|]. split; [by apply kept_refl|done]. }
  destruct upgrade as [conn|].
  2: { do 2 eexists. split; [reflexivity|]. split; [by apply kept_refl|done]. }
  destruct (kept_call (OpConnectUser userID name (Some conn)) w Hwf Hc)
    as (w' & Hexec & _ & Hk); [by eexists|done|].
  simpl in Hexec. unfold bind at 1 in Hexec. unfold bind at 1.
  rewrite ConnectUser_eq in *. simpl in Hexec. injection Hexec as <-.
  do 2 eexists. split; [reflexivity|]. split; [done|].
  intros user [= <-]. simpl. rewrite length_app. simpl. lia.
Qed.

Lemma staff_open_kept staffID name groupID upgrade w :
  wf w -> conns_present w ->
  exists r w', staff_open staffID name groupID upgrade w = Some (r, w') /\ kept w w'.
Proof.
  intros Hwf Hc. unfold staff_open.
  destruct (decide (staffID = "" \/ name = "" \/ groupID = "")) as [_|_].
  { do 2 eexists. split; [reflexivity|]. by apply kept_refl. }
  destruct upgrade as [conn|].
  2: { do 2 eexists. split; [reflexivity|]. by apply kept_refl. }
  destruct (kept_call (OpConnectStaff staffID name groupID (Some conn)) w Hwf Hc)
    as (w' & Hexec & _ & Hk); [by eexists|done|].
  apply call_exec in Hexec as [r Hr]. unfold bind at 1. rewrite Hr.
  destruct r as [p|err].
  - do 2 eexists. split; [reflexivity|]. done.
  - do 2 eexists. split; [reflexivity|].
    destruct Hk as (Hwf' & Hc' & ? & ? & ?).
    split; [by apply wf_set_closed|]. split; [done|]. split; [done|]. split; done.
Qed.

Lemma handlers_valid_kept g w hs out :
  handlers_valid g -> kept (service g) w ->
  (forall i userID user,
     hs !! i = Some (Some (UserHandler userID user)) ->
     handlers g !! i = Some (Some (UserHandler userID user)) \/
     (user < length (h_users w))%nat) ->
  handlers_valid (mkGateway w hs out).
Proof.
  intros Hv (_ & _ & Hlen & _ & _) Hhs i userID user Hi. simpl.
  destruct (Hhs i userID user Hi) as [Hold|?]; [|done].
  apply Hv in Hold. lia.
Qed.

Lemma gateway_step_ok a g :
  gateway_ok g ->
  exists g', gateway_step a g = Some g' /\ gateway_ok g' /\
             kept (service g) (service g').
Proof.
  intros (Hwf & Hc & Hv).
  assert (Hsame : exists g', Some g = Some g' /\ gateway_ok g' /\
                    kept (service g) (service g')).
  { exists g. split; [done|]. split; [by split|by apply kept_refl]. }
  destruct a as [userID name upgrade|staffID name groupID upgrade|i e|i e|i]; simpl.
  - destruct (user_open_kept userID name upgrade (service g) Hwf Hc)
      as (r & w' & -> & Hk & Hr).
    destruct r as [user|]; eexists; (split; [reflexivity|]);
      (split; [|exact Hk]);
      (split; [by destruct Hk|split; [by destruct Hk as (_&?&_)|]]).
    + eapply handlers_valid_kept; [done|done|].
      intros j u p Hj. apply lookup_app_Some in Hj as [Hj|[_ Hj]]; [by left|].
      right. apply list_lookup_singleton_Some in Hj as [_ [= <- <-]]. by apply Hr.
    + eapply handlers_valid_kept; [done|done|]. intros; by left.
  - destruct (staff_open_kept staffID name groupID upgrade (service g) Hwf Hc)
      as (r & w' & -> & Hk).
    destruct r; eexists; (split; [reflexivity|]);
      (split; [|exact Hk]);
      (split; [by destruct Hk|split; [by destruct Hk as (_&?&_)|]]).
    + eapply handlers_valid_kept; [done|done|].
      intros j u p Hj. apply lookup_app_Some in Hj as [Hj|[_ Hj]]; [by left|].
      apply list_lookup_singleton_Some in Hj as [_ [=]].
    + eapply handlers_valid_kept; [done|done|]. intros; by left.
  - destruct (handlers g !! i) as [[[userID user|staffID]|]|] eqn:Hi; try done.
    destruct (user_event_kept user userID e (service g) Hwf Hc (Hv _ _ _ Hi))
      as (out & w' & -> & Hk).
    eexists. split; [reflexivity|]. split; [|exact Hk].
    split; [by destruct Hk|split; [by destruct Hk as (_&?&_)|]].
    eapply handlers_valid_kept; [done|done|]. intros; by left.
  - destruct (handlers g !! i) as [[[userID user|staffID]|]|] eqn:Hi; try done.
    destruct (staff_event_kept staffID e (service g) Hwf Hc)
      as (out & w' & -> & Hk).
    eexists. split; [reflexivity|]. split; [|exact Hk].
    split; [by destruct Hk|split; [by destruct Hk as (_&?&_)|]].
    eapply handlers_valid_kept; [done|done|]. intros; by left.
  - destruct (handlers g !! i) as [[[userID user|staffID]|]|] eqn:Hi; try done.
    + destruct (kept_call (OpDisconnectUser userID) (service g) Hwf Hc I)
        as (w' & Hexec & _ & Hk); [done|].
      simpl in Hexec. rewrite Hexec.
      eexists. split; [reflexivity|]. split; [|exact Hk].
      split; [by destruct Hk|split; [by destruct Hk as (_&?&_)|]].
      eapply handlers_valid_kept; [done|done|].
      intros j u p Hj. left.
      destruct (decide (i = j)) as [<-|Hne].
      * rewrite list_lookup_insert_eq in Hj by (by eapply lookup_lt_Some). done.
      * by rewrite list_lookup_insert_ne in Hj.
    + destruct (kept_call (OpDisconnectStaff staffID) (service g) Hwf Hc I)
        as (w' & Hexec & _ & Hk); [done|].
      simpl in Hexec. rewrite Hexec.
      eexists. split; [reflexivity|]. split; [|exact Hk].
      split; [by destruct Hk|split; [by destruct Hk as (_&?&_)|]].
      eapply handlers_valid_kept; [done|done|].
      intros j u p Hj. left.
      destruct (decide (i = j)) as [<-|Hne].
      * rewrite list_lookup_insert_eq in Hj by (by eapply lookup_lt_Some). done.
      * by rewrite list_lookup_insert_ne in Hj.
Qed.

Lemma kept_trans w w1 w2 : kept w w1 -> kept w1 w2 -> kept w w2.
Proof.
  intros (_ & _ & Hlen1 & Hg1 & Ho1) (Hwf2 & Hc2 & Hlen2 & Hg2 & Ho2).
  split; [done|]. split; [done|]. split; [lia|]. split; [congruence|].
  intros l usr Hl Hout. destruct (Ho1 l usr Hl Hout) as [Hl1 Hout1].
  by apply Ho2.
Qed.

Lemma gateway_run_ok acts : forall g,
  gateway_ok g ->
  exists g', gateway_run acts g = Some g' /\ gateway_ok g' /\
             kept (service g) (service g').
Proof.
  induction acts as [|a acts IH]; intros g Hok; simpl.
  { exists g. split; [done|]. split; [done|]. destruct Hok as (?&?&_).
    by apply kept_refl. }
  destruct (gateway_step_ok a g Hok) as (g1 & -> & Hok1 & Hk1).
  destruct (IH g1 Hok1) as (g' & Hrun & Hok' & Hk').
  exists g'. split; [done|]. split; [done|]. by eapply kept_trans.
Qed.

Lemma gateway_start_ok clk gs : gateway_ok (gateway_start clk gs).
Proof.
  unfold gateway_start, gateway_ok. simpl.
  split; [|split; [|intros i u p Hi; simpl in Hi; by rewrite lookup_nil in Hi]].
  - induction gs as [|g gs IH] using rev_ind; simpl; [apply wf_init|].
    rewrite foldl_app. simpl.
    eapply wf_CreateGroup; [exact IH|apply CreateGroup_eq].
  - assert (H : wf (foldl (fun w g => create_group_world g.1 g.2 w)
                      (NewMessageGateway clk) gs) /\
                conns_present (foldl (fun w g => create_group_world g.1 g.2 w)
                      (NewMessageGateway clk) gs)); [|by destruct H].
    induction gs as [|g gs IH] using rev_ind; simpl.
    { split; [apply wf_init|apply conns_present_init]. }
    rewrite foldl_app. simpl. destruct IH as [Hwf Hc]. split.
    + eapply wf_CreateGroup; [exact Hwf|apply CreateGroup_eq].
    + refine (conns_present_step _ (OpCreateGroup g.1 g.2) _ Hwf Hc I _).
      constructor.
Qed.

(** X19. However the steps of its handlers are interleaved, a gateway
    started with [NewMessageGateway()] and any groups created in its
    registry never panics: no handler writes to a nil connection or reads
    through a dangling pointer.  Every user and staff member it has
    registered has a connection, and its group table is the one it started
    with: no request creates or removes a group. *)
Theorem X19_gateway_runs_without_panic
    (clk : nat -> Z) (gs : list (string * string)) (acts : list Action) :
  exists g',
    gateway_run acts (gateway_start clk gs) = Some g' /\
    conns_present (service g') /\
    groups (service g') = groups (service (gateway_start clk gs)).
Proof.
  destruct (gateway_run_ok acts (gateway_start clk gs) (gateway_start_ok clk gs))
    as (g' & Hrun & (_ & Hc & _) & (_ & _ & _ & Hg & _)).
  exists g'. done.
Qed.

Lemma deserted_step a g :
  gateway_ok g -> deserted g ->
  exists g',
    gateway_step a g = Some g' /\ deserted g' /\ sent g' = sent g /\
    (forall c, c ∈ closed (service g) -> c ∈ closed (service g')) /\
    (forall conn, staff_request_served a conn -> conn ∈ closed (service g')).
Proof.
  intros (Hwf & Hc & Hv) (Hg & Hs & Hse & Hid & Hno).
  assert (Hsame : exists g',
            Some g = Some g' /\ deserted g' /\ sent g' = sent g /\
            (forall c, c ∈ closed (service g) -> c ∈ closed (service g')) /\
            (forall conn, False -> conn ∈ closed (service g'))).
  { exists g. split; [done|]. split; [by repeat split|]. done. }
  destruct a as [userID name upgrade|staffID name groupID upgrade|i e|i e|i]; simpl.
  - assert (Hnot : forall conn, ~ staff_request_served
                     (UserRequest userID name upgrade) conn)
      by (intros conn (?&?&?&[=]&_)).
    unfold user_open.
    destruct (decide (userID = "" \/ name = "")) as [_|_].
    { exists g. split; [by destruct g|]. split; [by repeat split|].
      split; [done|]. split; [done|]. intros conn H. by destruct (Hnot conn). }
    destruct upgrade as [conn|].
    2: { exists g. split; [by destruct g|]. split; [by repeat split|].
         split; [done|]. split; [done|]. intros conn H. by destruct (Hnot conn). }
    unfold bind at 1. rewrite ConnectUser_eq. simpl.
    eexists. split; [reflexivity|]. simpl.
    split; [|split; [done|split; [done|intros c H; by destruct (Hnot c)]]].
    split; [done|]. split; [done|]. split; [done|]. split.
    + intros l usr Hl. apply snoc_lookup_Some in Hl as [Hl|[_ ->]]; [by eapply Hid|done].
    + intros j a Hj. apply lookup_app_Some in Hj as [Hj|[_ Hj]]; [by eapply Hno|].
      by apply list_lookup_singleton_Some in Hj as [_ [=]].
  - unfold staff_open.
    destruct (decide (staffID = "" \/ name = "" \/ groupID = "")) as [Hbad|Hgood].
    { exists g. split; [by destruct g|]. split; [by repeat split|].
      split; [done|]. split; [done|].
      intros conn (a0 & n0 & g0 & Heq & H1 & H2 & H3).
      injection Heq as <- <- <- _. destruct Hbad as [?|[?|?]]; done. }
    destruct upgrade as [conn|].
    2: { exists g. split; [by destruct g|]. split; [by repeat split|].
         split; [done|]. split; [done|]. intros conn (?&?&?&[=]&_). }
    unfold bind at 1. rewrite ConnectStaff_err by (rewrite Hg; apply lookup_empty).
    simpl. eexists. split; [reflexivity|]. simpl.
    split; [by repeat split|]. split; [done|]. split.
    + intros c Hin. apply elem_of_app. by left.
    + intros c (?&?&?&[= _ _ _ <-]&_). apply elem_of_app. right. by left.
  - destruct (handlers g !! i) as [[[userID user|staffID]|]|] eqn:Hi;
      try (destruct Hsame as (g' & ? & ? & ? & ? & _); exists g';
           repeat (split; [done|]); by intros conn (?&?&?&[=]&_)).
    destruct (lookup_valid _ _ (Hv _ _ _ Hi)) as [usr Hl].
    assert (Hev : user_event user userID e (service g) = Some ([], service g)).
    { destruct e as [content|]; [|done]. simpl.
      unfold bind at 1, load_user at 1. rewrite Hl.
      rewrite decide_False; [done|]. intros Hne. apply Hne. by eapply Hid. }
    rewrite Hev. eexists. split; [reflexivity|]. simpl.
    split; [by repeat split|]. split; [by rewrite app_nil_r|].
    split; [done|]. by intros conn (?&?&?&[=]&_).
  - destruct (handlers g !! i) as [[[userID user|staffID]|]|] eqn:Hi;
      try (destruct Hsame as (g' & ? & ? & ? & ? & _); exists g';
           repeat (split; [done|]); by intros conn (?&?&?&[=]&_)).
    by destruct (Hno i staffID).
  - destruct (handlers g !! i) as [[[userID user|staffID]|]|] eqn:Hi;
      try (destruct Hsame as (g' & ? & ? & ? & ? & _); exists g';
           repeat (split; [done|]); by intros conn (?&?&?&[=]&_)).
    2: by destruct (Hno i staffID).
    assert (Hnoh : forall j a, <[i := None]> (handlers g) !! j
                               <> Some (Some (StaffHandler a))).
    { intros j a Hj. destruct (decide (i = j)) as [<-|Hne].
      - rewrite list_lookup_insert_eq in Hj by (by eapply lookup_lt_Some). done.
      - rewrite list_lookup_insert_ne in Hj by done. by eapply Hno. }
    destruct (users (service g) !! userID) as [ul|] eqn:Hu.
    + destruct (lookup_valid _ _ (wf_users _ Hwf _ _ Hu)) as [usr Hl].
      rewrite (DisconnectUser_eq userID (service g) ul usr Hu Hl).
      eexists. split; [reflexivity|]. simpl.
      split; [|split; [done|split; [|by intros conn (?&?&?&[=]&_)]]].
      * split; [done|]. split; [done|]. split; [done|]. split; [|done].
        intros l usr' Hl'. apply alter_lookup_Some in Hl' as (x & Hx & Hy).
        destruct Hy as [[_ ->]|[_ ->]]; simpl; by eapply Hid.
      * intros c Hin. unfold closed_conns. destruct (User.Conn usr); [|done].
        apply elem_of_app. by left.
    + rewrite DisconnectUser_absent by done.
      eexists. split; [reflexivity|]. simpl.
      split; [by repeat split|]. split; [done|]. split; [done|].
      by intros conn (?&?&?&[=]&_).
Qed.

(** X20. A gateway as [NewMessageGateway()] makes it has no group, and no
    request creates one.  So, whatever requests and frames arrive and
    however the handlers interleave: every staff connection that gets as
    far as [ConnectStaff] is refused and closed, no staff member and no
    session is ever registered, every frame from a user is dropped, and
    nothing is ever written to any connection. *)
Theorem X20_no_group_no_service (clk : nat -> Z) (acts : list Action) :
  exists g',
    gateway_run acts (mkGateway (NewMessageGateway clk) [] []) = Some g' /\
    sent g' = [] /\
    staffs (service g') = ∅ /\
    sessions (service g') = ∅ /\
    (forall a conn, a ∈ acts -> staff_request_served a conn ->
                    conn ∈ closed (service g')).
Proof.
  assert (Hgen : forall acts g, gateway_ok g -> deserted g ->
            exists g', gateway_run acts g = Some g' /\ deserted g' /\
              sent g' = sent g /\
              (forall c, c ∈ closed (service g) -> c ∈ closed (service g')) /\
              (forall a conn, a ∈ acts -> staff_request_served a conn ->
                              conn ∈ closed (service g'))).
  { clear acts. induction acts as [|a acts IH]; intros g Hok Hd; simpl.
    { exists g. split; [done|]. split; [done|]. split; [done|]. split; [done|].
      intros a conn Ha. by apply elem_of_nil in Ha. }
    destruct (deserted_step a g Hok Hd) as (g1 & Hstep & Hd1 & Hs1 & Hc1 & Hreq1).
    destruct (gateway_step_ok a g Hok) as (g1' & Hstep' & Hok1 & _).
    rewrite Hstep in Hstep'. injection Hstep' as <-. rewrite Hstep.
    destruct (IH g1 Hok1 Hd1) as (g' & Hrun & Hd' & Hs' & Hc' & Hreq').
    exists g'. split; [done|]. split; [done|]. split; [congruence|].
    split; [intros c Hin; by apply Hc', Hc1|].
    intros a' conn Ha' Hserved. apply elem_of_cons in Ha' as [->|Ha'].
    - by apply Hc', Hreq1.
    - by eapply Hreq'. }
  destruct (Hgen acts (mkGateway (NewMessageGateway clk) [] []))
    as (g' & Hrun & (_ & Hs & Hse & _) & Hsent & _ & Hreq).
  - apply (gateway_start_ok clk []).
  - split; [done|]. split; [done|]. split; [done|]. split.
    + intros l usr Hl. simpl in Hl. by rewrite lookup_nil in Hl.
    + intros i a Hi. simpl in Hi. by rewrite lookup_nil in Hi.
  - exists g'. done.
Qed.

(** ** A handler from request to return *)

(** X21. A staff request for a group that is not in the group table is
    turned away after the upgrade: the new connection is closed and the
    handler returns without reading a frame.  Nothing else changes; in
    particular [DisconnectStaff] is not called, so a staff member already
    registered under the same id stays registered.  A request whose upgrade
    fails leaves no trace at all. *)
Theorem X21_staff_request_for_unknown_group
    (w : World) (staffID name groupID : string) (conn : nat)
    (events : list StaffEvent) :
  staffID <> "" -> name <> "" -> groupID <> "" ->
  groups w !! groupID = None ->
  HandleStaffConnection staffID name groupID (Some conn) events w
    = Some ([], set_closed (fun cl => cl ++ [conn]) w) /\
  staff_of (set_closed (fun cl => cl ++ [conn]) w) staffID = staff_of w staffID /\
  HandleStaffConnection staffID name groupID None events w = Some ([], w).
Proof.
  intros H1 H2 H3 Hg. unfold HandleStaffConnection, staff_open.
  rewrite decide_False by (intros [?|[?|?]]; done).
  split; [|split; [done|by destruct (decide _)]].
  unfold bind at 1. unfold bind at 1. by rewrite ConnectStaff_err.
Qed.

(** bob asks to join a group nobody has created, while registered as s1. *)
Lemma X21_witness :
  HandleStaffConnection "s1" "bob" "g9" (Some 8%nat)
    [StaffEvConnectUser "u1"; StaffEvMessage sid0 "hello"] (scene setup)
    = Some ([], set_closed (fun cl => cl ++ [8%nat]) (scene setup)) /\
  staff_conn (set_closed (fun cl => cl ++ [8%nat]) (scene setup)) "s1"
    = Some (Some 2%nat).
Proof.
  destruct (X21_staff_request_for_unknown_group (scene setup) "s1" "bob" "g9" 8
              [StaffEvConnectUser "u1"; StaffEvMessage sid0 "hello"])
    as (Hrun & Hstaff & _).
  - discriminate.
  - discriminate.
  - discriminate.
  - vm_compute. reflexivity.
  - split; [exact Hrun|]. unfold staff_conn. rewrite Hstaff.
    vm_compute. reflexivity.
Defined.

Lemma for_each_out_nil {A} (body : A -> M (list (nat * Frame))) (xs : list A) w :
  (forall x, x ∈ xs -> body x w = Some ([], w)) ->
  for_each_out xs body w = Some ([], w).
Proof.
  induction xs as [|x xs IH]; intros Hb; [done|]. simpl.
  unfold bind at 1. rewrite (Hb x) by left.
  unfold bind at 1. rewrite IH by (intros y Hy; apply Hb; by right). done.
Qed.

(** X22. A user connection served from request to return while no other
    handler takes a step: the user is registered, every frame it sends is
    dropped (its object has no session id, and only a staff handler can
    give it one), nothing is written, and at the end the id is
    unregistered and the connection closed.  With an empty id or name, or
    a failed upgrade, the handler returns at once and the registry is
    untouched. *)
Theorem X22_user_connection_alone
    (w : World) (userID name : string) (conn : nat) (events : list UserEvent) :
  userID <> "" -> name <> "" ->
  exists w',
    HandleUserConnection userID name (Some conn) events w = Some ([], w') /\
    users w' !! userID = None /\
    h_users w' !! length (h_users w) =
      Some (User.mk userID name UserStatusOffline (Some conn)
              (clock w (ticks w)) "") /\
    closed w' = closed w ++ [conn] /\
    sessions w' = sessions w /\ h_sessions w' = h_sessions w /\
    ticks w' = S (ticks w) /\
    HandleUserConnection "" name (Some conn) events w = Some ([], w) /\
    HandleUserConnection userID "" (Some conn) events w = Some ([], w) /\
    HandleUserConnection userID name None events w = Some ([], w).
Proof.
  intros H1 H2.
  set (usr := User.mk userID name UserStatusOnline (Some conn) (clock w (ticks w)) "").
  pose proof (ConnectUser_eq userID name (Some conn) w) as Hcu.
  fold usr in Hcu. set (w1 := set_users _ _) in Hcu.
  assert (Hl : h_users w1 !! length (h_users w) = Some usr)
    by (unfold w1; simpl; by rewrite lookup_app_r, Nat.sub_diag by lia).
  assert (Hu : users w1 !! userID = Some (length (h_users w)))
    by (unfold w1; simpl; apply lookup_insert_eq).
  exists (disconnect_user_world userID (length (h_users w)) (Some conn) w1).
  split.
  { unfold HandleUserConnection, user_open.
    rewrite decide_False by (intros [?|?]; done).
    unfold bind at 1. unfold bind at 1. rewrite Hcu.
    cbv beta iota zeta. unfold ret at 1. cbv beta iota zeta.
    unfold bind at 1. rewrite for_each_out_nil.
    - unfold bind at 1.
      by rewrite (DisconnectUser_eq userID w1 (length (h_users w)) usr Hu Hl).
    - intros e _. destruct e as [content|]; [|done]. simpl.
      unfold bind at 1, load_user at 1. rewrite Hl. done. }
  split; [simpl; apply lookup_delete_eq|].
  split.
  { unfold disconnect_user_world, set_users, set_closed, set_h_users.
    cbn [h_users]. fold (h_users w1). by rewrite list_lookup_alter_eq, Hl. }
  split; [done|]. split; [done|]. split; [done|]. split; [done|].
  unfold HandleUserConnection, user_open.
  split; [by rewrite decide_True by (by left)|].
  split; [by rewrite decide_True by (by right)|].
  by rewrite decide_False by (intros [?|?]; done).
Qed.

(** dave connects, writes twice and leaves while nobody else moves. *)
Lemma X22_witness :
  exists w',
    HandleUserConnection "u2" "dave" (Some 9%nat)
      [UserEvMessage "hi"; UserEvMessage "anyone?"] (scene setup) = Some ([], w') /\
    users w' !! "u2" = None /\
    closed w' = [9%nat].
Proof.
  destruct (X22_user_connection_alone (scene setup) "u2" "dave" 9
              [UserEvMessage "hi"; UserEvMessage "anyone?"])
    as (w' & Hrun & Hgone & _ & Hcl & _).
  - discriminate.
  - discriminate.
  - exists w'. split; [exact Hrun|]. split; [exact Hgone|].
    rewrite Hcl. vm_compute. reflexivity.
Defined.

(** X23. A user handler whose object is not the one registered under any
    id (a later connection took over its id, or another handler's return
    unregistered it) and has no session id is deaf and mute from then on:
    however the handlers go on, its object never changes, so every frame
    it reads is dropped, without a write and without a change to the
    registry, also after a session has been created for its id. *)
Theorem X23_replaced_user_handler_is_cut_off
    (acts : list Action) (g : Gateway) (userID : string) (user : nat)
    (usr : User.t) (e : UserEvent) :
  gateway_ok g ->
  h_users (service g) !! user = Some usr ->
  User.SessionID usr = "" ->
  (forall u, users (service g) !! u <> Some user) ->
  exists g',
    gateway_run acts g = Some g' /\
    h_users (service g') !! user = Some usr /\
    user_event user userID e (service g') = Some ([], service g').
Proof.
  intros Hok Hl Hid Hout.
  destruct (gateway_run_ok acts g Hok) as (g' & Hrun & _ & (_ & _ & _ & _ & Ho)).
  destruct (Ho user usr Hl Hout) as [Hl' _].
  exists g'. split; [done|]. split; [done|].
  destruct e as [content|]; [|done]. simpl.
  unfold bind at 1, load_user at 1. rewrite Hl'.
  rewrite decide_False; [done|]. intros Hne. by apply Hne.
Qed.

(** alice connects twice under u1; s1 then opens a session with u1.  The
    registered u1 has the session; the first handler still drops what it
    reads. *)
Lemma X23_witness :
  exists g',
    gateway_run [ StaffRequest "s1" "bob" "g1" (Some 2%nat);
                  StaffData 2 (StaffEvConnectUser "u1") ] twice_connected
      = Some g' /\
    user_event 0 "u1" (UserEvMessage "hi") (service g') = Some ([], service g') /\
    User.SessionID <$> user_of (service g') "u1" = Some "u1_s1_20231114221320"%string.
Proof.
  destruct (X23_replaced_user_handler_is_cut_off
              [ StaffRequest "s1" "bob" "g1" (Some 2%nat);
                StaffData 2 (StaffEvConnectUser "u1") ]
              twice_connected "u1" 0
              (User.mk "u1" "alice" UserStatusOnline (Some 1%nat)
                 1700000000000000000 "")
              (UserEvMessage "hi"))
    as (g' & Hrun & _ & Hev).
  - destruct (gateway_run_ok [ UserRequest "u1" "alice" (Some 1%nat);
                               UserRequest "u1" "alice" (Some 7%nat) ]
                (gateway_start clock0 [("g1"%string, "support"%string)])
                (gateway_start_ok _ _)) as (g0 & Hrun0 & Hok0 & _).
    assert (g0 = twice_connected) as <-; [|exact Hok0].
    unfold twice_connected. by rewrite Hrun0.
  - vm_compute. reflexivity.
  - reflexivity.
  - intros u Hu.
    assert (Hm : users (service twice_connected) = {[ "u1"%string := 1%nat ]})
      by (vm_compute; reflexivity).
    rewrite Hm in Hu. apply lookup_singleton_Some in Hu as [_ [=]].
  - exists g'. split; [exact Hrun|]. split; [exact Hev|].
    assert (Hrun' : gateway_run [ StaffRequest "s1" "bob" "g1" (Some 2%nat);
                                  StaffData 2 (StaffEvConnectUser "u1") ]
                      twice_connected
                    = Some (default twice_connected
                              (gateway_run [ StaffRequest "s1" "bob" "g1" (Some 2%nat);
                                             StaffData 2 (StaffEvConnectUser "u1") ]
                                 twice_connected)))
      by (vm_compute; reflexivity).
    rewrite Hrun' in Hrun. injection Hrun as <-. vm_compute. reflexivity.
Defined.

(** ** Groups *)

(** X24. [CreateGroup] never fails and does not look at the group table
    first: under an id that is in use it files a new, empty group object in
    place of the old one.  The old object is left as it is, every other
    group, every staff member and every session is as before; so the staff
    members who joined under that id stay connected and keep naming it, but
    are not members of the group now filed under it. *)
Theorem X24_create_group_replaces (w : World) (g n : string) :
  reachable w ->
  exists p w',
    CreateGroup g n w = Some (p, w') /\
    h_groups w !! p = None /\
    groups w' !! g = Some p /\
    group_of w' g = Some (CSGroup.mk g n ∅) /\
    (forall l gr, h_groups w !! l = Some gr -> h_groups w' !! l = Some gr) /\
    (forall g', g' <> g -> group_of w' g' = group_of w g') /\
    (forall a, staff_of w' a = staff_of w a) /\
    (forall k, session_of w' k = session_of w k) /\
    (forall u, user_of w' u = user_of w u).
Proof.
  intros Hwf%reachable_wf. rewrite CreateGroup_eq.
  do 2 eexists. split; [reflexivity|].
  split; [by apply lookup_ge_None_2|].
  split; [simpl; apply lookup_insert_eq|].
  split.
  { unfold group_of. simpl. rewrite lookup_insert_eq.
    by rewrite lookup_app_r, Nat.sub_diag by lia. }
  split; [intros l gr Hl; simpl; by apply lookup_app_l_Some|].
  split; [|done].
  intros g' Hne. unfold group_of. simpl. rewrite lookup_insert_ne by done.
  destruct (groups w !! g') as [l|] eqn:Hl; [|done].
  by rewrite lookup_app_l by (by eapply wf_groups).
Qed.

(** g1 is created a second time while s1 and s2 are connected to it. *)
Lemma X24_witness :
  exists p w',
    CreateGroup "g1" "support, again" (scene setup) = Some (p, w') /\
    group_of w' "g1" = Some (CSGroup.mk "g1" "support, again" ∅) /\
    (CSGroup.Members <$> group_of (scene setup) "g1")
      = Some {[ "s1" := 0%nat; "s2" := 1%nat ]} /\
    (CSStaff.GroupID <$> staff_of w' "s1") = Some "g1"%string.
Proof.
  destruct (X24_create_group_replaces (scene setup) "g1" "support, again")
    as (p & w' & Hrun & _ & _ & Hg & _ & _ & Hs & _).
  - apply (scene_reachable setup). vm_compute. reflexivity.
  - exists p, w'. split; [exact Hrun|]. split; [exact Hg|].
    split; [vm_compute; reflexivity|]. rewrite Hs. vm_compute. reflexivity.
Defined.
